(** * virtualbricks: brick lifecycle and project persistence

    A shallow embedding of [virtualbricks/bricks.py], [virtualbricks/base.py]
    and [virtualbricks/configfile.py].

    Mutable Python objects become records threaded through a small
    state-and-exception monad; everything the code asks of the operating
    system (process creation, [os.system], the file system) is answered by
    a read-only environment record, and everything it tells the outside
    world (signals, log lines, spawned commands) is appended to a trace. *)

From Stdlib Require Import Ascii String ZArith Lia Bool.
From stdpp Require Import strings gmap list pretty.

(** ** Python primitives *)

Module Py.

(** Exceptions the modelled code can raise. *)
Inductive exn : Type :=
| KeyError (key : string)
| IndexError
| ValueError
| AttributeError (attr : string)
| NotImplementedError (what : string)
| IOError
| OSError (errno : Z)
| BadConfigError (brick : string)
| NotConnectedError (brick : string)
| LinkLoopError.

Inductive result (A : Type) : Type :=
| Ok (a : A)
| Raise (e : exn).
Arguments Ok {A} a.
Arguments Raise {A} e.

Definition rbind {A B} (r : result A) (k : A -> result B) : result B :=
  match r with
  | Ok a => k a
  | Raise e => Raise e
  end.

Definition dquote : ascii := "034"%char.
Definition newline : ascii := "010"%char.
Definition nl : string := String newline "".

(** [s.startswith(pre)] *)
Definition startswith (s pre : string) : bool := String.prefix pre s.

(** [re.sub(c, by, s)] for a pattern that is the single literal character
    [c] and a replacement without group references. *)
Fixpoint re_sub_char (c : ascii) (by_ : string) (s : string) : string :=
  match s with
  | "" => ""
  | String a rest =>
      if Ascii.eqb a c then by_ +:+ re_sub_char c by_ rest
      else String a (re_sub_char c by_ rest)
  end.

(** [s.rstrip(chars)] *)
Fixpoint rstrip (chars : list ascii) (s : string) : string :=
  match s with
  | "" => ""
  | String a rest =>
      match rstrip chars rest with
      | "" => if existsb (Ascii.eqb a) chars then "" else String a ""
      | r => String a r
      end
  end.

(** [s.lstrip(chars)] *)
Fixpoint lstrip (chars : list ascii) (s : string) : string :=
  match s with
  | "" => ""
  | String a rest =>
      if existsb (Ascii.eqb a) chars then lstrip chars rest else s
  end.

(** The characters [str.strip()] removes when called without argument. *)
Definition whitespace : list ascii :=
  [" "%char; "009"%char; "010"%char; "011"%char; "012"%char; "013"%char].

Definition strip (s : string) : string := lstrip whitespace (rstrip whitespace s).

(** [s.split(sep)] for a one-character separator: never the empty list. *)
Fixpoint split (sep : ascii) (s : string) : list string :=
  match s with
  | "" => [""]
  | String a rest =>
      if Ascii.eqb a sep then "" :: split sep rest
      else match split sep rest with
           | [] => [String a ""]
           | w :: ws => String a w :: ws
           end
  end.

(** [s.split(sep, 1)]: the part before the first separator, and the rest
    when there is a separator. *)
Fixpoint split1 (sep : ascii) (s : string) : list string :=
  match s with
  | "" => [""]
  | String a rest =>
      if Ascii.eqb a sep then [""; rest]
      else match split1 sep rest with
           | [] => [String a ""]
           | w :: ws => String a w :: ws
           end
  end.

(** [sub in s] *)
Fixpoint contains (sub s : string) : bool :=
  String.prefix sub s ||
  match s with
  | "" => false
  | String _ rest => contains sub rest
  end.

(** The part of [s] before its first line feed: what [.] can match from
    the start of the string. *)
Fixpoint first_line (s : string) : string :=
  match s with
  | "" => ""
  | String a rest => if Ascii.eqb a newline then "" else String a (first_line rest)
  end.

(** [re.search("\A.*" + lit, s)] for a literal [lit] without line feed:
    [.*] runs over anything but a line feed, so [lit] has to occur in the
    first line of [s]. *)
Definition re_search_anywhere (lit s : string) : bool :=
  contains lit (first_line s).

(** [sep.join(l)] *)
Definition join (sep : string) (l : list string) : string := String.concat sep l.

(** [l[i]] on a list: [IndexError] out of range. *)
Definition index {A} (l : list A) (i : nat) : result A :=
  match l !! i with
  | Some a => Ok a
  | None => Raise IndexError
  end.

(** [l[i] = v] on a list: [IndexError] out of range. *)
Definition setitem {A} (l : list A) (i : nat) (v : A) : result (list A) :=
  if decide (i < length l)%nat then Ok (<[i := v]> l) else Raise IndexError.

(** Computations over a mutable state [S] that may raise: the state an
    exception leaves behind is kept, as Python keeps the mutations made
    before a [raise]. *)
Definition SE (S A : Type) : Type := S -> result A * S.

Section StateExn.
Context {S : Type}.

Definition ret {A} (a : A) : SE S A := fun s => (Ok a, s).
Definition raise {A} (e : exn) : SE S A := fun s => (Raise e, s).
Definition bind {A B} (m : SE S A) (k : A -> SE S B) : SE S B :=
  fun s => match m s with
           | (Ok a, s') => k a s'
           | (Raise e, s') => (Raise e, s')
           end.
Definition lift {A} (r : result A) : SE S A := fun s => (r, s).
Definition get_state : SE S S := fun s => (Ok s, s).
Definition put_state (s : S) : SE S unit := fun _ => (Ok tt, s).

(** [try: m except: h]; the handler re-raises what it does not catch. *)
Definition try_except {A} (m : SE S A) (h : exn -> SE S A) : SE S A :=
  fun s => match m s with
           | (Ok a, s') => (Ok a, s')
           | (Raise e, s') => h e s'
           end.

(** [try: m finally: fin] *)
Definition try_finally {A} (m : SE S A) (fin : SE S unit) : SE S A :=
  fun s => match m s with
           | (r, s') =>
               match fin s' with
               | (Ok _, s'') => (r, s'')
               | (Raise e, s'') => (Raise e, s'')
               end
           end.
End StateExn.

#[export] Instance SE_ret {S} : MRet (SE S) := @ret S.
#[export] Instance SE_bind {S} : MBind (SE S) := fun A B k m => bind m k.

(** [for x in l: body(x)] *)
Fixpoint for_each {S A} (l : list A) (body : A -> SE S unit) : SE S unit :=
  match l with
  | [] => mret tt
  | x :: rest => body x;; for_each rest body
  end.

(** How a call ended when its unbounded loops are followed for a bounded
    number of rounds. *)
Inductive Completion : Type :=
| Returned
| StillLooping.

(** [str(n)] for an integer. *)
Definition str_of_int (n : Z) : string := pretty n.

End Py.
Export Py.

(** ** bricks.py and base.py *)

Module Bricks.

(** A spawned process as [subprocess.Popen] presents it.  [proc_alive_polls]
    is what the operating system will answer to [poll()]: [Some n] means the
    next [n] calls return [None] and every later one [proc_returncode];
    [None] means the process never reports an exit. *)
Record Proc : Type := mkProc {
  proc_pid : Z;
  proc_alive_polls : option nat;
  proc_returncode : Z
}.

(** [proc.poll()] *)
Definition poll (p : Proc) : option Z * Proc :=
  match proc_alive_polls p with
  | Some O => (Some (proc_returncode p), p)
  | Some (S n) => (None, mkProc (proc_pid p) (Some n) (proc_returncode p))
  | None => (None, p)
  end.

(** [console.RemoteHost], as far as the modelled code looks at it;
    [host_baseimage] is the attribute the loader creates. *)
Record RemoteHost : Type := mkRemoteHost {
  host_addr : string * Z;
  host_password : string;
  host_baseimages : string;
  host_baseimage : option string;
  host_qemupath : string;
  host_vdepath : string;
  host_bricksdirectory : string;
  host_autoconnect : bool;
  host_connected : bool
}.

(** What is read through a [.brick] back-reference: the name and the type
    of the brick referred to. *)
Record BrickRef : Type := mkBrickRef {
  ref_name : string;
  ref_type : string
}.

(** [link.Plug] and [link.Sock], as far as the modelled code looks at them. *)
Record Sock : Type := mkSock {
  sock_brick : BrickRef;
  sock_nickname : string;
  sock_model : string;
  sock_mac : string
}.

Record Plug : Type := mkPlug {
  plug_brick : BrickRef;
  plug_sock : option Sock;
  plug_mode : string;
  plug_model : string;
  plug_mac : string
}.

(** A value of [command_builder]: the name of a configuration key, or a
    callable without arguments. *)
Inductive CmdValue : Type :=
| ConfigKey (key : string)
| Callable (f : unit -> option string).

(** The instance attributes of a [Brick], with the class attributes a
    subclass overrides ([type], [_needsudo], [prog], [configured]). *)
Record Brick : Type := mkBrick {
  name : string;
  btype : string;
  _needsudo : bool;
  prog : option string;
  configured : bool;
  active : bool;
  run_condition : bool;
  proc : option Proc;
  pid : option Z;
  need_restart_to_apply_changes : bool;
  internal_console : option string;
  plugs : list Plug;
  socks : list Sock;
  cfg : gmap string string;
  command_builder : list (string * CmdValue);
  config_socks : list string;
  homehost : option RemoteHost
}.

(** What the code makes observable outside the brick. *)
Inductive Effect : Type :=
| Emit (signal : string) (arg : option string)
| Log (level : string) (msg : string)
| Popen (command_line : list string) (out : option string)
| HostSend (addr : string) (msg : string)
| EventPoweron (event : string)
| Terminate (pid : Z)
| System (cmd : string)
| Sleep
| ConsoleConnect (path : string)
| ConsoleClose (path : string).

(** Everything the brick reads and does not own: the factory
    ([factory.TCP], the names [get_event_by_name] resolves), the settings,
    the methods [configured] and [connected] of its plugs, which [link.py]
    defines and which are taken as queries, and the answers of the
    operating system: the process [Popen] returns ([None] for [OSError]),
    whether a file opens for writing, the first line of a pidfile, the
    exit status of [os.system], whether [terminate] raises, whether a path
    exists and whether a socket connects. *)
Record Env : Type := mkEnv {
  factory_TCP : option unit;
  settings_sudo : string;
  MYPATH : string;
  factory_events : list string;
  plug_configured : Plug -> bool;
  plug_connected : Plug -> bool;
  os_popen : list string -> option Proc;
  os_open_write : string -> bool;
  os_read_pidfile : string -> option string;
  os_system : string -> Z;
  os_terminate_fails : bool;
  os_path_exists : string -> bool;
  os_socket_connect : string -> bool
}.

Record World : Type := mkWorld {
  brick : Brick;
  trace : list Effect
}.

(** Computations that read and update the brick, extend the trace and may
    raise. *)
Abbreviation M := (SE World).

Definition get : M Brick := fun w => (Ok (brick w), w).
Definition modify (f : Brick -> Brick) : M unit :=
  fun w => (Ok tt, mkWorld (f (brick w)) (trace w)).
Definition tell (e : Effect) : M unit :=
  fun w => (Ok tt, mkWorld (brick w) (trace w ++ [e])).

(** Attribute updates. *)
Definition set_active (v : bool) (b : Brick) : Brick :=
  mkBrick (name b) (btype b) (_needsudo b) (prog b) (configured b) v
    (run_condition b) (proc b) (pid b) (need_restart_to_apply_changes b)
    (internal_console b) (plugs b) (socks b) (cfg b) (command_builder b)
    (config_socks b) (homehost b).
Definition set_run_condition (v : bool) (b : Brick) : Brick :=
  mkBrick (name b) (btype b) (_needsudo b) (prog b) (configured b) (active b)
    v (proc b) (pid b) (need_restart_to_apply_changes b)
    (internal_console b) (plugs b) (socks b) (cfg b) (command_builder b)
    (config_socks b) (homehost b).
Definition set_proc (v : option Proc) (b : Brick) : Brick :=
  mkBrick (name b) (btype b) (_needsudo b) (prog b) (configured b) (active b)
    (run_condition b) v (pid b) (need_restart_to_apply_changes b)
    (internal_console b) (plugs b) (socks b) (cfg b) (command_builder b)
    (config_socks b) (homehost b).
Definition set_pid (v : option Z) (b : Brick) : Brick :=
  mkBrick (name b) (btype b) (_needsudo b) (prog b) (configured b) (active b)
    (run_condition b) (proc b) v (need_restart_to_apply_changes b)
    (internal_console b) (plugs b) (socks b) (cfg b) (command_builder b)
    (config_socks b) (homehost b).
Definition set_need_restart (v : bool) (b : Brick) : Brick :=
  mkBrick (name b) (btype b) (_needsudo b) (prog b) (configured b) (active b)
    (run_condition b) (proc b) (pid b) v
    (internal_console b) (plugs b) (socks b) (cfg b) (command_builder b)
    (config_socks b) (homehost b).
Definition set_internal_console (v : option string) (b : Brick) : Brick :=
  mkBrick (name b) (btype b) (_needsudo b) (prog b) (configured b) (active b)
    (run_condition b) (proc b) (pid b) (need_restart_to_apply_changes b)
    v (plugs b) (socks b) (cfg b) (command_builder b)
    (config_socks b) (homehost b).

Definition set_config_socks (v : list string) (b : Brick) : Brick :=
  mkBrick (name b) (btype b) (_needsudo b) (prog b) (configured b) (active b)
    (run_condition b) (proc b) (pid b) (need_restart_to_apply_changes b)
    (internal_console b) (plugs b) (socks b) (cfg b) (command_builder b)
    v (homehost b).

(** [self.cfg.<attr>]: the configuration is a dictionary read through
    attributes. *)
Definition cfg_attr (b : Brick) (attr : string) : result string :=
  match cfg b !! attr with
  | Some v => Ok v
  | None => Raise (AttributeError attr)
  end.

(** [base.Base.get_type] *)
Definition get_type (b : Brick) : string := btype b.

(** [base.Base.needsudo] *)
Definition needsudo (env : Env) (b : Brick) : bool :=
  match factory_TCP env with
  | None => _needsudo b
  | Some _ => false
  end.

(** [Brick.path], [Brick.console], [Brick.pidfile] *)
Definition path (env : Env) (b : Brick) : string :=
  MYPATH env +:+ "/" +:+ name b +:+ ".ctl".
Definition console (env : Env) (b : Brick) : string :=
  MYPATH env +:+ "/" +:+ name b +:+ ".mgmt".
Definition pidfile (b : Brick) : string := "/tmp/" +:+ name b +:+ ".pid".

(** [Brick.properly_connected] *)
Fixpoint properly_connected_loop (env : Env) (ps : list Plug) : bool :=
  match ps with
  | [] => true
  | p :: rest =>
      if negb (plug_configured env p) then false
      else properly_connected_loop env rest
  end.
Definition properly_connected (env : Env) (b : Brick) : bool :=
  properly_connected_loop env (plugs b).

(** [Brick.check_links] *)
Fixpoint check_links_loop (env : Env) (ps : list Plug) : bool :=
  match ps with
  | [] => true
  | p :: rest =>
      if negb (plug_connected env p) then false
      else check_links_loop env rest
  end.
Definition check_links (env : Env) (b : Brick) : bool :=
  check_links_loop env (plugs b).

(** The value of a [command_builder] entry: [v()] for a callable,
    [self.cfg.get(v)] otherwise. *)
Definition resolve (b : Brick) (v : CmdValue) : option string :=
  match v with
  | Callable f => f tt
  | ConfigKey k => cfg b !! k
  end.

(** [Brick.build_cmd_line].  The loop appends to [res]; the items come in
    the order the dictionary yields them.  [value is "*"] compares object
    identity; CPython shares the one-character strings, so the test is
    taken as equality with ["*"]. *)
Fixpoint build_cmd_line_loop (b : Brick) (items : list (string * CmdValue))
    (res : list string) : list string :=
  match items with
  | [] => res
  | (switch, v) :: rest =>
      let res' :=
        if negb (startswith switch "#") then
          let value := resolve b v in
          match value with
          | Some val =>
              if String.eqb val "*" then res ++ [switch]
              else if (0 <? String.length val)%nat then
                let res1 :=
                  if negb (startswith switch "*") then res ++ [switch]
                  else res in
                res1 ++ [val]
              else res
          | None => res
          end
        else res in
      build_cmd_line_loop b rest res'
  end.

Definition build_cmd_line (b : Brick) : list string :=
  build_cmd_line_loop b (command_builder b) [].

(** [Brick.args]; [Brick.prog] raises in the base class. *)
Definition args (b : Brick) : result (list string) :=
  match prog b with
  | None => Raise (NotImplementedError "Brick.prog")
  | Some p => Ok ([p] ++ build_cmd_line b)
  end.

(** [Brick.escape]: backslash before every double quote. *)
Definition escape (arg : string) : string :=
  re_sub_char dquote (String "\"%char (String dquote "")) arg.

(** [factory.get_event_by_name]: the event of that name, or [None]. *)
Definition get_event_by_name (env : Env) (n : string) : option string :=
  if bool_decide (n ∈ factory_events env) then Some n else None.

(** [Brick.start_related_events].  [and], [or] and [not] evaluate as in
    Python: the right operand is read only when the left one does not
    decide.  The warning names [poff_vbevent] whichever slot was used. *)
Definition start_related_events (env : Env) (on off : bool) : M unit :=
  if negb on && negb off then mret tt
  else
    b ← get;
    off_empty ← (if off then
                   v ← lift (cfg_attr b "poff_vbevent");
                   mret (String.eqb v "")
                 else mret false);
    if (off_empty : bool) then mret tt
    else
      on_empty ← (if on then
                    v ← lift (cfg_attr b "pon_vbevent");
                    mret (String.eqb v "")
                  else mret false);
      if (on_empty : bool) then mret tt
      else
        ev ← (if off then
                v ← lift (cfg_attr b "poff_vbevent");
                mret (get_event_by_name env v)
              else
                v ← lift (cfg_attr b "pon_vbevent");
                mret (get_event_by_name env v));
        match ev with
        | Some e => tell (EventPoweron e)
        | None =>
            v ← lift (cfg_attr b "poff_vbevent");
            tell (Log "warning"
                    ("Warning. The Event '" +:+ v +:+ "' attached to Brick '"
                     +:+ name b +:+ "' is not available. Skipping execution."))
        end.

(** [Brick.post_poweron] *)
Definition post_poweron (env : Env) : M unit :=
  modify (set_active true);;
  start_related_events env true false.

(** [Brick.post_poweroff]: [on] keeps its default, [True]. *)
Definition post_poweroff (env : Env) : M unit :=
  modify (set_active false);;
  start_related_events env true true.

(** [Brick.has_console]: [n] counts the rounds of [range(1, 10)] left. *)
Fixpoint has_console_loop (env : Env) (closing : bool) (n : nat) : M bool :=
  match n with
  | O => mret false
  | S n' =>
      b ← get;
      if bool_decide (is_Some (proc b))
         && (0 <? String.length (console env b))%nat
         && os_path_exists env (console env b)
      then mret true
      else if closing then mret false
      else tell Sleep;; has_console_loop env closing n'
  end.
Definition has_console (env : Env) (closing : bool) : M bool :=
  has_console_loop env closing 9.

(** [Brick.open_internal_console] *)
Fixpoint connect_loop (env : Env) (n : nat) : M (option string) :=
  match n with
  | O =>
      b ← get;
      tell (Log "error" (get_type b +:+ ": error opening internal console"));;
      mret None
  | S n' =>
      b ← get;
      tell Sleep;;
      if os_socket_connect env (console env b)
      then tell (ConsoleConnect (console env b));; mret (Some (console env b))
      else connect_loop env n'
  end.
Definition open_internal_console (env : Env) : M (option string) :=
  tell (Log "debug" "open_internal_console");;
  hc ← has_console env false;
  if negb hc then
    b ← get;
    tell (Log "debug" (get_type b +:+ " does not have a console"));;
    mret None
  else connect_loop env 9.

(** [Brick.close_internal_console] *)
Definition close_internal_console (env : Env) : M unit :=
  hc ← has_console env true;
  if negb hc then mret tt
  else
    b ← get;
    match internal_console b with
    | Some c => tell (ConsoleClose c)
    | None => raise (AttributeError "close")
    end.

(** The [needsudo()] block of [Brick._poweron]: the command line that is
    spawned, from the one [args()] returned. *)
Definition sudo_command_line (env : Env) (b : Brick)
    (command_line : list string) : result (list string) :=
  if needsudo env b then
    if String.eqb (get_type b) "Qemu" then
      rbind (args b) (λ a,
        Ok (([] ++ [settings_sudo env]) ++ map escape a
            ++ ["-pidfile"] ++ [pidfile b]))
    else
      let sudoarg :=
        fold_left (λ acc cmdarg, acc +:+ cmdarg +:+ " ") command_line "" in
      let sudoarg := sudoarg +:+ "-P " +:+ pidfile b in
      rbind (setitem command_line 0 (settings_sudo env)) (λ cl0,
        setitem cl0 1 (escape sudoarg))
  else Ok command_line.

(** The [try] block of the local branch of [Brick._poweron]: [True] when
    [self.proc] holds the new process, [False] after [except OSError]. *)
Definition spawn_local (env : Env) (command_line : list string) : M bool :=
  try_except
    (b ← get;
     out ← (if String.eqb (get_type b) "Qemu" then
              stdout ← lift (cfg_attr b "stdout");
              if negb (String.eqb stdout "") then
                if os_open_write env stdout then mret (Some stdout)
                else raise IOError
              else mret None
            else mret None);
     match os_popen env command_line with
     | Some p =>
         tell (Popen command_line out);;
         modify (set_proc (Some p));;
         mret true
     | None => raise (OSError 2)
     end)
    (λ e, match e with
          | OSError _ =>
              tell (Log "error"
                      "OSError: Brick startup failed. Check your configuration!");;
              mret false
          | _ => raise e
          end).

(** [Brick._poweron].  A [Popen] object is true, so [if self.proc:] always
    takes its first branch once the spawn succeeded. *)
Definition _poweron (env : Env) : M unit :=
  b ← get;
  if bool_decide (is_Some (proc b)) then mret tt
  else
    r ← try_except (cl ← lift (args b); mret (Some cl))
          (λ _, tell (Log "exception"
                        "Error while retrieving the list of arguments.");;
                mret None);
    match r with
    | None => mret tt
    | Some command_line =>
        command_line ← lift (sudo_command_line env b command_line);
        tell (Log "debug" ("Starting: '" +:+ join " " command_line +:+ "'"));;
        match homehost b with
        | Some h =>
            if negb (host_connected h) then
              tell (Log "error"
                      "Error: You must be connected to the host to perform this action")
            else tell (HostSend (host_addr h).1 (name b +:+ " on"))
        | None =>
            spawned ← spawn_local env command_line;
            if negb spawned then mret tt
            else
              modify (λ b', set_pid (proc_pid <$> proc b') b');;
              ic ← open_internal_console env;
              modify (set_internal_console ic);;
              tell (Emit "brick-started" (Some (name b)));;
              modify (set_run_condition true);;
              post_poweron env
        end
    end.

(** [Brick.poweron] *)
Definition poweron (env : Env) : M unit :=
  b ← get;
  (match factory_TCP env with
   | None =>
       if negb (configured b) then raise (BadConfigError (name b))
       else if negb (properly_connected env b)
            then raise (NotConnectedError (name b))
       else if negb (check_links env b) then raise LinkLoopError
       else mret tt
   | Some _ => mret tt
   end);;
  _poweron env;;
  tell (Emit "changed" None).

(** The [while ret is None] loop of [Brick.poweroff]; [fuel] bounds the
    rounds that are followed. *)
Fixpoint wait_loop (fuel : nat) : M Completion :=
  match fuel with
  | O => mret StillLooping
  | S fuel' =>
      b ← get;
      match proc b with
      | None => raise (AttributeError "poll")
      | Some p =>
          let '(ret, p') := poll p in
          modify (set_proc (Some p'));;
          tell Sleep;;
          match ret with
          | None => wait_loop fuel'
          | Some _ => mret Returned
          end
      end
  end.

(** The [if is_running:] block of [Brick.poweroff]: [False] when the method
    returns from inside it. *)
Definition stop_running (env : Env) (p : Proc) : M bool :=
  b ← get;
  r ← (if needsudo env b then
         match os_read_pidfile env (pidfile b) with
         | None => raise IOError
         | Some line =>
             let pid := rstrip [newline] line in
             let cmd := settings_sudo env +:+ String " " (String dquote "kill ")
                        +:+ pid +:+ String dquote "" in
             tell (System cmd);;
             mret (Some (os_system env cmd))
         end
       else
         if (proc_pid p <=? 1)%Z then mret None
         else
           let pid := proc_pid p in
           (if os_terminate_fails env
            then tell (Log "error" "can not send SIGTERM")
            else tell (Terminate pid));;
           tell (System ("kill " +:+ str_of_int pid));;
           mret (Some (os_system env ("kill " +:+ str_of_int pid))));
  match r with
  | None => mret false
  | Some ret =>
      if negb (ret =? 0)%Z then
        tell (Log "error"
                ("can not stop brick error code: " +:+ str_of_int ret));;
        mret false
      else mret true
  end.

(** The statements of [Brick.poweroff] after the loop.  The handle is
    cleared first, so [has_console] answers [False] to
    [close_internal_console]. *)
Definition finish_poweroff (env : Env) : M unit :=
  b ← get;
  modify (set_proc None);;
  modify (set_need_restart false);;
  close_internal_console env;;
  modify (set_internal_console None);;
  tell (Emit "brick-stopped" (Some (name b)));;
  post_poweroff env.

(** [Brick.poweroff] *)
Definition poweroff (fuel : nat) (env : Env) : M Completion :=
  b ← get;
  match proc b with
  | None => mret Returned
  | Some p0 =>
      if negb (run_condition b) then mret Returned
      else
        modify (set_run_condition false);;
        match homehost b with
        | Some h =>
            modify (set_proc None);;
            tell (HostSend (host_addr h).1 (name b +:+ " off" +:+ nl));;
            mret Returned
        | None =>
            tell (Log "debug" ("Shutting down " +:+ name b));;
            let '(st, p) := poll p0 in
            modify (set_proc (Some p));;
            go_on ← (if bool_decide (st = None) then stop_running env p
                     else mret true);
            if negb go_on then mret Returned
            else
              fin ← wait_loop fuel;
              match fin with
              | StillLooping => mret StillLooping
              | Returned => finish_poweroff env;; mret Returned
              end
        end
  end.

End Bricks.

(** ** configfile.py *)

Module Configfile.
Import Bricks.

(** *** [str.format] with keyword arguments *)

(** The objects handed to [format] as keyword arguments, and what their
    attributes lead to. *)
Inductive PyObj : Type :=
| OStr (s : string)
| OPlug (p : Plug)
| OSock (s : Sock)
| OBrick (r : BrickRef)
| ONone.

Definition getattr (o : PyObj) (a : string) : result PyObj :=
  match o with
  | OPlug p =>
      if String.eqb a "brick" then Ok (OBrick (plug_brick p))
      else if String.eqb a "sock" then
        Ok (match plug_sock p with Some s => OSock s | None => ONone end)
      else if String.eqb a "mode" then Ok (OStr (plug_mode p))
      else if String.eqb a "model" then Ok (OStr (plug_model p))
      else if String.eqb a "mac" then Ok (OStr (plug_mac p))
      else Raise (AttributeError a)
  | OSock s =>
      if String.eqb a "brick" then Ok (OBrick (sock_brick s))
      else if String.eqb a "nickname" then Ok (OStr (sock_nickname s))
      else if String.eqb a "model" then Ok (OStr (sock_model s))
      else if String.eqb a "mac" then Ok (OStr (sock_mac s))
      else Raise (AttributeError a)
  | OBrick r =>
      if String.eqb a "name" then Ok (OStr (ref_name r))
      else if String.eqb a "type" then Ok (OStr (ref_type r))
      else Raise (AttributeError a)
  | OStr _ | ONone => Raise (AttributeError a)
  end.

(** [str(o)] for a value that ends a replacement field. *)
Definition to_str (o : PyObj) : string :=
  match o with
  | OStr s => s
  | ONone => "None"
  | OPlug _ | OSock _ | OBrick _ => "<object>"
  end.

Fixpoint getattrs (o : PyObj) (attrs : list string) : result PyObj :=
  match attrs with
  | [] => Ok o
  | a :: rest => rbind (getattr o a) (λ o', getattrs o' rest)
  end.

Fixpoint kw_lookup (kwargs : list (string * PyObj)) (k : string) : result PyObj :=
  match kwargs with
  | [] => Raise (KeyError k)
  | (k', v) :: rest => if String.eqb k k' then Ok v else kw_lookup rest k
  end.

(** One replacement field [{arg.attr.attr}]: the keyword argument named
    first, then the attributes. *)
Definition format_field (kwargs : list (string * PyObj)) (field : string)
    : result string :=
  match split "." field with
  | [] => Raise ValueError
  | arg :: attrs =>
      rbind (kw_lookup kwargs arg) (λ o,
      rbind (getattrs o attrs) (λ v, Ok (to_str v)))
  end.

(** [t.format(k=v, ...)] for templates of literal text and replacement
    fields without conversion or format specification.  [field] holds the
    text read since an opening brace. *)
Fixpoint format_from (t : string) (kwargs : list (string * PyObj))
    (field : option string) : result string :=
  match t with
  | "" => match field with
          | None => Ok ""
          | Some _ => Raise ValueError
          end
  | String a rest =>
      match field with
      | None =>
          if Ascii.eqb a "{" then format_from rest kwargs (Some "")
          else rbind (format_from rest kwargs None) (λ r, Ok (String a r))
      | Some f =>
          if Ascii.eqb a "}" then
            rbind (format_field kwargs f) (λ v,
            rbind (format_from rest kwargs None) (λ r, Ok (v +:+ r)))
          else format_from rest kwargs (Some (f +:+ String a ""))
      end
  end.

Definition format (t : string) (kwargs : list (string * PyObj)) : result string :=
  format_from t kwargs None.

(** *** The file system *)

(** Regular files by path. *)
Abbreviation FS := (gmap string string).

(** The failures of the operating system that the paths alone do not
    explain (another device, permissions): the [errno] a rename fails with,
    and whether a copy, a removal or an [open] fails. *)
Record Faults : Type := mkFaults {
  rename_fault : string -> string -> option Z;
  copy_fault : string -> string -> bool;
  remove_fault : string -> bool;
  open_fault : string -> bool
}.

Definition EXDEV : Z := 18.
Definition ENOENT : Z := 2.
Definition EACCES : Z := 13.

(** The state of the persistence calls: the files and the log. *)
Record Disk : Type := mkDisk {
  files : FS;
  disk_log : list (string * string)
}.

Abbreviation D := (SE Disk).

Definition log_disk (level msg : string) : D unit :=
  fun d => (Ok tt, mkDisk (files d) (disk_log d ++ [(level, msg)])).
Definition set_files (f : FS -> FS) : D unit :=
  fun d => (Ok tt, mkDisk (f (files d)) (disk_log d)).

(** [os.path.isfile] *)
Definition isfile (p : string) : D bool :=
  fun d => (Ok (bool_decide (is_Some (files d !! p))), d).

(** [os.rename] *)
Definition os_rename (flt : Faults) (src dst : string) : D unit :=
  d ← get_state;
  match files d !! src with
  | None => raise (OSError ENOENT)
  | Some content =>
      match rename_fault flt src dst with
      | Some errno => raise (OSError errno)
      | None => set_files (λ fs, <[dst := content]> (delete src fs))
      end
  end.

(** [shutil.copyfile] *)
Definition copyfile (flt : Faults) (src dst : string) : D unit :=
  d ← get_state;
  match files d !! src with
  | None => raise IOError
  | Some content =>
      if copy_fault flt src dst then raise IOError
      else set_files (λ fs, <[dst := content]> fs)
  end.

(** [os.remove] *)
Definition os_remove (flt : Faults) (p : string) : D unit :=
  d ← get_state;
  match files d !! p with
  | None => raise (OSError ENOENT)
  | Some _ =>
      if remove_fault flt p then raise (OSError EACCES)
      else set_files (λ fs, delete p fs)
  end.

(** [open(p).read()] *)
Definition read_file (flt : Faults) (p : string) : D string :=
  d ← get_state;
  match files d !! p with
  | None => raise IOError
  | Some content => if open_fault flt p then raise IOError else mret content
  end.

(** [open(p, "w")] and the writes that follow: the file holds what was
    written, also when the writer raised in between. *)
Definition write_file (flt : Faults) (p : string) (content : string) : D unit :=
  if open_fault flt p then raise IOError
  else set_files (λ fs, <[p := content]> fs).

(** [os.path.split]: the index after the last slash cuts the path; the
    head loses its trailing slashes unless it is made of slashes only. *)
Fixpoint split_last_slash (p : string) : string * string :=
  match p with
  | "" => ("", "")
  | String a rest =>
      let '(h, t) := split_last_slash rest in
      if contains "/" rest then (String a h, t)
      else if Ascii.eqb a "/" then ("/", rest)
      else ("", String a rest)
  end.
Definition path_split (p : string) : string * string :=
  let '(h, t) := split_last_slash p in
  if String.eqb (rstrip ["/"%char] h) "" then (h, t)
  else (rstrip ["/"%char] h, t).

(** [os.path.join] of two components. *)
Definition path_join (a b : string) : string :=
  if startswith b "/" then b
  else if String.eqb a "" then b
  else if String.eqb (rstrip ["/"%char] a) a then a +:+ "/" +:+ b
  else a +:+ b.

(** *** The factory *)

Record DiskImage : Type := mkDiskImage {
  img_name : string;
  img_path : string
}.

Record Event : Type := mkEvent {
  event_name : string;
  event_cfg : list (string * string)
}.

(** [BrickFactory], as far as the modelled code looks at it. *)
Record Factory : Type := mkFactory {
  remote_hosts : list RemoteHost;
  disk_images : list DiskImage;
  events : list Event;
  bricks : list Brick;
  factory_socks : list Sock
}.

(** What a section header makes: an event or a brick, found by name. *)
Inductive Component : Type :=
| CEvent (n : string)
| CBrick (n : string).

(** The methods of the repository that [configfile.py] calls and that are
    defined in other modules.  A brick or a host is addressed by its
    position in the factory's list; a method that mutates takes the factory
    and returns it. *)
Record Collab : Type := mkCollab {
  brick_save_to : Brick -> string;
  event_save_to : Event -> string;
  hostonly_sock : Sock;
  newevent : string -> string -> Factory -> result Factory;
  newbrick : string -> string -> Factory -> result Factory;
  load_from : Component -> list string -> Factory -> result (Factory * list string);
  is_in_use : string -> Factory -> bool;
  os_access_read : string -> bool;
  new_disk_image : string -> Factory -> result Factory;
  get_host_by_name : string -> Factory -> result (Factory * nat);
  host_connect : nat -> Factory -> result Factory;
  add_sock : nat -> string -> string -> Factory -> result Factory;
  add_plug : nat -> Sock -> string -> string -> Factory -> result Factory;
  connect_to : nat -> string -> Factory -> result Factory;
  factory_reset : Factory -> Factory
}.

(** *** Saving *)

(** Writing to a file object: the state is the text written so far. *)
Abbreviation W := (SE string).

Definition write (s : string) : W unit := fun out => (Ok tt, out +:+ s).

(** The loop over [factory.bricks] in [__save_to]: the bricks' sections are
    written and the socks and plugs of the trailer collected. *)
Fixpoint save_bricks (c : Collab) (bs : list Brick)
    (socks : list Sock) (plugs : list Plug) : W (list Sock * list Plug) :=
  match bs with
  | [] => mret (socks, plugs)
  | brick :: rest =>
      write (brick_save_to c brick);;
      let socks :=
        if String.eqb (get_type brick) "Qemu"
        then socks ++ Bricks.socks brick else socks in
      let plugs :=
        plugs ++ filter (λ p, is_Some (plug_sock p)) (Bricks.plugs brick) in
      save_bricks c rest socks plugs
  end.

(** [ConfigFile.__save_to] *)
Definition __save_to (c : Collab) (factory : Factory) : W unit :=
  for_each (remote_hosts factory) (λ r,
    write ("[RemoteHost:" +:+ (host_addr r).1 +:+ "]" +:+ nl);;
    write ("port=" +:+ str_of_int (host_addr r).2 +:+ nl);;
    write ("password=" +:+ host_password r +:+ nl);;
    write ("baseimages=" +:+ host_baseimages r +:+ nl);;
    write ("qemupath=" +:+ host_qemupath r +:+ nl);;
    write ("vdepath=" +:+ host_vdepath r +:+ nl);;
    write ("bricksdirectory=" +:+ host_bricksdirectory r +:+ nl);;
    if host_autoconnect r then write ("autoconnect=True" +:+ nl +:+ nl)
    else write ("autoconnect=False" +:+ nl +:+ nl));;
  for_each (disk_images factory) (λ img,
    write ("[DiskImage:" +:+ img_name img +:+ "]" +:+ nl);;
    write ("path=" +:+ img_path img +:+ nl);;
    write nl);;
  for_each (events factory) (λ event, write (event_save_to c event));;
  '(socks, plugs) ← save_bricks c (bricks factory) [] [];
  for_each socks (λ sock,
    let t := "sock|{s.brick.name}|{s.nickname}|{s.model}|{s.mac}" +:+ nl in
    line ← lift (format t [("s", OSock sock)]);
    write line);;
  for_each plugs (λ plug,
    if String.eqb (ref_type (plug_brick plug)) "Qemu" then
      let t :=
        if String.eqb (plug_mode plug) "vde" then
          "link|{p.brick.name}|{p.sock.nickname}|{p.model}|" +:+
          "{p.mac}" +:+ nl
        else "userlink|{p.brick.name}||{p.model}|{pl.mac}" +:+ nl in
      line ← lift (format t [("p", OPlug plug)]);
      write line
    else if bool_decide (is_Some (plug_sock plug)) then
      let t := "link|{p.brick.name}|{p.sock.nickname}" +:+ nl in
      line ← lift (format t [("p", OPlug plug)]);
      write line
    else mret tt).

(** [ConfigFile.save_to] on a fresh file object: the outcome and the text
    written. *)
Definition save_to (c : Collab) (factory : Factory) : result unit * string :=
  __save_to c factory "".

(** [ConfigFile.save] for a file name, with the [backup] context manager
    around the body: the copy is removed only when the body returns. *)
Definition ConfigFile_save (c : Collab) (flt : Faults) (factory : Factory)
    (filename : string) : D unit :=
  log_disk "debug" ("CONFIG DUMP on " +:+ filename);;
  existed ← isfile filename;
  created ← (if (existed : bool) then
               copyfile flt filename (filename +:+ "~");; mret true
             else mret false);
  let '(head, tail) := path_split filename in
  let tmpfile := path_join head ("." +:+ tail +:+ ".sav") in
  let '(r, text) := save_to c factory in
  write_file flt tmpfile text;;
  lift r;;
  os_rename flt tmpfile filename;;
  if (created : bool) then os_remove flt (filename +:+ "~") else mret tt.

(** *** Restoring *)

(** The first [try] statement of [restore_backup]: the project file is
    set aside as [filename_back]. *)
Definition set_aside (flt : Faults) (filename filename_back : string) : D unit :=
  try_except
    (os_rename flt filename filename_back;;
     log_disk "info" ("Saved project to " +:+ filename_back +:+ "."))
    (λ e, match e with
          | OSError errno =>
              if (errno =? EXDEV)%Z then
                try_except (copyfile flt filename filename_back)
                  (λ e', match e' with
                         | IOError =>
                             log_disk "warning"
                               ("Cannot save to backup file " +:+ filename_back);;
                             log_disk "error"
                               "Cannot create a backup of the broject."
                         | _ => raise e'
                         end)
              else if (errno =? ENOENT)%Z then mret tt
              else
                log_disk "warning"
                  ("Cannot save to backup file " +:+ filename_back);;
                log_disk "error" "Cannot create a backup of the broject."
          | _ => raise e
          end).

(** The second [try] statement of [restore_backup]: the backup takes the
    place of the project file. *)
Definition put_back (flt : Faults) (filename fbackup filename_back : string)
    : D unit :=
  try_except
    (os_rename flt fbackup filename;;
     log_disk "info" ("Saved project to " +:+ filename_back +:+ ".");;
     log_disk "error"
       ("A backup file for the current project has been restored." +:+ nl
        +:+ "You can find more informations looking in View->Messages."))
    (λ e, match e with
          | OSError errno =>
              if (errno =? EXDEV)%Z then
                try_finally
                  (try_except
                     (copyfile flt fbackup filename;;
                      os_remove flt fbackup)
                     (λ e', match e' with
                            | IOError =>
                                log_disk "warning"
                                  ("Cannot restore backup file " +:+ fbackup);;
                                log_disk "error"
                                  "Cannot restore backup of the broject."
                            | _ => raise e'
                            end))
                  (try_except (os_remove flt fbackup)
                     (λ e', match e' with
                            | OSError _ => mret tt
                            | _ => raise e'
                            end))
              else if (errno =? ENOENT)%Z then mret tt
              else
                log_disk "warning"
                  ("Cannot restore backup file " +:+ fbackup);;
                log_disk "error" "Cannot restore backup of the broject."
          | _ => raise e
          end).

(** [restore_backup] *)
Definition restore_backup (flt : Faults) (filename fbackup : string) : D unit :=
  let filename_back := filename +:+ ".back" in
  found ← isfile fbackup;
  if (found : bool) then
    log_disk "info" "I found a backup project file, I'm going to restore it!";;
    set_aside flt filename filename_back;;
    log_disk "info" "I found a backup project file, I'm going to restore it!";;
    put_back flt filename fbackup filename_back
  else mret tt.

(** The state of a load: the factory being filled, the lines of the file
    object not read yet, and the log. *)
Record Loader : Type := mkLoader {
  factory : Factory;
  fileobj : list string;
  loader_log : list (string * string)
}.

Abbreviation R := (SE Loader).

Definition log_r (level msg : string) : R unit :=
  fun st => (Ok tt, mkLoader (factory st) (fileobj st)
                      (loader_log st ++ [(level, msg)])).

(** [fileobj.readline()]: the next line with its line feed, [""] at the
    end of the file. *)
Definition readline : R string :=
  fun st => match fileobj st with
            | [] => (Ok "", st)
            | l :: rest => (Ok l, mkLoader (factory st) rest (loader_log st))
            end.

(** A call of a factory method. *)
Definition with_factory (f : Factory -> result Factory) : R unit :=
  fun st => match f (factory st) with
            | Ok fa => (Ok tt, mkLoader fa (fileobj st) (loader_log st))
            | Raise e => (Raise e, st)
            end.

Definition set_bricks (bs : list Brick) (fa : Factory) : Factory :=
  mkFactory (remote_hosts fa) (disk_images fa) (events fa) bs (factory_socks fa).
Definition set_remote_hosts (hs : list RemoteHost) (fa : Factory) : Factory :=
  mkFactory hs (disk_images fa) (events fa) (bricks fa) (factory_socks fa).

(** [for bb in iter(factory.bricks)]: the list is read again at every
    round, so the body sees what the earlier rounds changed. *)
Definition for_bricks (body : nat -> Brick -> R unit) : R unit :=
  st ← get_state;
  for_each (seq 0 (length (bricks (factory st)))) (λ i,
    st' ← get_state;
    match bricks (factory st') !! i with
    | Some bb => body i bb
    | None => mret tt
    end).

(** The debug line after a sock or a plug was added. *)
Definition log_added (i : nat) : R unit :=
  st ← get_state;
  match bricks (factory st) !! i with
  | Some bb =>
      log_r "debug"
        ("added eth" +:+ pretty (length (plugs bb) + length (socks bb))%nat)
  | None => mret tt
  end.

(** The body of [if re.search("\A.*sock\|", l) and ...] in
    [__restore_from]. *)
Definition sock_line (c : Collab) (l : string) : R unit :=
  for_bricks (λ i bb,
    n ← lift (index (split "|" l) 1);
    if String.eqb (name bb) n then
      if String.eqb (get_type bb) "Qemu" then
        sockname ← lift (index (split "|" l) 2);
        model ← lift (index (split "|" l) 3);
        macaddr ← lift (index (split "|" l) 4);
        with_factory (add_sock c i macaddr model);;
        log_added i
      else mret tt
    else mret tt).

(** [for s in factory.socks: if s.nickname == sockname: ...; break] *)
Definition find_sock (fa : Factory) (sockname : string) : option Sock :=
  find (λ s, String.eqb (sock_nickname s) sockname) (factory_socks fa).

(** The body of [if re.search("\A.*link\|", l) and ...] in
    [__restore_from]. *)
Definition link_line (c : Collab) (l : string) : R unit :=
  for_bricks (λ i bb,
    n ← lift (index (split "|" l) 1);
    if String.eqb (name bb) n then
      if String.eqb (get_type bb) "Qemu" then
        sockname ← lift (index (split "|" l) 2);
        model ← lift (index (split "|" l) 3);
        macaddr ← lift (index (split "|" l) 4);
        st ← get_state;
        let this_sock :=
          if String.eqb sockname "_hostonly" then Some (hostonly_sock c)
          else find_sock (factory st) sockname in
        match this_sock with
        | None =>
            log_r "warning"
              ("socket '" +:+ sockname +:+
               "' not found while parsing following line: " +:+ l +:+ nl
               +:+ ". Skipping.")
        | Some s =>
            with_factory (add_plug c i s macaddr model);;
            log_added i
        end
      else
        field ← lift (index (split "|" l) 2);
        with_factory (λ fa,
          Ok (set_bricks
                (alter (λ b, set_config_socks
                               (config_socks b ++ [rstrip [newline] field]) b)
                   i (bricks fa))
                fa))
    else mret tt).

(** The [while] loop of the [DiskImage] branch: from the line [l] and the
    lines not read yet to the path found, the line the loop stopped at and
    the lines left.  [k, v = l.split("=", 1)] raises without [=]. *)
Fixpoint disk_image_loop (rest : list string) (l path : string)
    : result (string * string) * list string :=
  if String.eqb l "" || startswith l "[" then (Ok (path, l), rest)
  else
    let l := strip l in
    if String.eqb l "" then
      match rest with
      | [] => (Ok (path, ""), [])
      | x :: rest' => disk_image_loop rest' x path
      end
    else
      match split1 "=" l with
      | [k; v] =>
          let path := if String.eqb k "path" then v else path in
          match rest with
          | [] => (Ok (path, ""), [])
          | x :: rest' => disk_image_loop rest' x path
          end
      | _ => (Raise ValueError, rest)
      end.

Definition set_host_field (k v : string) (r : RemoteHost) : RemoteHost :=
  if String.eqb k "password" then
    mkRemoteHost (host_addr r) v (host_baseimages r) (host_baseimage r)
      (host_qemupath r) (host_vdepath r) (host_bricksdirectory r)
      (host_autoconnect r) (host_connected r)
  else if String.eqb k "autoconnect" && String.eqb v "True" then
    mkRemoteHost (host_addr r) (host_password r) (host_baseimages r)
      (host_baseimage r) (host_qemupath r) (host_vdepath r)
      (host_bricksdirectory r) true (host_connected r)
  else if String.eqb k "baseimages" then
    mkRemoteHost (host_addr r) (host_password r) (host_baseimages r) (Some v)
      (host_qemupath r) (host_vdepath r) (host_bricksdirectory r)
      (host_autoconnect r) (host_connected r)
  else if String.eqb k "vdepath" then
    mkRemoteHost (host_addr r) (host_password r) (host_baseimages r)
      (host_baseimage r) (host_qemupath r) v (host_bricksdirectory r)
      (host_autoconnect r) (host_connected r)
  else if String.eqb k "qemupath" then
    mkRemoteHost (host_addr r) (host_password r) (host_baseimages r)
      (host_baseimage r) v (host_vdepath r) (host_bricksdirectory r)
      (host_autoconnect r) (host_connected r)
  else if String.eqb k "bricksdirectory" then
    mkRemoteHost (host_addr r) (host_password r) (host_baseimages r)
      (host_baseimage r) (host_qemupath r) (host_vdepath r) v
      (host_autoconnect r) (host_connected r)
  else r.

(** The [while] loop of the [RemoteHost] branch; the host keeps what was
    assigned before [k, v = ...] raised. *)
Fixpoint remote_host_loop (rest : list string) (l : string) (newr : RemoteHost)
    : result string * (RemoteHost * list string) :=
  if String.eqb l "" || startswith l "[" then (Ok l, (newr, rest))
  else
    match split "=" (rstrip [newline] l) with
    | [k; v] =>
        let newr := set_host_field k v newr in
        match rest with
        | [] => (Ok "", (newr, []))
        | x :: rest' => remote_host_loop rest' x newr
        end
    | _ => (Raise ValueError, (newr, rest))
    end.

(** How the [try] block of a section header ends: with a component whose
    [load_from] is called next, or with [continue] at the line [l]. *)
Inductive HeaderOutcome : Type :=
| LoadFrom (component : option Component)
| Continue (l : string).

Definition get_event_by_name (fa : Factory) (n : string) : option Component :=
  if existsb (λ e, String.eqb (event_name e) n) (events fa)
  then Some (CEvent n) else None.
Definition get_brick_by_name (fa : Factory) (n : string) : option Component :=
  if existsb (λ b, String.eqb (name b) n) (bricks fa)
  then Some (CBrick n) else None.

(** The [try] block of [if l.startswith('[')]. *)
Definition header_body (c : Collab) (ntype name : string) : R HeaderOutcome :=
  if String.eqb ntype "Event" then
    with_factory (newevent c ntype name);;
    st ← get_state;
    mret (LoadFrom (get_event_by_name (factory st) name))
  else if String.eqb ntype "DiskImage" then
    log_r "debug" ("Found Disk image " +:+ name);;
    l ← readline;
    st ← get_state;
    let '(r, rest) := disk_image_loop (fileobj st) (rstrip [newline] l) "" in
    put_state (mkLoader (factory st) rest (loader_log st));;
    '(path, l) ← lift r;
    if is_in_use c name (factory st) then
      log_r "info" ("Skipping disk image, name " +:+ name +:+ " already in use");;
      mret (Continue l)
    else if negb (os_access_read c path) then mret (Continue l)
    else
      with_factory (new_disk_image c path);;
      mret (Continue l)
  else if String.eqb ntype "RemoteHost" then
    log_r "debug" ("Found remote host " +:+ name);;
    st ← get_state;
    '(fa, i) ← lift (get_host_by_name c name (factory st));
    put_state (mkLoader fa (fileobj st) (loader_log st));;
    l ← readline;
    st ← get_state;
    match remote_hosts (factory st) !! i with
    | None => raise (AttributeError "password")
    | Some newr =>
        let '(r, (newr, rest)) := remote_host_loop (fileobj st) l newr in
        put_state (mkLoader
                     (set_remote_hosts (<[i := newr]> (remote_hosts (factory st)))
                        (factory st))
                     rest (loader_log st));;
        l ← lift r;
        (if host_autoconnect newr then with_factory (host_connect c i)
         else mret tt);;
        mret (Continue l)
    end
  else
    with_factory (newbrick c ntype name);;
    st ← get_state;
    mret (LoadFrom (get_brick_by_name (factory st) name)).

(** [component.load_from(fileobj)] *)
Definition component_load_from (c : Collab) (component : option Component)
    : R unit :=
  match component with
  | None => raise (AttributeError "load_from")
  | Some cmp =>
      st ← get_state;
      '(fa, rest) ← lift (load_from c cmp (fileobj st) (factory st));
      put_state (mkLoader fa rest (loader_log st))
  end.

(** The [while (l)] loop of [__restore_from]; [fuel] bounds the rounds
    that are followed. *)
Fixpoint restore_loop (c : Collab) (fuel : nat) (l : string) : R Completion :=
  if String.eqb l "" then mret Returned
  else
    match fuel with
    | O => mret StillLooping
    | S fuel' =>
        let l := re_sub_char " " "" l in
        l ← (if re_search_anywhere "sock|" l
                && (3 <=? length (split "|" l))%nat
             then
               let l := rstrip [newline] l in
               log_r "debug" "sock detected";;
               sock_line c l;;
               mret l
             else mret l);
        l ← (if re_search_anywhere "link|" l
                && (3 <=? length (split "|" l))%nat
             then
               let l := rstrip [newline] l in
               log_r "debug" "link detected";;
               link_line c l;;
               mret l
             else mret l);
        if startswith l "[" then
          let ntype := hd "" (split ":" (lstrip ["["%char] l)) in
          n ← lift (index (split ":" l) 1);
          let name := rstrip ["]"%char; newline] n in
          log_r "info" ("new " +:+ ntype +:+ " : " +:+ name);;
          r ← try_except (header_body c ntype name)
                (λ e, log_r "err" "Bad config line";;
                      l' ← readline;
                      mret (Continue l'));
          match r with
          | Continue l' => restore_loop c fuel' l'
          | LoadFrom component =>
              component_load_from c component;;
              l' ← readline;
              restore_loop c fuel' l'
          end
        else
          l' ← readline;
          restore_loop c fuel' l'
    end.

(** [ConfigFile.__restore_from] *)
Definition __restore_from (c : Collab) (fuel : nat) : R Completion :=
  l ← readline;
  fin ← restore_loop c fuel l;
  match fin with
  | StillLooping => mret StillLooping
  | Returned =>
      for_bricks (λ i b,
        for_each (config_socks b) (λ s, with_factory (connect_to c i s)));;
      mret Returned
  end.

(** [ConfigFile.restore_from] *)
Definition restore_from (c : Collab) (fuel : nat) : R Completion :=
  __restore_from c fuel.

(** The lines of a text, each with its line feed. *)
Fixpoint readlines_from (s : string) (cur : string) : list string :=
  match s with
  | "" => if String.eqb cur "" then [] else [cur]
  | String a rest =>
      if Ascii.eqb a newline then (cur +:+ nl) :: readlines_from rest ""
      else readlines_from rest (cur +:+ String a "")
  end.
Definition readlines (s : string) : list string := readlines_from s "".

(** [ConfigFile.restore] for a file name: the outcome, the factory as the
    load left it, and the files. *)
Definition ConfigFile_restore (c : Collab) (flt : Faults) (fuel : nat)
    (fa : Factory) (filename : string) (d : Disk)
    : result Completion * Loader * Disk :=
  match (restore_backup flt filename (filename +:+ "~");;
         log_disk "info" ("Open " +:+ filename +:+ " project");;
         read_file flt filename) d with
  | (Raise e, d') => (Raise e, mkLoader fa [] [], d')
  | (Ok content, d') =>
      let '(r, st) := restore_from c fuel (mkLoader fa (readlines content) []) in
      (r, st, d')
  end.

(** [save] and [restore] of the module, with the file name given. *)
Definition save (c : Collab) (flt : Faults) (fa : Factory) (filename : string)
    : D unit :=
  ConfigFile_save c flt fa filename.

Definition restore (c : Collab) (flt : Faults) (fuel : nat) (fa : Factory)
    (filename : string) (d : Disk) : result Completion * Loader * Disk :=
  ConfigFile_restore c flt fuel (factory_reset c fa) filename d.

End Configfile.

(** ** Statements the lifecycle and the persistence are checked against *)

Module Statements.
Import Bricks Configfile.

(** What one [command_builder] entry adds to the argument vector, in the
    words of the command-line contract: nothing for a switch behind the
    reserved marker [#]; the switch alone for the wildcard value; the
    switch, unless it is positional (marked [*]), and the value for any
    other value that is not empty; nothing without a value. *)
Definition entry_tokens (switch : string) (value : option string) : list string :=
  if startswith switch "#" then []
  else match value with
       | None => []
       | Some "" => []
       | Some v =>
           if bool_decide (v = "*") then [switch]
           else if startswith switch "*" then [v]
           else [switch; v]
       end.

(** Stopping after starting, as the lifecycle states it: when [poweron]
    spawned a local process that reports its exit after finitely many
    polls, a [poweroff] that follows leaves no process handle and an
    inactive brick. *)
Definition poweroff_after_poweron_restores (env : Env) (w : World) : Prop :=
  forall (w1 : World) (p : Proc) (n : nat),
    proc (brick w) = None ->
    poweron env w = (Ok tt, w1) ->
    proc (brick w1) = Some p ->
    proc_alive_polls p = Some n ->
    exists (fuel : nat) (r : result Completion) (w2 : World),
      poweroff fuel env w1 = (r, w2) /\
      proc (brick w2) = None /\
      active (brick w2) = false.

(** What the termination step of [poweroff] needs to go through: with
    privilege escalation, a readable pidfile and a privileged [kill] that
    exits with status 0; without, a pid above 1 and a [kill] that exits
    with status 0. *)
Definition stop_succeeds (env : Env) (b : Brick) (p : Proc) : Prop :=
  if needsudo env b then
    exists line,
      os_read_pidfile env (pidfile b) = Some line /\
      os_system env (settings_sudo env +:+ String " " (String dquote "kill ")
                     +:+ rstrip [newline] line +:+ String dquote "") = 0%Z
  else
    (1 < proc_pid p)%Z /\
    os_system env ("kill " +:+ str_of_int (proc_pid p)) = 0%Z.

(** The plugs [__save_to] collects for the trailer: those with a sock, in
    the order of the bricks. *)
Definition bound_plugs (bs : list Brick) : list Plug :=
  flat_map (λ b, filter (λ p, is_Some (plug_sock p)) (plugs b)) bs.

(** Recovery after an interrupted save, as the persistence states it: when
    a backup with suffix [~] exists and [restore] returns, the lines that
    were parsed are those of the backup, and the backup is gone. *)
Definition restore_recovers_backup (c : Collab) (flt : Faults) (fuel : nat)
    (fa : Factory) (filename : string) (d : Disk) : Prop :=
  forall content : string,
    files d !! (filename +:+ "~") = Some content ->
    forall (r : Completion) (st : Loader) (d' : Disk),
      restore c flt fuel fa filename d = (Ok r, st, d') ->
      (Ok r, st) =
        restore_from c fuel
          (mkLoader (factory_reset c fa) (readlines content) []) /\
      files d' !! (filename +:+ "~") = None.

(** The backup can be moved over the project file: the rename goes
    through, or it fails as a move across devices and the copy and the
    removal that replace it go through. *)
Definition backup_can_move (flt : Faults) (filename : string) : Prop :=
  rename_fault flt (filename +:+ "~") filename = None \/
  (rename_fault flt (filename +:+ "~") filename = Some EXDEV /\
   copy_fault flt (filename +:+ "~") filename = false /\
   remove_fault flt (filename +:+ "~") = false).

(** The brick as a successful local start leaves it. *)
Definition started (p : Proc) (ic : option string) (b : Brick) : Brick :=
  set_active true (set_run_condition true (set_internal_console ic
    (set_pid (Some (proc_pid p)) (set_proc (Some p) b)))).

End Statements.

(** ** Example bricks, factories and environments *)

Module Examples.
Import Bricks Configfile.

(** An operating system where every request succeeds: a spawned process
    has pid 4242 and answers two polls before it reports its exit. *)
Definition env_ok : Env :=
  mkEnv None "gksu" "/home/u/.virtualbricks" ["ev1"]
    (λ p, bool_decide (is_Some (plug_sock p)))
    (λ p, bool_decide (is_Some (plug_sock p)))
    (λ _, Some (mkProc 4242 (Some 2%nat) 0))
    (λ _, true) (λ _, Some ("4242" +:+ nl)) (λ _, 0%Z) false
    (λ _, false) (λ _, false).

(** The same, except that [kill] exits with status 1. *)
Definition env_kill_fails : Env :=
  mkEnv None "gksu" "/home/u/.virtualbricks" ["ev1"]
    (λ p, bool_decide (is_Some (plug_sock p)))
    (λ p, bool_decide (is_Some (plug_sock p)))
    (λ _, Some (mkProc 4242 (Some 2%nat) 0))
    (λ _, true) (λ _, Some ("4242" +:+ nl)) (λ _, 1%Z) false
    (λ _, false) (λ _, false).

(** A switch that is off, with a stop event and no start event. *)
Definition sw1 : Brick :=
  mkBrick "sw1" "Switch" false (Some "vde_switch") true false false None None
    false None [] []
    {[ "pon_vbevent" := ""; "poff_vbevent" := "ev1"; "sock" := "/x/sw1.ctl";
       "hub" := "*"; "numports" := "" ]}
    [("-s", ConfigKey "sock"); ("#-x", ConfigKey "sock");
     ("*n", ConfigKey "sock"); ("-hub", ConfigKey "hub");
     ("-n", ConfigKey "numports"); ("-M", Callable (λ _, None))]
    [] None.

(** The switch running and active, with a process of pid 1 that is alive. *)
Definition sw1_pid1 : Brick :=
  set_active true (set_run_condition true
    (set_proc (Some (mkProc 1 (Some 3%nat) 0)) sw1)).

(** The switch running and active, as [poweron] leaves it. *)
Definition sw1_running : Brick :=
  set_active true (set_run_condition true
    (set_pid (Some 4242%Z) (set_proc (Some (mkProc 4242 (Some 2%nat) 0)) sw1))).

(** A brick whose command line is the program alone and that needs the
    privilege launcher. *)
Definition capture0 : Brick :=
  mkBrick "cap0" "Capture" true (Some "vde_pcapplug") true false false None
    None false None [] []
    {[ "pon_vbevent" := ""; "poff_vbevent" := "" ]} [] [] None.

(** A tap, which needs the privilege launcher. *)
Definition tap0 : Brick :=
  mkBrick "tap0" "Tap" true (Some "vde_plug2tap") true false false None None
    false None [] []
    {[ "pon_vbevent" := ""; "poff_vbevent" := ""; "sock" := "/x/sw1.ctl";
       "name" := "tap0" ]}
    [("-s", ConfigKey "sock"); ("*tap", ConfigKey "name")]
    [] None.

(** A wire with one plug, not bound and bound, and an unconfigured one. *)
Definition sw1_port : Sock := mkSock (mkBrickRef "sw1" "Switch") "sw1_port" "" "".
Definition wire_unplugged : Brick :=
  mkBrick "w1" "Wire" false (Some "dpipe") true false false None None
    false None [mkPlug (mkBrickRef "w1" "Wire") None "vde" "" ""] []
    {[ "pon_vbevent" := ""; "poff_vbevent" := "" ]} [] [] None.
Definition wire_plugged : Brick :=
  mkBrick "w1" "Wire" false (Some "dpipe") true false false None None
    false None [mkPlug (mkBrickRef "w1" "Wire") (Some sw1_port) "vde" "" ""] []
    {[ "pon_vbevent" := ""; "poff_vbevent" := "" ]} [] [] None.
Definition wire_unconfigured : Brick :=
  mkBrick "w1" "Wire" false (Some "dpipe") false false false None None
    false None [] [] {[ "pon_vbevent" := ""; "poff_vbevent" := "" ]} [] [] None.

(** An environment where no plug reaches a running brick. *)
Definition env_unlinked : Env :=
  mkEnv None "gksu" "/home/u/.virtualbricks" ["ev1"]
    (λ p, bool_decide (is_Some (plug_sock p)))
    (λ _, false)
    (λ _, Some (mkProc 4242 (Some 2%nat) 0))
    (λ _, true) (λ _, Some ("4242" +:+ nl)) (λ _, 0%Z) false
    (λ _, false) (λ _, false).

(** A virtual machine with one host-only plug, and the factory that holds
    it alone. *)
Definition vm1_ref : BrickRef := mkBrickRef "vm1" "Qemu".
Definition hostonly : Sock := mkSock (mkBrickRef "" "") "_hostonly" "" "".
Definition vm1_hostonly : Brick :=
  mkBrick "vm1" "Qemu" false (Some "qemu") true false false None None
    false None [mkPlug vm1_ref (Some hostonly) "hostonly" "rtl8139" "00:aa:bb:cc:dd:ee"]
    [] {[ "pon_vbevent" := ""; "poff_vbevent" := ""; "stdout" := "" ]} [] [] None.
Definition factory_hostonly : Factory := mkFactory [] [] [] [vm1_hostonly] [].

(** A virtual machine without plugs, declared in an otherwise empty
    factory. *)
Definition vm1_bare : Brick :=
  mkBrick "vm1" "Qemu" false (Some "qemu") true false false None None
    false None [] []
    {[ "pon_vbevent" := ""; "poff_vbevent" := ""; "stdout" := "" ]} [] [] None.
Definition factory_vm1 : Factory := mkFactory [] [] [] [vm1_bare] [].

(** A file system without failures of its own, and one where renaming is
    refused for lack of permission. *)
Definition no_faults : Faults :=
  mkFaults (λ _ _, None) (λ _ _, false) (λ _, false) (λ _, false).
Definition rename_denied : Faults :=
  mkFaults (λ _ _, Some EACCES) (λ _ _, false) (λ _, false) (λ _, false).

(** Collaborators that do the least: sections are a header and an empty
    line, a new brick is appended, nothing else changes the factory. *)
Definition plain_collab : Collab :=
  mkCollab
    (λ b, "[" +:+ btype b +:+ ":" +:+ name b +:+ "]" +:+ nl +:+ nl)
    (λ e, "[Event:" +:+ event_name e +:+ "]" +:+ nl +:+ nl)
    hostonly
    (λ _ _ fa, Ok fa)
    (λ t n fa,
       Ok (set_bricks
             (bricks fa ++
              [mkBrick n t false None true false false None None false None
                 [] [] ∅ [] [] None]) fa))
    (λ _ rest fa, Ok (fa, rest))
    (λ _ _, false) (λ _, true) (λ _ fa, Ok fa)
    (λ _ fa, Ok (fa, 0%nat)) (λ _ fa, Ok fa)
    (λ _ _ _ fa, Ok fa) (λ _ _ _ _ fa, Ok fa) (λ _ _ fa, Ok fa)
    (λ _, mkFactory [] [] [] [] []).

(** A disk with a project file and the backup an interrupted save left. *)
Definition disk_interrupted : Disk :=
  mkDisk {[ "proj.vbl" := "[Switch:old]" +:+ nl +:+ nl;
            "proj.vbl~" := "[Switch:new]" +:+ nl +:+ nl ]} [].

(** Renaming fails as a move across devices. *)
Definition cross_device : Faults :=
  mkFaults (λ _ _, Some EXDEV) (λ _ _, false) (λ _, false) (λ _, false).

End Examples.

(** ** Further parts of [bricks.py] and [configfile.py] *)

Module More.
Import Bricks Configfile.

(** *** Reading a trace *)

Definition is_log (e : Effect) : bool :=
  match e with Log _ _ => true | _ => false end.
Definition is_log_or_send (e : Effect) : bool :=
  match e with Log _ _ | HostSend _ _ => true | _ => false end.
Definition is_log_or_event (e : Effect) : bool :=
  match e with Log _ _ | EventPoweron _ => true | _ => false end.

(** How many times [time.sleep] was called. *)
Fixpoint sleeps (tr : list Effect) : nat :=
  match tr with
  | [] => 0
  | Sleep :: rest => S (sleeps rest)
  | _ :: rest => sleeps rest
  end.

(** The three guards of [poweron] let the brick through; they are looked
    at only when [factory.TCP] is [None]. *)
Definition guards_pass (env : Env) (b : Brick) : Prop :=
  factory_TCP env = None ->
  configured b = true /\ properly_connected env b = true /\
  check_links env b = true.

(** *** Attributes of a brick *)

Definition set_cfg (v : gmap string string) (b : Brick) : Brick :=
  mkBrick (name b) (btype b) (_needsudo b) (prog b) (configured b) (active b)
    (run_condition b) (proc b) (pid b) (need_restart_to_apply_changes b)
    (internal_console b) (plugs b) (socks b) v (command_builder b)
    (config_socks b) (homehost b).
Definition set_homehost (v : option RemoteHost) (b : Brick) : Brick :=
  mkBrick (name b) (btype b) (_needsudo b) (prog b) (configured b) (active b)
    (run_condition b) (proc b) (pid b) (need_restart_to_apply_changes b)
    (internal_console b) (plugs b) (socks b) (cfg b) (command_builder b)
    (config_socks b) v.

(** [os.path.basename] *)
Definition basename (p : string) : string := (split_last_slash p).2.

(** [Brick.rewrite_sock_server] *)
Definition rewrite_sock_server (env : Env) (v : string) : string :=
  MYPATH env +:+ "/" +:+ basename v.

(** What [Brick.set_host] touches of the factory: the list of remote
    hosts and the flag [remotehosts_changed]. *)
Record HostRegistry : Type := mkHostRegistry {
  reg_hosts : list RemoteHost;
  reg_changed : bool
}.

(** [Brick.set_host]; [new_host] stands for the constructor
    [RemoteHost(factory, host)], which [console.py] defines.  A host
    object is true, so [if not self.homehost] asks whether the loop found
    one. *)
Definition set_host (new_host : string -> RemoteHost) (host : string)
    (b : Brick) (reg : HostRegistry) : Brick * HostRegistry :=
  let b := set_cfg (<["homehost" := host]> (cfg b)) b in
  let b := set_homehost None b in
  if (0 <? String.length host)%nat then
    match find (λ existing, String.eqb (host_addr existing).1 host)
            (reg_hosts reg) with
    | Some existing =>
        (set_homehost (Some existing) b, mkHostRegistry (reg_hosts reg) true)
    | None =>
        let h := new_host host in
        (set_homehost (Some h) b, mkHostRegistry (reg_hosts reg ++ [h]) true)
    end
  else (b, reg).

(** The addresses [set_host] compares with. *)
Definition addresses (hosts : list RemoteHost) : list string :=
  map (λ h, (host_addr h).1) hosts.

(** *** Saving *)

(** The temporary file [ConfigFile.save] writes to. *)
Definition tmpfile_of (filename : string) : string :=
  let '(head, tail) := path_split filename in
  path_join head ("." +:+ tail +:+ ".sav").

(** Nothing hinders a save: the copy to the backup, the opening of the
    temporary file, its renaming and the removal of the backup go
    through. *)
Definition save_unhindered (flt : Faults) (filename : string) : Prop :=
  copy_fault flt filename (filename +:+ "~") = false /\
  open_fault flt (tmpfile_of filename) = false /\
  rename_fault flt (tmpfile_of filename) filename = None /\
  remove_fault flt (filename +:+ "~") = false.

(** [safe_save] of the module, with the file name given: every exception
    of the model derives from [Exception]. *)
Definition safe_save (c : Collab) (flt : Faults) (fa : Factory)
    (filename : string) : D unit :=
  try_except (save c flt fa filename)
    (λ _, log_disk "exception" "Error while saving configuration file").

(** *** Characters of a line *)

(** [c in s] for a character. *)
Fixpoint has_char (c : ascii) (s : string) : bool :=
  match s with
  | "" => false
  | String a rest => Ascii.eqb a c || has_char c rest
  end.

(** *** Lines of a project file *)

(** A line that is neither a record of the trailer nor a section header:
    not empty, without [|], and not starting with [[] once its spaces are
    removed. *)
Definition plain_line (l : string) : bool :=
  negb (String.eqb l "") && negb (has_char "|" l) &&
  negb (startswith (re_sub_char " " "" l) "[").

(** A name that comes through the parsing of its section header. *)
Definition header_name (a : string) : bool :=
  negb (has_char " " a) && negb (has_char "|" a) && negb (has_char ":" a) &&
  negb (has_char "]" a) && negb (has_char newline a).


(** A field of a trailer record: no space, no [|], no line feed. *)
Definition record_field (v : string) : bool :=
  negb (has_char " " v) && negb (has_char "|" v) &&
  negb (has_char newline v).





(** *** Examples *)

(** A remote host that is connected, and the switch of the examples
    placed on it. *)
Definition remote1 : RemoteHost :=
  mkRemoteHost ("10.0.0.2", 1050%Z) "secret" "/img" None "/usr/bin"
    "/usr/bin" "/bricks" true true.
Definition sw1_remote : Brick := set_homehost (Some remote1) Examples.sw1.

(** A brick of the base class, whose [prog] is not implemented. *)
Definition abstract_brick : Brick :=
  mkBrick "b0" "Brick" false None true false false None None false None [] []
    {[ "pon_vbevent" := ""; "poff_vbevent" := "" ]} [] [] None.

(** An operating system that refuses to spawn. *)
Definition env_no_spawn : Env :=
  mkEnv None "gksu" "/home/u/.virtualbricks" ["ev1"]
    (λ p, bool_decide (is_Some (plug_sock p)))
    (λ p, bool_decide (is_Some (plug_sock p)))
    (λ _, None)
    (λ _, true) (λ _, Some ("4242" +:+ nl)) (λ _, 0%Z) false
    (λ _, false) (λ _, false).

(** The switch with a process that never reports its exit, and with one
    that has exited already. *)
Definition proc_hung : Proc := mkProc 4242 None 0.
Definition sw1_hung : Brick :=
  set_active true (set_run_condition true
    (set_proc (Some proc_hung) Examples.sw1)).
Definition proc_exited : Proc := mkProc 4242 (Some 0%nat) 0.
Definition sw1_exited : Brick :=
  set_active true (set_run_condition true
    (set_proc (Some proc_exited) Examples.sw1)).

(** A constructor of remote hosts with the default port. *)
Definition default_host (a : string) : RemoteHost :=
  mkRemoteHost (a, 1050%Z) "" "" None "" "" "" false false.

(** Disks: an empty one, one with a project file, and one with a backup
    that no project file goes with. *)
Definition disk_empty : Disk := mkDisk ∅ [].
Definition disk_project : Disk :=
  mkDisk {[ "proj.vbl" := "[Switch:old]" +:+ nl +:+ nl ]} [].
Definition disk_stale : Disk :=
  mkDisk {[ "proj.vbl~" := "[Switch:stale]" +:+ nl +:+ nl ]} [].


Definition debian : DiskImage := mkDiskImage "debian" "/img/debian 12.qcow2".

End More.

(** ** Running the monad *)

Section StateExnFacts.

Lemma bind_run {S A B} (m : SE S A) (k : A -> SE S B) (s : S) :
  (m ≫= k) s =
  match m s with
  | (Ok a, s') => k a s'
  | (Raise e, s') => (Raise e, s')
  end.
Proof. reflexivity. Qed.

Lemma try_except_run {S A} (m : SE S A) (h : exn -> SE S A) (s : S) :
  try_except m h s =
  match m s with
  | (Ok a, s') => (Ok a, s')
  | (Raise e, s') => h e s'
  end.
Proof. reflexivity. Qed.

Lemma try_finally_run {S A} (m : SE S A) (fin : SE S unit) (s : S) :
  try_finally m fin s =
  match m s with
  | (r, s') =>
      match fin s' with
      | (Ok _, s'') => (r, s'')
      | (Raise e, s'') => (Raise e, s'')
      end
  end.
Proof. reflexivity. Qed.

Lemma bind_ok {S A B} (m : SE S A) (k : A -> SE S B) (s s' : S) (a : A) :
  m s = (Ok a, s') -> (m ≫= k) s = k a s'.
Proof. intros H. unfold mbind, SE_bind, bind. by rewrite H. Qed.

Lemma bind_raise {S A B} (m : SE S A) (k : A -> SE S B) (s s' : S) (e : exn) :
  m s = (Raise e, s') -> (m ≫= k) s = (Raise e, s').
Proof. intros H. unfold mbind, SE_bind, bind. by rewrite H. Qed.

Lemma for_each_ok {S A} (l : list A) (body : A -> SE S unit) :
  (forall x s, x ∈ l -> exists s', body x s = (Ok tt, s')) ->
  forall s, exists s', for_each l body s = (Ok tt, s').
Proof.
  induction l as [|x l IH]; intros Hbody s; simpl.
  - by eexists.
  - destruct (Hbody x s) as [s1 H1]; [left|].
    erewrite bind_ok by exact H1.
    apply IH. intros y s0 Hy. apply Hbody. by right.
Qed.

Lemma for_each_raise {S A} (l : list A) (body : A -> SE S unit) (e : exn) (x : A) :
  x ∈ l ->
  (forall s, exists s', body x s = (Raise e, s')) ->
  (forall y s, y ∈ l ->
     (exists s', body y s = (Ok tt, s')) \/ (exists s', body y s = (Raise e, s'))) ->
  forall s, exists s', for_each l body s = (Raise e, s').
Proof.
  induction l as [|y l IH]; intros Hin Hx Hall s; simpl.
  - by apply not_elem_of_nil in Hin.
  - destruct (Hall y s) as [[s1 H1]|[s1 H1]]; [left| |].
    + erewrite bind_ok by exact H1.
      apply elem_of_cons in Hin as [->|Hin].
      * destruct (Hx s) as [s2 H2]. congruence.
      * apply IH; [done|done|]. intros z s0 Hz. apply Hall. by right.
    + erewrite bind_raise by exact H1. by eexists.
Qed.

End StateExnFacts.

(** ** Command line *)

Section CommandLine.
Import Bricks Statements.

Lemma build_cmd_line_loop_tokens (b : Brick) (items : list (string * CmdValue)) :
  forall res,
    build_cmd_line_loop b items res =
    res ++ concat (map (λ e, entry_tokens e.1 (resolve b e.2)) items).
Proof.
  induction items as [|[switch v] rest IH]; intros res; simpl.
  - by rewrite app_nil_r.
  - rewrite IH. unfold entry_tokens at 2. simpl.
    destruct (startswith switch "#"); simpl; [done|].
    destruct (resolve b v) as [val|]; [|done].
    destruct (String.eqb_spec val "*") as [->|Hne].
    + simpl. by rewrite <- app_assoc.
    + destruct val as [|a val']; [done|].
      rewrite bool_decide_eq_false_2 by done.
      simpl. destruct (startswith switch "*"); simpl;
        by rewrite <- !app_assoc.
Qed.

(** C4: the argument vector starts with the program path, and every
    [command_builder] entry adds to it, in order: nothing when its switch
    starts with the reserved marker [#]; the switch alone when its value is
    the wildcard [*]; the switch (left out when it is marked positional
    with [*]) and then the value when the value is not empty; nothing when
    the value is missing or empty. *)
Theorem args_program_then_entries (b : Brick) (p : string) :
  prog b = Some p ->
  exists contrib : string * CmdValue -> list string,
    args b = Ok (p :: concat (map contrib (command_builder b))) /\
    forall (switch : string) (v : CmdValue),
      (startswith switch "#" = true -> contrib (switch, v) = []) /\
      (startswith switch "#" = false -> resolve b v = Some "*" ->
       contrib (switch, v) = [switch]) /\
      (forall value, startswith switch "#" = false ->
         resolve b v = Some value -> value <> "*" -> value <> "" ->
         contrib (switch, v) =
           if startswith switch "*" then [value] else [switch; value]) /\
      (startswith switch "#" = false ->
       resolve b v = None \/ resolve b v = Some "" ->
       contrib (switch, v) = []).
Proof.
  intros Hprog.
  exists (λ e, entry_tokens e.1 (resolve b e.2)). split.
  - unfold args, build_cmd_line. rewrite Hprog.
    by rewrite build_cmd_line_loop_tokens.
  - intros switch v. unfold entry_tokens. simpl. repeat split.
    + by intros ->.
    + by intros -> ->.
    + intros value -> -> Hstar Hempty.
      destruct value as [|a value']; [done|].
      by rewrite bool_decide_eq_false_2.
    + by intros -> [-> | ->].
Qed.

(** The switch of the examples: its vector, entry by entry. *)
Lemma args_program_then_entries_witness :
  exists contrib : string * CmdValue -> list string,
    args Examples.sw1 =
      Ok ("vde_switch" :: concat (map contrib (command_builder Examples.sw1))) /\
    args Examples.sw1 =
      Ok ["vde_switch"; "-s"; "/x/sw1.ctl"; "/x/sw1.ctl"; "-hub"].
Proof.
  destruct (args_program_then_entries Examples.sw1 "vde_switch" eq_refl)
    as [contrib [Hargs _]].
  exists contrib. split; [exact Hargs | reflexivity].
Defined.

End CommandLine.

(** ** Guards of poweron *)

Section Guards.
Import Bricks.

(** C2: without a global TCP-control mode, [poweron] raises
    [BadConfigError] (the not-configured error) for a brick that reports
    itself unconfigured; otherwise [NotConnectedError] when
    [properly_connected] is false; otherwise [LinkLoopError] (the
    link-integrity error) when [check_links] is false.  The exception
    reaches the caller with the world as it was: the brick is unchanged and
    the trace has gained nothing, so no process was spawned. *)
Theorem poweron_guard_errors (env : Env) (w : World) :
  factory_TCP env = None ->
  (configured (brick w) = false ->
   poweron env w = (Raise (BadConfigError (name (brick w))), w)) /\
  (configured (brick w) = true ->
   properly_connected env (brick w) = false ->
   poweron env w = (Raise (NotConnectedError (name (brick w))), w)) /\
  (configured (brick w) = true ->
   properly_connected env (brick w) = true ->
   check_links env (brick w) = false ->
   poweron env w = (Raise LinkLoopError, w)).
Proof.
  intros HTCP. unfold poweron, mbind, SE_bind, bind, get. simpl.
  rewrite HTCP. repeat split.
  - by intros ->.
  - by intros -> ->.
  - by intros -> -> ->.
Qed.

(** The three guards on the wires of the examples. *)
Lemma poweron_guard_errors_witness :
  poweron Examples.env_ok (mkWorld Examples.wire_unconfigured []) =
    (Raise (BadConfigError "w1"), mkWorld Examples.wire_unconfigured []) /\
  poweron Examples.env_ok (mkWorld Examples.wire_unplugged []) =
    (Raise (NotConnectedError "w1"), mkWorld Examples.wire_unplugged []) /\
  poweron Examples.env_unlinked (mkWorld Examples.wire_plugged []) =
    (Raise LinkLoopError, mkWorld Examples.wire_plugged []).
Proof.
  split; [|split].
  - exact (proj1 (poweron_guard_errors Examples.env_ok
                    (mkWorld Examples.wire_unconfigured []) eq_refl) eq_refl).
  - exact (proj1 (proj2 (poweron_guard_errors Examples.env_ok
                           (mkWorld Examples.wire_unplugged []) eq_refl))
             eq_refl eq_refl).
  - exact (proj2 (proj2 (poweron_guard_errors Examples.env_unlinked
                           (mkWorld Examples.wire_plugged []) eq_refl))
             eq_refl eq_refl eq_refl).
Defined.

End Guards.

(** ** Stopping a brick *)

Section Poweroff.
Import Bricks.

Ltac run_monad :=
  unfold mbind, mret, SE_bind, SE_ret, bind, ret, raise, lift, get, modify,
    tell, try_except in *; simpl in *.

(** A brick that has a process and a cleared run flag is left alone. *)
Lemma poweroff_noop (fuel : nat) (env : Env) (w : World) :
  is_Some (proc (brick w)) ->
  run_condition (brick w) = false ->
  poweroff fuel env w = (Ok Returned, w).
Proof.
  intros [p Hp] Hrun. unfold poweroff. run_monad.
  by rewrite Hp, Hrun.
Qed.

(** C10: [poweroff] on a local brick without privilege escalation whose
    process is still alive and whose pid is at most 1 returns with the run
    flag cleared and the process handle still set; every later [poweroff]
    returns at once and changes nothing, so [brick-stopped] is not emitted
    and the active flag keeps its value. *)
Theorem poweroff_low_pid_stuck (fuel : nat) (env : Env) (w : World) (p : Proc) :
  proc (brick w) = Some p ->
  homehost (brick w) = None ->
  needsudo env (brick w) = false ->
  (poll p).1 = None ->
  (proc_pid p <= 1)%Z ->
  exists w1 extra,
    poweroff fuel env w = (Ok Returned, w1) /\
    run_condition (brick w1) = false /\
    is_Some (proc (brick w1)) /\
    active (brick w1) = active (brick w) /\
    trace w1 = trace w ++ extra /\
    (forall a, Emit "brick-stopped" a ∉ extra) /\
    (forall fuel', poweroff fuel' env w1 = (Ok Returned, w1)).
Proof.
  intros Hp Hhost Hsudo Halive Hpid.
  destruct (run_condition (brick w)) eqn:Hrun.
  - destruct (poll p) as [st p'] eqn:Hpoll. simpl in Halive. subst st.
    assert (Hpid' : proc_pid p' = proc_pid p).
    { unfold poll in Hpoll.
      destruct (proc_alive_polls p) as [[|n]|]; by inversion Hpoll. }
    eexists _, [Log "debug" ("Shutting down " +:+ name (brick w))].
    split; [|split; [|split; [|split; [|split; [|split]]]]].
    + unfold poweroff, stop_running. run_monad.
      rewrite Hp, Hrun, Hhost. simpl. rewrite Hpoll. simpl.
      unfold needsudo in *. simpl. rewrite Hsudo.
      rewrite Hpid'.
      destruct (Z.leb_spec (proc_pid p) 1) as [_|Hgt]; [|lia].
      simpl. reflexivity.
    + reflexivity.
    + by eexists.
    + reflexivity.
    + reflexivity.
    + intros a Hin. apply list_elem_of_singleton in Hin. discriminate.
    + intros fuel'. apply poweroff_noop; [by eexists | reflexivity].
  - exists w, []. repeat split.
    + apply poweroff_noop; [by eexists | done].
    + done.
    + by eexists.
    + by rewrite app_nil_r.
    + intros a Hin. by apply not_elem_of_nil in Hin.
    + intros fuel'. apply poweroff_noop; [by eexists | done].
Qed.

(** The switch running with pid 1. *)
Lemma poweroff_low_pid_stuck_witness :
  exists w1 extra,
    poweroff 5 Examples.env_ok (mkWorld Examples.sw1_pid1 []) = (Ok Returned, w1) /\
    run_condition (brick w1) = false /\
    is_Some (proc (brick w1)) /\
    active (brick w1) = true /\
    trace w1 = [] ++ extra /\
    (forall a, Emit "brick-stopped" a ∉ extra) /\
    (forall fuel', poweroff fuel' Examples.env_ok w1 = (Ok Returned, w1)).
Proof.
  apply (poweroff_low_pid_stuck 5 Examples.env_ok
           (mkWorld Examples.sw1_pid1 []) (mkProc 1 (Some 3%nat) 0));
    [reflexivity | reflexivity | reflexivity | reflexivity | simpl; lia].
Defined.

(** C5, as stated, fails: when [kill] exits with a status other than 0,
    [poweroff] returns after logging the error and the brick that
    [poweron] has just started keeps its process handle and stays active,
    however long the loop would be followed. *)
Lemma poweroff_after_poweron_kill_fails :
  ~ Statements.poweroff_after_poweron_restores Examples.env_kill_fails
      (mkWorld Examples.sw1 []).
Proof.
  intros H. unfold Statements.poweroff_after_poweron_restores in H.
  destruct (poweron Examples.env_kill_fails (mkWorld Examples.sw1 []))
    as [r1 w1] eqn:Hon.
  vm_compute in Hon. inversion Hon; subst; clear Hon.
  edestruct H as (fuel & r & w2 & Hoff & Hproc & _);
    [reflexivity | reflexivity | reflexivity | reflexivity |].
  vm_compute in Hoff. inversion Hoff; subst. discriminate Hproc.
Qed.

(** With an empty start slot [post_poweroff] triggers nothing and logs
    nothing, whatever the stop slot holds. *)
Lemma post_poweroff_start_slot_empty (env : Env) (w : World) (v : string) :
  cfg (brick w) !! "poff_vbevent" = Some v ->
  cfg (brick w) !! "pon_vbevent" = Some "" ->
  post_poweroff env w = (Ok tt, mkWorld (set_active false (brick w)) (trace w)).
Proof.
  intros Hoff Hon. unfold post_poweroff, start_related_events, cfg_attr.
  run_monad. rewrite Hoff. simpl.
  destruct (String.eqb v ""); [reflexivity|].
  simpl. rewrite Hon. reflexivity.
Qed.

(** [post_poweron] looks at the start slot alone when it decides whether
    an event is powered on. *)
Lemma post_poweron_start_slot_empty (env : Env) (w : World) :
  cfg (brick w) !! "pon_vbevent" = Some "" ->
  post_poweron env w = (Ok tt, mkWorld (set_active true (brick w)) (trace w)).
Proof.
  intros Hon. unfold post_poweron, start_related_events, cfg_attr.
  run_monad. rewrite Hon. reflexivity.
Qed.

(** C6 does not hold of [post_poweroff]: it calls [start_related_events]
    with [off=True] and leaves [on] at its default [True], so the test on
    the start slot is made as well.  For the running switch, whose stop
    slot names the existing event [ev1] and whose start slot is empty,
    nothing is triggered, neither by [post_poweroff] nor by a whole
    [poweroff]; with [on=False] the event would have been powered on. *)
Theorem post_poweroff_reads_start_slot :
  cfg Examples.sw1_running !! "poff_vbevent" = Some "ev1" /\
  cfg Examples.sw1_running !! "pon_vbevent" = Some "" /\
  get_event_by_name Examples.env_ok "ev1" = Some "ev1" /\
  post_poweroff Examples.env_ok (mkWorld Examples.sw1_running []) =
    (Ok tt, mkWorld (set_active false Examples.sw1_running) []) /\
  (poweroff 5 Examples.env_ok (mkWorld Examples.sw1_running [])).1 = Ok Returned /\
  trace (poweroff 5 Examples.env_ok (mkWorld Examples.sw1_running [])).2 =
    [Log "debug" "Shutting down sw1"; Terminate 4242; System "kill 4242";
     Sleep; Sleep; Emit "brick-stopped" (Some "sw1")] /\
  start_related_events Examples.env_ok false true
    (mkWorld Examples.sw1_running []) =
    (Ok tt, mkWorld Examples.sw1_running [EventPoweron "ev1"]).
Proof.
  repeat apply conj; vm_compute; reflexivity.
Qed.

End Poweroff.

(** ** Stopping after starting *)

Section Lifecycle.
Import Bricks.
Variable env : Env.

Ltac run_brick :=
  cbv beta iota zeta delta
    [mbind mret SE_bind SE_ret bind ret raise lift try_except get modify tell].

Lemma has_console_loop_brick (closing : bool) (n : nat) (w : World) :
  exists r tr, has_console_loop env closing n w = (Ok r, mkWorld (brick w) tr).
Proof.
  revert w. induction n as [|n IH]; intros w; simpl.
  - by exists false, (trace w); destruct w.
  - run_brick.
    destruct (bool_decide (is_Some (proc (brick w))) &&
              (0 <? String.length (console env (brick w)))%nat &&
              os_path_exists env (console env (brick w))).
    + by exists true, (trace w); destruct w.
    + destruct closing.
      * by exists false, (trace w); destruct w.
      * apply (IH (mkWorld (brick w) (trace w ++ [Sleep]))).
Qed.

Lemma has_console_closing_off (w : World) :
  proc (brick w) = None -> has_console env true w = (Ok false, w).
Proof.
  intros Hp. unfold has_console. simpl. run_brick. by rewrite Hp.
Qed.

Lemma connect_loop_brick (n : nat) (w : World) :
  exists r tr, connect_loop env n w = (Ok r, mkWorld (brick w) tr).
Proof.
  revert w. induction n as [|n IH]; intros w; simpl; run_brick.
  - by eexists _, _.
  - destruct (os_socket_connect env (console env (brick w))).
    + by eexists _, _.
    + apply (IH (mkWorld (brick w) (trace w ++ [Sleep]))).
Qed.

Lemma open_internal_console_brick (w : World) :
  exists ic tr, open_internal_console env w = (Ok ic, mkWorld (brick w) tr).
Proof.
  unfold open_internal_console, has_console. run_brick.
  destruct (has_console_loop_brick false 9
              (mkWorld (brick w) (trace w ++ [Log "debug" "open_internal_console"])))
    as (hc & tr & H).
  rewrite H. destruct hc; cbv beta iota delta [negb].
  - apply (connect_loop_brick 9 (mkWorld (brick w) tr)).
  - by eexists _, _.
Qed.

Lemma start_related_events_brick (on off : bool) (w : World) :
  exists r tr, start_related_events env on off w = (r, mkWorld (brick w) tr).
Proof.
  unfold start_related_events, cfg_attr.
  destruct on, off; run_brick; cbv beta iota delta [negb andb].
  all: try (by exists (Ok tt), (trace w); destruct w).
  all: repeat match goal with
         | |- context [match ?x !! ?k with _ => _ end] => destruct (x !! k) as [?v|]
         | |- context [if String.eqb ?a ?b then _ else _] => destruct (String.eqb a b)
         | |- context [match get_event_by_name ?e ?n with _ => _ end] => destruct (get_event_by_name e n)
         end; try (by eexists _, _); try (by eexists _, (trace w); destruct w).
Qed.

Lemma start_related_events_ok (on off : bool) (w : World) :
  is_Some (cfg (brick w) !! "pon_vbevent") ->
  is_Some (cfg (brick w) !! "poff_vbevent") ->
  exists tr, start_related_events env on off w = (Ok tt, mkWorld (brick w) tr).
Proof.
  intros [pon Hon] [poff Hoff].
  unfold start_related_events, cfg_attr.
  destruct on, off; run_brick; cbv beta iota delta [negb andb];
    rewrite ?Hon, ?Hoff.
  all: try (by exists (trace w); destruct w).
  all: repeat match goal with
         | |- context [if String.eqb ?a ?b then _ else _] => destruct (String.eqb a b)
         | |- context [match get_event_by_name ?e ?n with _ => _ end] => destruct (get_event_by_name e n)
         end; try (by eexists); try (by exists (trace w); destruct w).
Qed.


Lemma spawn_local_inv (cl : list string) (w : World) :
  (exists r tr,
     spawn_local env cl w = (r, mkWorld (brick w) tr) /\ r <> Ok true) \/
  (exists p tr,
     spawn_local env cl w = (Ok true, mkWorld (set_proc (Some p) (brick w)) tr)).
Proof.
  unfold spawn_local, cfg_attr. run_brick.
  destruct (String.eqb (get_type (brick w)) "Qemu").
  - destruct (cfg (brick w) !! "stdout") as [out|].
    + destruct (String.eqb out ""); cbv beta iota delta [negb].
      * destruct (os_popen env cl) as [p|].
        -- right. by eexists _, _.
        -- left. eexists _, _. split; [reflexivity|discriminate].
      * destruct (os_open_write env out).
        -- destruct (os_popen env cl) as [p|].
           ++ right. by eexists _, _.
           ++ left. eexists _, _. split; [reflexivity|discriminate].
        -- left. eexists _, (trace w). split; [by destruct w|discriminate].
    + left. eexists _, (trace w). split; [by destruct w|discriminate].
  - destruct (os_popen env cl) as [p|].
    + right. by eexists _, _.
    + left. eexists _, _. split; [reflexivity|discriminate].
Qed.

Lemma _poweron_inv (w : World) :
  proc (brick w) = None ->
  (exists r tr, _poweron env w = (r, mkWorld (brick w) tr)) \/
  (exists r p ic tr,
     homehost (brick w) = None /\
     _poweron env w = (r, mkWorld (Statements.started p ic (brick w)) tr)).
Proof.
  intros Hproc. unfold _poweron, post_poweron. run_brick.
  rewrite Hproc. rewrite bool_decide_eq_false_2 by (by intros [? ?]).
  destruct (args (brick w)) as [cl|e].
  2:{ left. by eexists _, _. }
  destruct (sudo_command_line env (brick w) cl) as [cl'|e].
  2:{ left. eexists _, (trace w). by destruct w. }
  destruct (homehost (brick w)) as [h|] eqn:Hhost.
  { left. destruct (host_connected h); by eexists _, _. }
  match goal with
  | |- context [spawn_local env ?c ?w0] =>
      destruct (spawn_local_inv c w0) as [(r & tr & Hs & Hr)|(p & tr & Hs)];
      rewrite Hs
  end.
  - left. destruct r as [[|]|e]; [done| |]; by eexists _, _.
  - right. cbv beta iota delta [negb].
    match goal with
    | |- context [open_internal_console env ?w0] =>
        destruct (open_internal_console_brick w0) as (ic & tr1 & Hic);
        rewrite Hic
    end.
    match goal with
    | |- context [start_related_events env ?on ?off ?w0] =>
        destruct (start_related_events_brick on off w0) as (r & tr2 & Hev);
        rewrite Hev
    end.
    exists r, p, ic, tr2. split; [done|]. by destruct r.
Qed.

Lemma poweron_inv (w : World) :
  proc (brick w) = None ->
  (exists r tr, poweron env w = (r, mkWorld (brick w) tr)) \/
  (exists r p ic tr,
     homehost (brick w) = None /\
     poweron env w = (r, mkWorld (Statements.started p ic (brick w)) tr)).
Proof.
  intros Hproc.
  assert (Hrun : poweron env w =
            match _poweron env w with
            | (Ok _, w') => (Ok tt, mkWorld (brick w') (trace w' ++ [Emit "changed" None]))
            | (Raise e, w') => (Raise e, w')
            end \/
          exists e, poweron env w = (Raise e, w)).
  { unfold poweron. run_brick. destruct (factory_TCP env); [by left|].
    destruct (configured (brick w)); [|right; by eexists].
    destruct (properly_connected env (brick w)); [|right; by eexists].
    destruct (check_links env (brick w)); [by left|right; by eexists]. }
  destruct Hrun as [Hrun|[e Hrun]]; rewrite Hrun.
  2:{ left. eexists _, (trace w). by destruct w. }
  destruct (_poweron_inv w Hproc) as [(r & tr & H)|(r & p & ic & tr & Hh & H)];
    rewrite H.
  - left. destruct r; eexists _, _; reflexivity.
  - right. destruct r; eexists _, p, ic, _; (split; [done|reflexivity]).
Qed.

Lemma wait_loop_step (fuel : nat) (w : World) (p : Proc) :
  proc (brick w) = Some p ->
  wait_loop (S fuel) w =
  let w' := mkWorld (set_proc (Some (poll p).2) (brick w)) (trace w ++ [Sleep]) in
  match (poll p).1 with
  | None => wait_loop fuel w'
  | Some _ => (Ok Returned, w')
  end.
Proof.
  intros Hp. change (wait_loop (S fuel) w) with
    ((b ← get;
      match proc b with
      | None => raise (AttributeError "poll")
      | Some p =>
          let '(ret, p') := poll p in
          modify (set_proc (Some p'));;
          tell Sleep;;
          match ret with
          | None => wait_loop fuel
          | Some _ => mret Returned
          end
      end) w).
  run_brick. rewrite Hp. by destruct (poll p) as [[rc|] p'].
Qed.

Lemma wait_loop_terminates (n : nat) :
  forall (w : World) (p : Proc) (fuel : nat),
    proc (brick w) = Some p ->
    proc_alive_polls p = Some n ->
    (n < fuel)%nat ->
    exists p' tr,
      wait_loop fuel w = (Ok Returned, mkWorld (set_proc (Some p') (brick w)) tr).
Proof.
  induction n as [|n IH]; intros w p fuel Hp Hn Hfuel;
    (destruct fuel as [|fuel]; [lia|]);
    rewrite (wait_loop_step fuel w p Hp); unfold poll; rewrite Hn;
    cbv beta iota zeta delta [fst snd].
  - by eexists _, _.
  - destruct (IH (mkWorld (set_proc (Some (mkProc (proc_pid p) (Some n)
                                             (proc_returncode p))) (brick w))
                    (trace w ++ [Sleep]))
                (mkProc (proc_pid p) (Some n) (proc_returncode p)) fuel)
      as (p' & tr & H); [done|done|lia|].
    rewrite H. by eexists _, _.
Qed.

Lemma poll_pid (p : Proc) : proc_pid (poll p).2 = proc_pid p.
Proof. unfold poll. by destruct (proc_alive_polls p) as [[|n]|]. Qed.

Lemma stop_running_ok (w : World) (p : Proc) :
  Statements.stop_succeeds env (brick w) p ->
  exists tr, stop_running env p w = (Ok true, mkWorld (brick w) tr).
Proof.
  unfold Statements.stop_succeeds, stop_running. run_brick.
  destruct (needsudo env (brick w)).
  - intros (line & Hline & Hsys). rewrite Hline, Hsys. by eexists.
  - intros [Hpid Hsys]. rewrite Hsys.
    destruct (Z.leb_spec (proc_pid p) 1) as [Hle|_]; [lia|].
    destruct (os_terminate_fails env); by eexists.
Qed.

Lemma finish_poweroff_ok (w : World) :
  is_Some (cfg (brick w) !! "pon_vbevent") ->
  is_Some (cfg (brick w) !! "poff_vbevent") ->
  exists tr,
    finish_poweroff env w =
    (Ok tt,
     mkWorld (set_active false (set_internal_console None
                (set_need_restart false (set_proc None (brick w))))) tr).
Proof.
  intros Hpon Hpoff. unfold finish_poweroff, close_internal_console, post_poweroff.
  run_brick.
  rewrite has_console_closing_off by reflexivity.
  cbv beta iota delta [negb brick trace].
  match goal with
  | |- context [start_related_events env ?on ?off ?w0] =>
      destruct (start_related_events_ok on off w0) as [tr Hev];
      [done | done | rewrite Hev]
  end.
  by eexists.
Qed.

Lemma poweroff_run (fuel : nat) (w : World) (p : Proc) :
  proc (brick w) = Some p ->
  run_condition (brick w) = true ->
  homehost (brick w) = None ->
  poweroff fuel env w =
  let w0 := mkWorld (set_proc (Some (poll p).2) (set_run_condition false (brick w)))
              (trace w ++ [Log "debug" ("Shutting down " +:+ name (brick w))]) in
  match (if bool_decide ((poll p).1 = None) then stop_running env (poll p).2 w0
         else (Ok true, w0)) with
  | (Ok true, w1) =>
      match wait_loop fuel w1 with
      | (Ok Returned, w2) =>
          match finish_poweroff env w2 with
          | (Ok _, w3) => (Ok Returned, w3)
          | (Raise e, w3) => (Raise e, w3)
          end
      | (Ok StillLooping, w2) => (Ok StillLooping, w2)
      | (Raise e, w2) => (Raise e, w2)
      end
  | (Ok false, w1) => (Ok Returned, w1)
  | (Raise e, w1) => (Raise e, w1)
  end.
Proof.
  intros Hp Hrun Hhost. unfold poweroff. run_brick.
  rewrite Hp, Hrun. cbv beta iota delta [negb].
  rewrite Hhost. destruct (poll p) as [st p']. cbv beta iota delta [fst snd].
  destruct (bool_decide (st = None)).
  - destruct (stop_running env p' _) as [[[|]|e] w1]; try reflexivity.
    cbv beta iota delta [negb].
    destruct (wait_loop fuel w1) as [[[|]|e] w2]; try reflexivity.
  - cbv beta iota delta [negb].
    destruct (wait_loop fuel _) as [[[|]|e] w2]; try reflexivity.
Qed.

(** C5, amended: when [poweron] spawned a local process that reports
    its exit after finitely many polls, and the termination step goes
    through if the process is still alive when [poweroff] starts (with
    privilege escalation the pidfile is readable and the privileged [kill]
    exits with status 0; without, the pid is above 1 and [kill] exits
    with status 0), then [poweroff] returns once the loop is followed for
    more rounds than the process stays alive, and leaves no process handle
    and an inactive brick. *)
Theorem poweroff_after_poweron (fuel : nat) (w w1 : World) (p : Proc) (n : nat) :
  proc (brick w) = None ->
  poweron env w = (Ok tt, w1) ->
  proc (brick w1) = Some p ->
  proc_alive_polls p = Some n ->
  is_Some (cfg (brick w) !! "pon_vbevent") ->
  is_Some (cfg (brick w) !! "poff_vbevent") ->
  (n <> 0%nat -> Statements.stop_succeeds env (brick w1) p) ->
  (n < fuel)%nat ->
  exists w2,
    poweroff fuel env w1 = (Ok Returned, w2) /\
    proc (brick w2) = None /\
    active (brick w2) = false.
Proof.
  intros Hproc Hon Hp1 Hn Hpon Hpoff Hstop Hfuel.
  destruct (poweron_inv w Hproc) as [(r & tr & H)|(r & p' & ic & tr & Hhost & H)];
    rewrite H in Hon; inversion Hon; subst; clear Hon; simpl in Hp1.
  { congruence. }
  inversion Hp1; subst p'; clear Hp1.
  rewrite (poweroff_run fuel _ p) by done. cbv zeta.
  set (w0 := mkWorld _ _).
  assert (Hcfg : cfg (brick w0) = cfg (brick w)) by reflexivity.
  assert (Hstopped : exists tr0,
            (if bool_decide ((poll p).1 = None)
             then stop_running env (poll p).2 w0 else (Ok true, w0)) =
            (Ok true, mkWorld (brick w0) tr0)).
  { destruct (bool_decide ((poll p).1 = None)) eqn:Halive.
    - apply stop_running_ok.
      assert (Hn0 : n <> 0%nat).
      { intros ->. apply bool_decide_eq_true in Halive.
        unfold poll in Halive. by rewrite Hn in Halive. }
      specialize (Hstop Hn0). unfold Statements.stop_succeeds in *.
      rewrite poll_pid. exact Hstop.
    - by eexists. }
  destruct Hstopped as [tr0 ->].
  destruct (wait_loop_terminates (pred n) (mkWorld (brick w0) tr0) (poll p).2 fuel)
    as (p' & tr1 & ->).
  { reflexivity. }
  { unfold poll. rewrite Hn. by destruct n. }
  { lia. }
  destruct (finish_poweroff_ok
              (mkWorld (set_proc (Some p') (brick (mkWorld (brick w0) tr0))) tr1))
    as [tr2 ->]; [done | done |].
  eexists. split; [reflexivity|]. by split.
Qed.

End Lifecycle.

(** The switch of the examples, started and stopped where every request
    to the operating system succeeds. *)
Lemma poweroff_after_poweron_witness :
  exists w2,
    Bricks.poweroff 5 Examples.env_ok
      (Bricks.poweron Examples.env_ok (Bricks.mkWorld Examples.sw1 [])).2 =
      (Ok Returned, w2) /\
    Bricks.proc (Bricks.brick w2) = None /\
    Bricks.active (Bricks.brick w2) = false.
Proof.
  apply (poweroff_after_poweron Examples.env_ok 5
           (Bricks.mkWorld Examples.sw1 []) _
           (Bricks.mkProc 4242 (Some 2%nat) 0) 2%nat).
  - reflexivity.
  - vm_compute. reflexivity.
  - vm_compute. reflexivity.
  - reflexivity.
  - eexists. vm_compute. reflexivity.
  - eexists. vm_compute. reflexivity.
  - intros _. vm_compute. split; reflexivity.
  - lia.
Defined.


(** ** Privilege escalation *)

Section Sudo.
Import Bricks.

(** The launcher line of a [Qemu] brick: the launcher, the escaped
    arguments, [-pidfile] and the pidfile. *)
Lemma sudo_command_line_qemu (env : Env) (b : Brick) (a cl : list string) :
  needsudo env b = true ->
  get_type b = "Qemu" ->
  args b = Ok a ->
  sudo_command_line env b cl =
    Ok (settings_sudo env :: map escape a ++ ["-pidfile"; pidfile b]).
Proof.
  intros Hsudo Htype Hargs. unfold sudo_command_line.
  rewrite Hsudo, Htype, Hargs. reflexivity.
Qed.

(** The launcher line of any other brick: the first two slots of the
    vector are overwritten and the others stay. *)
Lemma sudo_command_line_other (env : Env) (b : Brick) (a0 a1 : string)
    (rest : list string) :
  needsudo env b = true ->
  get_type b <> "Qemu" ->
  sudo_command_line env b (a0 :: a1 :: rest) =
    Ok (settings_sudo env ::
        escape (fold_left (λ acc cmdarg, acc +:+ cmdarg +:+ " ")
                  (a0 :: a1 :: rest) "" +:+ "-P " +:+ pidfile b) :: rest).
Proof.
  intros Hsudo Htype. unfold sudo_command_line. rewrite Hsudo.
  destruct (String.eqb_spec (get_type b) "Qemu") as [Heq|_]; [done|].
  reflexivity.
Qed.

(** C3 does not hold of the branch for the other types: the tap's vector
    of four arguments is spawned as a vector of four, the joined string in
    second place followed by the last two arguments once more; a vector
    that is the program alone has no second slot, and [poweron] raises
    [IndexError] without spawning. *)
Theorem sudo_command_line_keeps_tail :
  args Examples.tap0 = Ok ["vde_plug2tap"; "-s"; "/x/sw1.ctl"; "tap0"] /\
  sudo_command_line Examples.env_ok Examples.tap0
    ["vde_plug2tap"; "-s"; "/x/sw1.ctl"; "tap0"] =
    Ok ["gksu"; "vde_plug2tap -s /x/sw1.ctl tap0 -P /tmp/tap0.pid";
        "/x/sw1.ctl"; "tap0"] /\
  trace (poweron Examples.env_ok (mkWorld Examples.tap0 [])).2 !! 1%nat =
    Some (Popen ["gksu"; "vde_plug2tap -s /x/sw1.ctl tap0 -P /tmp/tap0.pid";
                 "/x/sw1.ctl"; "tap0"] None) /\
  poweron Examples.env_ok (mkWorld Examples.capture0 []) =
    (Raise IndexError, mkWorld Examples.capture0 []).
Proof.
  repeat apply conj; vm_compute; reflexivity.
Qed.

End Sudo.

(** ** Trailer records *)

Section Trailer.
Import Bricks Configfile.

(** C8 does not hold for a record of three or four fields that names a
    [Qemu] brick: the test asks for three fields and the branch reads the
    fourth and the fifth.  Whatever the collaborators do, loading stops
    with [IndexError] at such a [sock|] or [link|] line, and the section
    after it is not read. *)
Theorem short_trailer_record_aborts (c : Collab) (fuel : nat) :
  (restore_from c (S fuel)
     (mkLoader Examples.factory_vm1
        ["sock|vm1|nic" +:+ nl; "[Switch:sw2]" +:+ nl] [])).1 = Raise IndexError /\
  fileobj (restore_from c (S fuel)
     (mkLoader Examples.factory_vm1
        ["sock|vm1|nic" +:+ nl; "[Switch:sw2]" +:+ nl] [])).2 =
    ["[Switch:sw2]" +:+ nl] /\
  (restore_from c (S fuel)
     (mkLoader Examples.factory_vm1
        ["link|vm1|nic|e1000" +:+ nl; "[Switch:sw2]" +:+ nl] [])).1 =
    Raise IndexError /\
  fileobj (restore_from c (S fuel)
     (mkLoader Examples.factory_vm1
        ["link|vm1|nic|e1000" +:+ nl; "[Switch:sw2]" +:+ nl] [])).2 =
    ["[Switch:sw2]" +:+ nl].
Proof.
  repeat apply conj; vm_compute; reflexivity.
Qed.

End Trailer.

(** ** Saving *)

Section Saving.
Import Bricks Configfile.

Lemma save_bricks_plugs (c : Collab) (bs : list Brick) :
  forall socks plugs s, exists socks' s',
    save_bricks c bs socks plugs s = (Ok (socks', plugs ++ Statements.bound_plugs bs), s').
Proof.
  induction bs as [|b bs IH]; intros socks plugs s; simpl.
  - rewrite app_nil_r. by eexists _, _.
  - unfold write at 1. unfold mbind at 1, SE_bind, bind. 
    destruct (IH (if String.eqb (get_type b) "Qemu" then socks ++ Bricks.socks b else socks)
                (plugs ++ filter (λ p, is_Some (plug_sock p)) (Bricks.plugs b))
                (s +:+ brick_save_to c b)) as (socks' & s' & H).
    rewrite H. rewrite <- app_assoc. by eexists _, _.
Qed.

Lemma format_sock (s : Sock) :
  exists line,
    format ("sock|{s.brick.name}|{s.nickname}|{s.model}|{s.mac}" +:+ nl)
      [("s", OSock s)] = Ok line.
Proof. eexists. vm_compute. reflexivity. Qed.

Lemma format_link_qemu (p : Plug) :
  is_Some (plug_sock p) ->
  exists line,
    format ("link|{p.brick.name}|{p.sock.nickname}|{p.model}|" +:+ "{p.mac}" +:+ nl)
      [("p", OPlug p)] = Ok line.
Proof. intros [s Hs]. destruct p; simpl in Hs; subst. eexists. vm_compute. reflexivity. Qed.

Lemma format_link_other (p : Plug) :
  is_Some (plug_sock p) ->
  exists line,
    format ("link|{p.brick.name}|{p.sock.nickname}" +:+ nl) [("p", OPlug p)] = Ok line.
Proof. intros [s Hs]. destruct p; simpl in Hs; subst. eexists. vm_compute. reflexivity. Qed.

Lemma format_userlink (p : Plug) :
  format ("userlink|{p.brick.name}||{p.model}|{pl.mac}" +:+ nl) [("p", OPlug p)]
  = Raise (KeyError "pl").
Proof. vm_compute. reflexivity. Qed.


Lemma bound_plugs_elem (bs : list Brick) (b : Brick) (p : Plug) :
  b ∈ bs -> p ∈ plugs b -> is_Some (plug_sock p) -> p ∈ Statements.bound_plugs bs.
Proof.
  intros Hb Hp Hs. unfold Statements.bound_plugs.
  apply list_elem_of_In, in_flat_map. exists b. split.
  - by apply list_elem_of_In.
  - apply list_elem_of_In, list_elem_of_filter. done.
Qed.

Lemma bound_plugs_bound (bs : list Brick) (p : Plug) :
  p ∈ Statements.bound_plugs bs -> is_Some (plug_sock p).
Proof.
  intros Hp. apply list_elem_of_In, in_flat_map in Hp as (b & _ & Hp).
  apply list_elem_of_In, list_elem_of_filter in Hp. tauto.
Qed.

Ltac for_each_step :=
  match goal with
  | |- context [mbind ?k (for_each ?l ?body) ?s] =>
      let s' := fresh "s" in
      let H := fresh "H" in
      assert (exists s', for_each l body s = (Ok tt, s')) as [s' H];
      [apply for_each_ok | rewrite (bind_ok _ k _ _ _ H)]
  end.

Ltac run_lift H :=
  unfold mbind, SE_bind, bind, lift; rewrite H; by eexists.

(** C9 does not hold, for any such model: the [userlink] template names
    the keyword [pl], which [format] is not given, so [__save_to] raises
    [KeyError] whenever a brick of the factory has a bound plug of a
    [Qemu] brick whose mode is not [vde].  The sock lines and the other
    plug lines never raise, so this is the exception that ends the call. *)
Theorem save_to_userlink_raises (c : Collab) (fa : Factory) (b : Brick) (p : Plug) :
  b ∈ bricks fa ->
  p ∈ plugs b ->
  is_Some (plug_sock p) ->
  ref_type (plug_brick p) = "Qemu" ->
  plug_mode p <> "vde" ->
  (save_to c fa).1 = Raise (KeyError "pl").
Proof.
  intros Hb Hp Hs Htype Hmode. unfold save_to, __save_to.
  for_each_step.
  { intros x st _. destruct (host_autoconnect x); by eexists. }
  for_each_step.
  { intros x st _. by eexists. }
  for_each_step.
  { intros x st _. by eexists. }
  destruct (save_bricks_plugs c (bricks fa) [] [] s1) as (socks & s2 & H2).
  rewrite (bind_ok _ _ _ _ _ H2). simpl.
  for_each_step.
  { intros x st _. destruct (format_sock x) as [line Hl]. run_lift Hl. }
  match goal with
  | |- (for_each ?l ?body ?st0).1 = _ =>
      destruct (for_each_raise l body (KeyError "pl") p) with (s := st0)
        as [st' H']; [| | | by rewrite H']
  end.
  - by eapply bound_plugs_elem.
  - intros st. simpl. rewrite Htype. simpl.
    destruct (String.eqb_spec (plug_mode p) "vde") as [Heq|_]; [done|].
    run_lift (format_userlink p).
  - intros y st Hy. apply bound_plugs_bound in Hy. simpl.
    destruct (String.eqb (ref_type (plug_brick y)) "Qemu").
    + destruct (String.eqb (plug_mode y) "vde").
      * left. destruct (format_link_qemu y Hy) as [line Hl]. run_lift Hl.
      * right. run_lift (format_userlink y).
    + left. rewrite bool_decide_eq_true_2 by done.
      destruct (format_link_other y Hy) as [line Hl]. run_lift Hl.
Qed.

(** The virtual machine with a host-only plug. *)
Lemma save_to_userlink_raises_witness :
  (save_to Examples.plain_collab Examples.factory_hostonly).1 =
  Raise (KeyError "pl").
Proof.
  apply (save_to_userlink_raises Examples.plain_collab
           Examples.factory_hostonly
           Examples.vm1_hostonly
           (mkPlug Examples.vm1_ref (Some Examples.hostonly) "hostonly"
              "rtl8139" "00:aa:bb:cc:dd:ee")).
  - apply list_elem_of_here.
  - apply list_elem_of_here.
  - by eexists.
  - reflexivity.
  - discriminate.
Defined.

(** C1 does not hold for a model with a host-only plug on a virtual
    machine, whatever the sock nicknames: [save] raises [KeyError] before
    the project file is put in place, and [restore] of that file has
    nothing to open. *)
Theorem save_hostonly_then_restore (c : Collab) (fuel : nat) :
  (save c Examples.no_faults Examples.factory_hostonly "proj.vbl"
     (mkDisk ∅ [])).1 = Raise (KeyError "pl") /\
  files (save c Examples.no_faults Examples.factory_hostonly "proj.vbl"
           (mkDisk ∅ [])).2 !! "proj.vbl" = None /\
  (restore c Examples.no_faults fuel Examples.factory_hostonly "proj.vbl"
     (save c Examples.no_faults Examples.factory_hostonly "proj.vbl"
        (mkDisk ∅ [])).2).1.1 = Raise IOError.
Proof.
  repeat apply conj; vm_compute; reflexivity.
Qed.

End Saving.

(** ** Recovery of a backup *)

Section Recovery.
Import Bricks Configfile.

Lemma append_inj_r (s a b : string) : s +:+ a = s +:+ b -> a = b.
Proof. apply String.app_inj. Qed.

Lemma append_empty_r (s : string) : s +:+ "" = s.
Proof.
  induction s as [|c s IH]; [done|].
  change (String c (s +:+ "") = String c s). by rewrite IH.
Qed.

Lemma append_ne_self (s t : string) : t <> "" -> s +:+ t <> s.
Proof.
  intros Ht H. apply Ht, (append_inj_r s). by rewrite H, append_empty_r.
Qed.

Lemma os_rename_run flt src dst d :
  os_rename flt src dst d =
  match files d !! src with
  | None => (Raise (OSError ENOENT), d)
  | Some content =>
      match rename_fault flt src dst with
      | Some errno => (Raise (OSError errno), d)
      | None => (Ok tt, mkDisk (<[dst := content]> (delete src (files d)))
                          (disk_log d))
      end
  end.
Proof.
  unfold os_rename. rewrite bind_run. unfold get_state.
  destruct (files d !! src); [|done]. by destruct (rename_fault flt src dst).
Qed.

Lemma copyfile_run flt src dst d :
  copyfile flt src dst d =
  match files d !! src with
  | None => (Raise IOError, d)
  | Some content =>
      if copy_fault flt src dst then (Raise IOError, d)
      else (Ok tt, mkDisk (<[dst := content]> (files d)) (disk_log d))
  end.
Proof.
  unfold copyfile. rewrite bind_run. unfold get_state.
  destruct (files d !! src); [|done]. by destruct (copy_fault flt src dst).
Qed.

Lemma os_remove_run flt p d :
  os_remove flt p d =
  match files d !! p with
  | None => (Raise (OSError ENOENT), d)
  | Some _ =>
      if remove_fault flt p then (Raise (OSError EACCES), d)
      else (Ok tt, mkDisk (delete p (files d)) (disk_log d))
  end.
Proof.
  unfold os_remove. rewrite bind_run. unfold get_state.
  destruct (files d !! p); [|done]. by destruct (remove_fault flt p).
Qed.

Lemma read_file_run flt p d :
  read_file flt p d =
  match files d !! p with
  | None => (Raise IOError, d)
  | Some content =>
      if open_fault flt p then (Raise IOError, d) else (Ok content, d)
  end.
Proof.
  unfold read_file. rewrite bind_run. unfold get_state.
  destruct (files d !! p); [|done]. by destruct (open_fault flt p).
Qed.

Ltac disk_step :=
  first [ rewrite bind_run | rewrite try_except_run | rewrite try_finally_run
        | rewrite os_rename_run | rewrite copyfile_run | rewrite os_remove_run
        | rewrite read_file_run ];
  cbv beta iota.

Lemma set_aside_keeps_backup flt filename d content :
  files d !! (filename +:+ "~") = Some content ->
  exists d1,
    set_aside flt filename (filename +:+ ".back") d = (Ok tt, d1) /\
    files d1 !! (filename +:+ "~") = Some content.
Proof.
  intros Hb.
  assert (Hne1 : filename <> filename +:+ "~").
  { intros H. symmetry in H. by apply append_ne_self in H. }
  assert (Hne2 : filename +:+ ".back" <> filename +:+ "~").
  { intros H. by apply append_inj_r in H. }
  unfold set_aside. do 3 disk_step.
  destruct (files d !! filename) as [c0|] eqn:Hf.
  - destruct (rename_fault flt filename (filename +:+ ".back"))
      as [errno|] eqn:Hr.
    + destruct (errno =? EXDEV)%Z.
      * do 2 disk_step. rewrite Hf.
        destruct (copy_fault flt filename (filename +:+ ".back")).
        -- eexists; split; [reflexivity|done].
        -- eexists; split; [reflexivity|]. simpl. by rewrite lookup_insert_ne.
      * destruct (errno =? ENOENT)%Z; eexists; (split; [reflexivity|done]).
    + eexists; split; [reflexivity|]. simpl.
      rewrite lookup_insert_ne by done. by rewrite lookup_delete_ne.
  - eexists; split; [reflexivity|done].
Qed.

Lemma put_back_moves flt filename d content :
  files d !! (filename +:+ "~") = Some content ->
  Statements.backup_can_move flt filename ->
  exists d1,
    put_back flt filename (filename +:+ "~") (filename +:+ ".back") d = (Ok tt, d1) /\
    files d1 !! filename = Some content /\
    files d1 !! (filename +:+ "~") = None.
Proof.
  intros Hb Hmove.
  assert (Hne1 : filename <> filename +:+ "~").
  { intros H. symmetry in H. by apply append_ne_self in H. }
  unfold put_back. do 3 disk_step. rewrite Hb.
  destruct Hmove as [Hr | (Hr & Hc & Hd)]; rewrite Hr.
  - eexists; split; [reflexivity|]. simpl. split.
    + by rewrite lookup_insert_eq.
    + rewrite lookup_insert_ne by done. by rewrite lookup_delete_eq.
  - change (EXDEV =? EXDEV)%Z with true. cbv beta iota.
    do 4 disk_step. rewrite Hb, Hc. disk_step. simpl files.
    rewrite lookup_insert_ne by done. rewrite Hb, Hd.
    do 2 disk_step. simpl files. rewrite lookup_delete_eq.
    eexists; split; [reflexivity|]. simpl. split.
    + rewrite lookup_delete_ne by done. by rewrite lookup_insert_eq.
    + by rewrite lookup_delete_eq.
Qed.

Lemma restore_backup_moves flt filename d content :
  files d !! (filename +:+ "~") = Some content ->
  Statements.backup_can_move flt filename ->
  exists d2,
    restore_backup flt filename (filename +:+ "~") d = (Ok tt, d2) /\
    files d2 !! filename = Some content /\
    files d2 !! (filename +:+ "~") = None.
Proof.
  intros Hb Hmove.
  destruct (set_aside_keeps_backup flt filename
              (mkDisk (files d)
                 (disk_log d ++
                  [("info", "I found a backup project file, I'm going to restore it!")]))
              content Hb) as (d1 & H1 & Hb1).
  destruct (put_back_moves flt filename
              (mkDisk (files d1)
                 (disk_log d1 ++
                  [("info", "I found a backup project file, I'm going to restore it!")]))
              content Hb1 Hmove) as (d2 & H2 & Hf2 & Hb2).
  exists d2. split; [|done].
  unfold restore_backup. cbv zeta. disk_step. unfold isfile. rewrite Hb.
  rewrite bool_decide_eq_true_2 by (by eexists). cbv beta iota.
  disk_step. unfold log_disk at 1. cbv beta iota.
  disk_step. rewrite H1. cbv beta iota.
  disk_step. unfold log_disk at 1. cbv beta iota.
  exact H2.
Qed.

(** C7, amended: when a backup with suffix [~] exists and can be moved
    over the project file (the rename goes through, or it fails as a move
    across devices and the copy and the removal go through) and the
    project file can be opened, [restore] parses the lines of the backup
    and nothing else, the project file holds the backup's content, and
    the backup is gone. *)
Theorem restore_moves_backup (c : Collab) (flt : Faults) (fuel : nat)
    (fa : Factory) (filename : string) (d : Disk) (content : string) :
  files d !! (filename +:+ "~") = Some content ->
  Statements.backup_can_move flt filename ->
  open_fault flt filename = false ->
  exists d',
    restore c flt fuel fa filename d =
      (restore_from c fuel
         (mkLoader (factory_reset c fa) (readlines content) []), d') /\
    files d' !! filename = Some content /\
    files d' !! (filename +:+ "~") = None.
Proof.
  intros Hb Hmove Hopen.
  destruct (restore_backup_moves flt filename d content Hb Hmove)
    as (d2 & H2 & Hf2 & Hb2).
  exists (mkDisk (files d2)
            (disk_log d2 ++ [("info", "Open " +:+ filename +:+ " project")])).
  split; [|done].
  unfold restore, ConfigFile_restore.
  disk_step. rewrite H2. cbv beta iota.
  disk_step. unfold log_disk at 1. cbv beta iota.
  disk_step. simpl files. rewrite Hf2, Hopen.
  by destruct (restore_from c fuel _).
Qed.

(** An interrupted save recovered across devices. *)
Lemma restore_moves_backup_witness :
  exists d',
    restore Examples.plain_collab Examples.cross_device 5
      Examples.factory_vm1 "proj.vbl" Examples.disk_interrupted =
      (restore_from Examples.plain_collab 5
         (mkLoader (factory_reset Examples.plain_collab Examples.factory_vm1)
            (readlines ("[Switch:new]" +:+ nl +:+ nl)) []), d') /\
    files d' !! "proj.vbl" = Some ("[Switch:new]" +:+ nl +:+ nl) /\
    files d' !! "proj.vbl~" = None.
Proof.
  apply (restore_moves_backup Examples.plain_collab Examples.cross_device 5
           Examples.factory_vm1 "proj.vbl" Examples.disk_interrupted
           ("[Switch:new]" +:+ nl +:+ nl)).
  - vm_compute. reflexivity.
  - right. repeat apply conj; reflexivity.
  - reflexivity.
Defined.

(** C7, as stated, fails: when the rename of the backup is refused for
    lack of permission, [restore_backup] logs the failure, [restore]
    parses the project file as it was and returns, and the backup is still
    there. *)
Lemma restore_keeps_backup_when_rename_denied :
  ~ Statements.restore_recovers_backup Examples.plain_collab
      Examples.rename_denied 5 Examples.factory_vm1 "proj.vbl"
      Examples.disk_interrupted.
Proof.
  intros H. unfold Statements.restore_recovers_backup in H.
  destruct (restore Examples.plain_collab Examples.rename_denied 5
              Examples.factory_vm1 "proj.vbl" Examples.disk_interrupted)
    as [[r st] d'] eqn:Hr.
  vm_compute in Hr. inversion Hr; subst; clear Hr.
  edestruct H as [_ Hgone]; [vm_compute; reflexivity | reflexivity |].
  vm_compute in Hgone. discriminate Hgone.
Qed.

End Recovery.

(** ** Facts about strings and paths *)

Section MoreStrings.
Import Bricks Configfile.

Lemma append_assoc (a b c : string) : (a +:+ b) +:+ c = a +:+ (b +:+ c).
Proof.
  induction a as [|x a IH]; [done|].
  change (String x ((a +:+ b) +:+ c) = String x (a +:+ (b +:+ c))). by rewrite IH.
Qed.

Lemma length_append (a b : string) :
  String.length (a +:+ b) = (String.length a + String.length b)%nat.
Proof.
  induction a as [|x a IH]; [done|].
  change (String x a +:+ b) with (String x (a +:+ b)). simpl. by rewrite IH.
Qed.

Lemma re_sub_char_app (c : ascii) (by_ a b : string) :
  re_sub_char c by_ (a +:+ b) = re_sub_char c by_ a +:+ re_sub_char c by_ b.
Proof.
  induction a as [|x a IH]; [done|].
  change (String x a +:+ b) with (String x (a +:+ b)). simpl.
  destruct (Ascii.eqb x c); rewrite IH.
  - by rewrite append_assoc.
  - done.
Qed.

Lemma re_sub_char_absent (c : ascii) (by_ s : string) :
  contains (String c "") s = false -> re_sub_char c by_ s = s.
Proof.
  induction s as [|x s IH]; [done|]. simpl.
  intros H. apply orb_false_iff in H as [H1 H2].
  destruct (Ascii.eqb_spec x c) as [->|Hne].
  - exfalso. destruct (ascii_dec c c); [|done]. by destruct s.
  - by rewrite IH.
Qed.

Lemma contains_slash_cons (a : ascii) (s : string) :
  contains "/" (String a s) = Ascii.eqb a "/" || contains "/" s.
Proof.
  change (contains "/" (String a s)) with
    (String.prefix "/" (String a s) || contains "/" s).
  change (String.prefix "/" (String a s)) with
    (if ascii_dec "/" a then String.prefix "" s else false).
  destruct (ascii_dec "/" a) as [<-|Hne].
  - by destruct s.
  - destruct (Ascii.eqb_spec a "/") as [->|_]; [done|reflexivity].
Qed.

Lemma contains_slash_app (a b : string) :
  contains "/" (a +:+ b) = contains "/" a || contains "/" b.
Proof.
  induction a as [|x a IH].
  - reflexivity.
  - change (String x a +:+ b) with (String x (a +:+ b)).
    rewrite !contains_slash_cons, IH. by rewrite orb_assoc.
Qed.

Lemma split_last_slash_cons (a : ascii) (rest : string) :
  split_last_slash (String a rest) =
  if contains "/" rest
  then (String a (split_last_slash rest).1, (split_last_slash rest).2)
  else if Ascii.eqb a "/" then ("/", rest) else ("", String a rest).
Proof.
  change (split_last_slash (String a rest)) with
    (let '(h, t) := split_last_slash rest in
     if contains "/" rest then (String a h, t)
     else if Ascii.eqb a "/" then ("/", rest) else ("", String a rest)).
  by destruct (split_last_slash rest).
Qed.

Lemma basename_no_slash (p : string) : contains "/" (More.basename p) = false.
Proof.
  unfold More.basename. induction p as [|a rest IH]; [done|].
  rewrite split_last_slash_cons.
  destruct (contains "/" rest) eqn:Hc; [done|].
  destruct (Ascii.eqb a "/") eqn:Ha; simpl; [done|].
  change (contains "/" (String a rest) = false).
  by rewrite contains_slash_cons, Ha, Hc.
Qed.

Lemma basename_join (h x : string) :
  contains "/" x = false -> More.basename (h +:+ "/" +:+ x) = x.
Proof.
  intros Hx. unfold More.basename. induction h as [|a h IH].
  - change ("" +:+ "/" +:+ x) with (String "/" x).
    rewrite split_last_slash_cons, Hx. done.
  - change (String a h +:+ "/" +:+ x) with (String a (h +:+ "/" +:+ x)).
    rewrite split_last_slash_cons.
    rewrite contains_slash_app.
    change ("/" +:+ x) with (String "/" x).
    rewrite contains_slash_cons. simpl. rewrite orb_true_r. simpl. exact IH.
Qed.

Lemma basename_plain (x : string) :
  contains "/" x = false -> More.basename x = x.
Proof.
  intros Hx. unfold More.basename. destruct x as [|a x]; [done|].
  rewrite split_last_slash_cons. rewrite contains_slash_cons in Hx.
  apply orb_false_iff in Hx as [Ha Hx]. by rewrite Hx, Ha.
Qed.

Lemma basename_app (p s : string) :
  contains "/" s = false -> More.basename (p +:+ s) = More.basename p +:+ s.
Proof.
  intros Hs. unfold More.basename. induction p as [|a p IH].
  - apply basename_plain, Hs.
  - change (String a p +:+ s) with (String a (p +:+ s)).
    rewrite !split_last_slash_cons, contains_slash_app, Hs, orb_false_r.
    destruct (contains "/" p); [exact IH|].
    by destruct (Ascii.eqb a "/").
Qed.

Lemma rstrip_changed (c : ascii) (h : string) :
  rstrip [c] h <> h -> exists h', h = h' +:+ String c "".
Proof.
  induction h as [|a h IH]; [done|]. simpl.
  destruct (rstrip [c] h) as [|b r] eqn:Hr.
  - destruct (Ascii.eqb_spec a c) as [->|Hne]; simpl.
    + intros _. destruct h as [|b h].
      * by exists "".
      * destruct IH as [h' ->]; [done|]. by exists (String c h').
    + intros Hne'. destruct h as [|b h]; [done|].
      destruct IH as [h' ->]; [done|]. by exists (String a h').
  - intros Hne. destruct IH as [h' ->]; [congruence|]. by exists (String a h').
Qed.

Lemma basename_path_join (h x : string) :
  contains "/" x = false -> More.basename (path_join h x) = x.
Proof.
  intros Hx. unfold path_join.
  assert (Hsw : startswith x "/" = false).
  { destruct x as [|a x]; [done|]. rewrite contains_slash_cons in Hx.
    apply orb_false_iff in Hx as [Ha _]. unfold startswith.
    change (String.prefix "/" (String a x)) with
      (if ascii_dec "/" a then String.prefix "" x else false).
    destruct (ascii_dec "/" a) as [<-|]; done. }
  rewrite Hsw. destruct (String.eqb_spec h "") as [->|Hne].
  { by apply basename_plain. }
  destruct (String.eqb_spec (rstrip ["/"%char] h) h) as [_|Hch].
  { by apply basename_join. }
  apply rstrip_changed in Hch as [h' ->].
  rewrite append_assoc. by apply basename_join.
Qed.

Lemma path_split_tail (p : string) : (path_split p).2 = More.basename p.
Proof.
  unfold path_split, More.basename. destruct (split_last_slash p) as [h t].
  by destruct (String.eqb _ _).
Qed.

Lemma tmpfile_basename (filename : string) :
  More.basename (More.tmpfile_of filename) =
  "." +:+ More.basename filename +:+ ".sav".
Proof.
  unfold More.tmpfile_of. pose proof (path_split_tail filename) as Ht.
  destruct (path_split filename) as [h t]. simpl in Ht. subst t.
  apply basename_path_join.
  change ("." +:+ More.basename filename +:+ ".sav") with
    (String "." (More.basename filename +:+ ".sav")).
  rewrite contains_slash_cons, contains_slash_app, basename_no_slash. done.
Qed.

Lemma tmpfile_ne_filename (filename : string) :
  More.tmpfile_of filename <> filename.
Proof.
  intros H. pose proof (tmpfile_basename filename) as Hb. rewrite H in Hb.
  apply (f_equal String.length) in Hb.
  change ("." +:+ More.basename filename +:+ ".sav") with
    (String "." (More.basename filename +:+ ".sav")) in Hb.
  simpl in Hb. rewrite length_append in Hb. simpl in Hb. lia.
Qed.

Lemma tmpfile_ne_backup (filename : string) :
  More.tmpfile_of filename <> filename +:+ "~".
Proof.
  intros H. pose proof (tmpfile_basename filename) as Hb. rewrite H in Hb.
  rewrite basename_app in Hb by done.
  apply (f_equal String.length) in Hb.
  change ("." +:+ More.basename filename +:+ ".sav") with
    (String "." (More.basename filename +:+ ".sav")) in Hb.
  simpl in Hb. rewrite !length_append in Hb. simpl in Hb. lia.
Qed.

End MoreStrings.

(** ** Starting a brick that runs already, lives on a remote host, or
    cannot be spawned *)

Section Starting.
Import Bricks.
Variable env : Env.

Ltac run_brick :=
  cbv beta iota zeta delta
    [mbind mret SE_bind SE_ret bind ret raise lift try_except get modify tell].

Lemma poweron_guards_run (w : World) :
  More.guards_pass env (brick w) ->
  poweron env w =
  match _poweron env w with
  | (Ok _, w') => (Ok tt, mkWorld (brick w') (trace w' ++ [Emit "changed" None]))
  | (Raise e, w') => (Raise e, w')
  end.
Proof.
  intros Hg. unfold poweron. run_brick. unfold More.guards_pass in Hg.
  destruct (factory_TCP env); [reflexivity|].
  destruct (Hg eq_refl) as (-> & -> & ->); reflexivity.
Qed.

(** [poweron] on a brick that has a process handle: past the guards
    nothing is spawned, no attribute changes, and the only thing the
    outside sees is the signal [changed]. *)
Theorem poweron_running_idempotent (w : World) :
  is_Some (proc (brick w)) ->
  More.guards_pass env (brick w) ->
  poweron env w = (Ok tt, mkWorld (brick w) (trace w ++ [Emit "changed" None])).
Proof.
  intros Hp Hg. rewrite (poweron_guards_run w Hg).
  unfold _poweron. run_brick.
  by rewrite bool_decide_eq_true_2.
Qed.

Lemma poweron_outcome (w : World) :
  (exists e, poweron env w = (Raise e, w)) \/
  poweron env w =
  match _poweron env w with
  | (Ok _, w') => (Ok tt, mkWorld (brick w') (trace w' ++ [Emit "changed" None]))
  | (Raise e, w') => (Raise e, w')
  end.
Proof.
  unfold poweron. run_brick. destruct (factory_TCP env); [by right|].
  destruct (configured (brick w)); [|left; by eexists].
  destruct (properly_connected env (brick w)); [|left; by eexists].
  destruct (check_links env (brick w)); [by right|left; by eexists].
Qed.

Lemma _poweron_remote (w : World) (h : RemoteHost) :
  homehost (brick w) = Some h ->
  exists r extra,
    _poweron env w = (r, mkWorld (brick w) (trace w ++ extra)) /\
    forallb More.is_log_or_send extra = true /\
    (host_connected h = false -> forallb More.is_log extra = true).
Proof.
  intros Hh. unfold _poweron. run_brick.
  destruct (bool_decide (is_Some (proc (brick w)))).
  { exists (Ok tt), []. rewrite app_nil_r. by destruct w. }
  destruct (args (brick w)) as [cl|e].
  2:{ by eexists (Ok tt), [_]. }
  destruct (sudo_command_line env (brick w) cl) as [cl'|e].
  2:{ exists (Raise e), []. rewrite app_nil_r. by destruct w. }
  rewrite Hh.
  destruct (host_connected h); cbv beta iota delta [negb]; cbn [brick trace];
    rewrite <- app_assoc; eexists (Ok tt), _; (split; [reflexivity|]);
    (split; [done|]); first [done | intros; discriminate].
Qed.

(** [poweron] on a brick with a home host: whatever the outcome, no
    attribute of the brick changes (it gets no process handle and is not
    marked active or running), no process is spawned and [brick-started]
    is not emitted; when the host is not connected nothing is sent to it
    either. *)
Theorem poweron_remote_never_spawns (w w1 : World) (h : RemoteHost)
    (r : result unit) :
  homehost (brick w) = Some h ->
  poweron env w = (r, w1) ->
  brick w1 = brick w /\
  exists extra,
    trace w1 = trace w ++ extra /\
    (forall cl out, Popen cl out ∉ extra) /\
    (forall a, Emit "brick-started" a ∉ extra) /\
    (host_connected h = false -> forall a m, HostSend a m ∉ extra).
Proof.
  intros Hh Hon.
  destruct (_poweron_remote w h Hh) as (r0 & extra & Hrun & Hq & Hnc).
  assert (Hno : forall e, More.is_log_or_send e = false -> e ∉ extra).
  { intros e He Hin. rewrite forallb_forall in Hq.
    apply list_elem_of_In, Hq in Hin. congruence. }
  assert (Hno' : host_connected h = false ->
                 forall e, More.is_log e = false -> e ∉ extra).
  { intros Hc e He Hin. specialize (Hnc Hc). rewrite forallb_forall in Hnc.
    apply list_elem_of_In, Hnc in Hin. congruence. }
  destruct (poweron_outcome w) as [[e He]|Hrun'].
  - rewrite He in Hon. inversion Hon; subst. split; [done|].
    exists []. rewrite app_nil_r. repeat split; intros; apply not_elem_of_nil.
  - rewrite Hrun', Hrun in Hon. destruct r0; inversion Hon; subst; simpl.
    + split; [done|]. exists (extra ++ [Emit "changed" None]).
      rewrite app_assoc. repeat split; intros;
        (intros Hin; apply elem_of_app in Hin as [Hin|Hin];
         [| apply list_elem_of_singleton in Hin; discriminate]).
      * by apply Hno in Hin.
      * by apply Hno in Hin.
      * by apply Hno' in Hin.
    + split; [done|]. exists extra. repeat split; intros.
      * by apply Hno.
      * by apply Hno.
      * by apply Hno'.
Qed.

(** [poweroff] after [poweron] on a brick with a home host that was off:
    the brick has no process handle, so [poweroff] returns at its first
    test; the branch that tells the host to stop the brick is not
    reached, and nothing is added to the trace. *)
Theorem poweroff_after_remote_poweron (fuel : nat) (w w1 : World)
    (h : RemoteHost) (r : result unit) :
  homehost (brick w) = Some h ->
  proc (brick w) = None ->
  poweron env w = (r, w1) ->
  poweroff fuel env w1 = (Ok Returned, w1).
Proof.
  intros Hh Hp Hon.
  assert (Hb : brick w1 = brick w).
  { destruct (_poweron_remote w h Hh) as (r0 & extra & Hrun & _).
    destruct (poweron_outcome w) as [[e He]|Hrun'].
    - rewrite He in Hon. by inversion Hon.
    - rewrite Hrun', Hrun in Hon. by destruct r0; inversion Hon. }
  unfold poweroff. run_brick. by rewrite Hb, Hp.
Qed.

Lemma spawn_local_failed (cl : list string) (w : World) :
  os_popen env cl = None ->
  exists r extra,
    spawn_local env cl w = (r, mkWorld (brick w) (trace w ++ extra)) /\
    r <> Ok true /\ forallb More.is_log extra = true.
Proof.
  intros Hpo. unfold spawn_local, cfg_attr. run_brick. rewrite Hpo.
  assert (Hw : w = mkWorld (brick w) (trace w ++ [])).
  { rewrite app_nil_r. by destruct w. }
  destruct (String.eqb (get_type (brick w)) "Qemu").
  - destruct (cfg (brick w) !! "stdout") as [out|].
    + destruct (String.eqb out ""); cbv beta iota delta [negb].
      * by eexists (Ok false), [_].
      * destruct (os_open_write env out).
        -- by eexists (Ok false), [_].
        -- exists (Raise IOError), []. by rewrite <- Hw.
    + eexists (Raise _), []. by rewrite <- Hw.
  - by eexists (Ok false), [_].
Qed.

(** [poweron] when the operating system refuses to spawn ([Popen] raises
    [OSError]): whatever the outcome, no attribute of the brick changes,
    so it is neither active nor marked running, and neither a spawn nor
    [brick-started] shows in the trace. *)
Theorem poweron_spawn_failure_leaves_brick (w w1 : World) (r : result unit) :
  proc (brick w) = None ->
  (forall cl, os_popen env cl = None) ->
  poweron env w = (r, w1) ->
  brick w1 = brick w /\
  exists extra,
    trace w1 = trace w ++ extra /\
    (forall a, Emit "brick-started" a ∉ extra) /\
    (forall cl out, Popen cl out ∉ extra).
Proof.
  intros Hp Hpo Hon.
  assert (Hrun : exists r0 extra,
            _poweron env w = (r0, mkWorld (brick w) (trace w ++ extra)) /\
            forallb More.is_log_or_send extra = true).
  { unfold _poweron. run_brick. rewrite Hp.
    rewrite bool_decide_eq_false_2 by (by intros [? ?]).
    destruct (args (brick w)) as [cl|e].
    2:{ by eexists (Ok tt), [_]. }
    destruct (sudo_command_line env (brick w) cl) as [cl'|e].
    2:{ exists (Raise e), []. rewrite app_nil_r. by destruct w. }
    destruct (homehost (brick w)) as [h|].
    { destruct (host_connected h); cbv beta iota delta [negb];
        cbn [brick trace]; rewrite <- app_assoc; by eexists (Ok tt), _. }
    match goal with
    | |- context [spawn_local env ?c ?w0] =>
        destruct (spawn_local_failed c w0 (Hpo c)) as (r0 & ex & Hs & Hr & Hl);
        rewrite Hs
    end.
    cbn [brick trace]. rewrite <- app_assoc.
    assert (Hq : forallb More.is_log_or_send
                   ([Log "debug" ("Starting: '" +:+ join " " cl' +:+ "'")] ++ ex)
                 = true).
    { simpl. rewrite forallb_forall in Hl. apply forallb_forall.
      intros e He. specialize (Hl e He). by destruct e. }
    destruct r0 as [[|]|e]; [done| |]; by eexists _, _. }
  destruct Hrun as (r0 & extra & Hrun & Hq).
  assert (Hno : forall e, More.is_log_or_send e = false -> e ∉ extra).
  { intros e He Hin. rewrite forallb_forall in Hq.
    apply list_elem_of_In, Hq in Hin. congruence. }
  destruct (poweron_outcome w) as [[e He]|Hrun'].
  - rewrite He in Hon. inversion Hon; subst. split; [done|].
    exists []. rewrite app_nil_r. split; [done|].
    split; intros; apply not_elem_of_nil.
  - rewrite Hrun', Hrun in Hon. destruct r0; inversion Hon; subst; simpl.
    + split; [done|]. exists (extra ++ [Emit "changed" None]).
      rewrite app_assoc. split; [done|].
      split; intros; (intros Hin; apply elem_of_app in Hin as [Hin|Hin];
         [by apply Hno in Hin
         | apply list_elem_of_singleton in Hin; discriminate]).
    + split; [done|]. exists extra. split; [done|]. split; intros; by apply Hno.
Qed.

(** [poweron] on a brick whose class does not implement [prog]: the
    [NotImplementedError] is caught and logged, nothing is spawned, no
    attribute changes, and [poweron] returns normally after emitting
    [changed]. *)
Theorem poweron_without_program (w : World) :
  prog (brick w) = None ->
  proc (brick w) = None ->
  More.guards_pass env (brick w) ->
  poweron env w =
  (Ok tt,
   mkWorld (brick w)
     (trace w ++
      [Log "exception" "Error while retrieving the list of arguments.";
       Emit "changed" None])).
Proof.
  intros Hprog Hp Hg. rewrite (poweron_guards_run w Hg).
  unfold _poweron, args. run_brick. rewrite Hp, Hprog.
  rewrite bool_decide_eq_false_2 by (by intros [? ?]).
  cbn [brick trace]. by rewrite <- app_assoc.
Qed.

End Starting.

Lemma poweron_running_idempotent_witness :
  Bricks.poweron Examples.env_ok (Bricks.mkWorld Examples.sw1_running []) =
  (Ok tt, Bricks.mkWorld Examples.sw1_running
            ([] ++ [Bricks.Emit "changed" None])).
Proof.
  apply (poweron_running_idempotent Examples.env_ok
           (Bricks.mkWorld Examples.sw1_running [])).
  - by eexists.
  - intros _. repeat apply conj; reflexivity.
Defined.

Lemma poweron_remote_never_spawns_witness :
  Bricks.brick
    (Bricks.poweron Examples.env_ok (Bricks.mkWorld More.sw1_remote [])).2 =
  More.sw1_remote /\
  exists extra,
    Bricks.trace
      (Bricks.poweron Examples.env_ok (Bricks.mkWorld More.sw1_remote [])).2 =
    [] ++ extra /\
    (forall cl out, Bricks.Popen cl out ∉ extra) /\
    (forall a, Bricks.Emit "brick-started" a ∉ extra) /\
    (Bricks.host_connected More.remote1 = false ->
     forall a m, Bricks.HostSend a m ∉ extra).
Proof.
  apply (poweron_remote_never_spawns Examples.env_ok
           (Bricks.mkWorld More.sw1_remote []) _ More.remote1
           (Bricks.poweron Examples.env_ok
              (Bricks.mkWorld More.sw1_remote [])).1).
  - reflexivity.
  - apply surjective_pairing.
Defined.

Lemma poweroff_after_remote_poweron_witness :
  Bricks.poweroff 5 Examples.env_ok
    (Bricks.poweron Examples.env_ok (Bricks.mkWorld More.sw1_remote [])).2 =
  (Ok Returned,
   (Bricks.poweron Examples.env_ok (Bricks.mkWorld More.sw1_remote [])).2).
Proof.
  apply (poweroff_after_remote_poweron Examples.env_ok 5
           (Bricks.mkWorld More.sw1_remote []) _ More.remote1
           (Bricks.poweron Examples.env_ok
              (Bricks.mkWorld More.sw1_remote [])).1).
  - reflexivity.
  - reflexivity.
  - apply surjective_pairing.
Defined.

Lemma poweron_spawn_failure_leaves_brick_witness :
  Bricks.brick
    (Bricks.poweron More.env_no_spawn (Bricks.mkWorld Examples.sw1 [])).2 =
  Examples.sw1 /\
  exists extra,
    Bricks.trace
      (Bricks.poweron More.env_no_spawn (Bricks.mkWorld Examples.sw1 [])).2 =
    [] ++ extra /\
    (forall a, Bricks.Emit "brick-started" a ∉ extra) /\
    (forall cl out, Bricks.Popen cl out ∉ extra).
Proof.
  apply (poweron_spawn_failure_leaves_brick More.env_no_spawn
           (Bricks.mkWorld Examples.sw1 []) _
           (Bricks.poweron More.env_no_spawn
              (Bricks.mkWorld Examples.sw1 [])).1).
  - reflexivity.
  - reflexivity.
  - apply surjective_pairing.
Defined.

Lemma poweron_without_program_witness :
  Bricks.poweron Examples.env_ok (Bricks.mkWorld More.abstract_brick []) =
  (Ok tt,
   Bricks.mkWorld More.abstract_brick
     ([] ++
      [Bricks.Log "exception" "Error while retrieving the list of arguments.";
       Bricks.Emit "changed" None])).
Proof.
  apply (poweron_without_program Examples.env_ok
           (Bricks.mkWorld More.abstract_brick [])).
  - reflexivity.
  - reflexivity.
  - intros _. repeat apply conj; reflexivity.
Defined.

(** ** Stopping a process that never exits, or that has exited *)

Section Stopping.
Import Bricks.
Variable env : Env.

Ltac run_brick :=
  cbv beta iota zeta delta
    [mbind mret SE_bind SE_ret bind ret raise lift try_except get modify tell].

Lemma wait_loop_forever (p : Proc) :
  proc_alive_polls p = None ->
  forall (fuel : nat) (w : World),
    proc (brick w) = Some p ->
    exists w',
      wait_loop fuel w = (Ok StillLooping, w') /\ proc (brick w') = Some p /\
      run_condition (brick w') = run_condition (brick w) /\
      active (brick w') = active (brick w).
Proof.
  intros Hn. induction fuel as [|fuel IH]; intros w Hp.
  - by exists w.
  - rewrite (wait_loop_step fuel w p Hp). unfold poll. rewrite Hn. cbn [fst snd].
    cbv zeta.
    destruct (IH (mkWorld (set_proc (Some p) (brick w)) (trace w ++ [Sleep])))
      as (w' & Hw & Hp' & Hr & Ha); [done|].
    exists w'. by rewrite Hw.
Qed.

(** [poweroff] has no time-out: when the signal was delivered and the
    process never reports an exit, the loop around [poll] is still
    running after any number of rounds, with the process handle in place,
    the brick marked not running and its [active] flag as before. *)
Theorem poweroff_waits_without_bound (fuel : nat) (w : World) (p : Proc) :
  proc (brick w) = Some p ->
  run_condition (brick w) = true ->
  homehost (brick w) = None ->
  proc_alive_polls p = None ->
  Statements.stop_succeeds env (brick w) p ->
  exists w',
    poweroff fuel env w = (Ok StillLooping, w') /\
    proc (brick w') = Some p /\
    run_condition (brick w') = false /\
    active (brick w') = active (brick w).
Proof.
  intros Hp Hrun Hhost Hn Hstop.
  rewrite (poweroff_run env fuel w p Hp Hrun Hhost). cbv zeta.
  assert (Hpoll : poll p = (None, p)) by (unfold poll; by rewrite Hn).
  rewrite Hpoll. cbn [fst snd]. rewrite bool_decide_eq_true_2 by done.
  set (w0 := mkWorld _ _).
  destruct (stop_running_ok env w0 p Hstop) as [tr ->].
  destruct (wait_loop_forever p Hn fuel (mkWorld (brick w0) tr))
    as (w' & -> & Hp' & Hr & Ha); [done|].
  exists w'. by repeat split.
Qed.

Lemma start_related_events_trace (on off : bool) (w : World) :
  is_Some (cfg (brick w) !! "pon_vbevent") ->
  is_Some (cfg (brick w) !! "poff_vbevent") ->
  exists evs,
    start_related_events env on off w = (Ok tt, mkWorld (brick w) (trace w ++ evs)) /\
    forallb More.is_log_or_event evs = true.
Proof.
  intros [pon Hon] [poff Hoff].
  assert (Hw : w = mkWorld (brick w) (trace w ++ [])).
  { rewrite app_nil_r. by destruct w. }
  unfold start_related_events, cfg_attr.
  destruct on, off; run_brick; cbv beta iota delta [negb andb];
    rewrite ?Hon, ?Hoff.
  all: try (exists []; by rewrite <- Hw).
  all: repeat match goal with
         | |- context [if String.eqb ?a ?b then _ else _] => destruct (String.eqb a b)
         | |- context [match get_event_by_name ?e ?n with _ => _ end] => destruct (get_event_by_name e n)
         end; try (exists []; by rewrite <- Hw); try (by eexists [_]).
Qed.

Lemma finish_poweroff_trace (w : World) :
  is_Some (cfg (brick w) !! "pon_vbevent") ->
  is_Some (cfg (brick w) !! "poff_vbevent") ->
  exists evs,
    finish_poweroff env w =
    (Ok tt,
     mkWorld (set_active false (set_internal_console None
                (set_need_restart false (set_proc None (brick w)))))
       (trace w ++ Emit "brick-stopped" (Some (name (brick w))) :: evs)) /\
    forallb More.is_log_or_event evs = true.
Proof.
  intros Hpon Hpoff. unfold finish_poweroff, close_internal_console, post_poweroff.
  run_brick.
  rewrite has_console_closing_off by reflexivity.
  cbv beta iota delta [negb]. cbn [brick trace].
  match goal with
  | |- context [start_related_events env ?on ?off ?w0] =>
      destruct (start_related_events_trace on off w0) as (evs & Hev & Hq);
      [done | done | rewrite Hev]
  end.
  exists evs. split; [|done]. cbn [brick trace]. by rewrite <- app_assoc.
Qed.

(** [poweroff] on a brick whose process has exited already: no signal is
    sent and [kill] is not run; the handle is dropped, the brick is
    inactive, and [brick-stopped] is emitted. *)
Theorem poweroff_exited_sends_no_signal (fuel : nat) (w : World) (p : Proc) :
  proc (brick w) = Some p ->
  run_condition (brick w) = true ->
  homehost (brick w) = None ->
  proc_alive_polls p = Some 0%nat ->
  is_Some (cfg (brick w) !! "pon_vbevent") ->
  is_Some (cfg (brick w) !! "poff_vbevent") ->
  (0 < fuel)%nat ->
  exists w' extra,
    poweroff fuel env w = (Ok Returned, w') /\
    proc (brick w') = None /\
    active (brick w') = false /\
    trace w' = trace w ++ extra /\
    Emit "brick-stopped" (Some (name (brick w))) ∈ extra /\
    (forall pid, Terminate pid ∉ extra) /\
    (forall cmd, System cmd ∉ extra).
Proof.
  intros Hp Hrun Hhost Hn Hpon Hpoff Hfuel.
  rewrite (poweroff_run env fuel w p Hp Hrun Hhost). cbv zeta.
  assert (Hpoll : poll p = (Some (proc_returncode p), p)).
  { unfold poll. by rewrite Hn. }
  rewrite Hpoll. cbn [fst snd]. rewrite bool_decide_eq_false_2 by done.
  destruct fuel as [|fuel]; [lia|].
  rewrite (wait_loop_step fuel _ p) by reflexivity.
  rewrite Hpoll. cbn [fst snd]. cbv zeta. cbn [brick trace].
  match goal with
  | |- context [finish_poweroff env ?w0] =>
      destruct (finish_poweroff_trace w0) as (evs & -> & Hq); [done | done |]
  end.
  assert (Hno : forall e, More.is_log_or_event e = false -> e ∉ evs).
  { intros e He Hin. rewrite forallb_forall in Hq.
    apply list_elem_of_In, Hq in Hin. congruence. }
  eexists _, ([Log "debug" ("Shutting down " +:+ name (brick w)); Sleep;
               Emit "brick-stopped" (Some (name (brick w)))] ++ evs).
  split; [reflexivity|]. cbn [brick trace].
  split; [done|]. split; [done|]. split.
  { by rewrite <- !app_assoc. }
  split.
  { apply elem_of_app. left. set_solver. }
  split; intros; (intros Hin; apply elem_of_app in Hin as [Hin|Hin];
    [ repeat (apply elem_of_cons in Hin as [Hin|Hin]; [discriminate|]);
      by apply not_elem_of_nil in Hin
    | by apply Hno in Hin ]).
Qed.

End Stopping.

Lemma poweroff_waits_without_bound_witness :
  exists w',
    Bricks.poweroff 7 Examples.env_ok (Bricks.mkWorld More.sw1_hung []) =
      (Ok StillLooping, w') /\
    Bricks.proc (Bricks.brick w') = Some More.proc_hung /\
    Bricks.run_condition (Bricks.brick w') = false /\
    Bricks.active (Bricks.brick w') = true.
Proof.
  apply (poweroff_waits_without_bound Examples.env_ok 7
           (Bricks.mkWorld More.sw1_hung []) More.proc_hung).
  - reflexivity.
  - reflexivity.
  - reflexivity.
  - reflexivity.
  - vm_compute. split; reflexivity.
Defined.

Lemma poweroff_exited_sends_no_signal_witness :
  exists w' extra,
    Bricks.poweroff 1 Examples.env_ok (Bricks.mkWorld More.sw1_exited []) =
      (Ok Returned, w') /\
    Bricks.proc (Bricks.brick w') = None /\
    Bricks.active (Bricks.brick w') = false /\
    Bricks.trace w' = [] ++ extra /\
    Bricks.Emit "brick-stopped" (Some "sw1") ∈ extra /\
    (forall pid, Bricks.Terminate pid ∉ extra) /\
    (forall cmd, Bricks.System cmd ∉ extra).
Proof.
  apply (poweroff_exited_sends_no_signal Examples.env_ok 1
           (Bricks.mkWorld More.sw1_exited []) More.proc_exited).
  - reflexivity.
  - reflexivity.
  - reflexivity.
  - reflexivity.
  - by eexists.
  - by eexists.
  - lia.
Defined.

(** ** The internal console *)

Section Console.
Import Bricks.
Variable env : Env.

Ltac run_brick :=
  cbv beta iota zeta delta
    [mbind mret SE_bind SE_ret bind ret raise lift try_except get modify tell].

Lemma sleeps_app (a b : list Effect) :
  More.sleeps (a ++ b) = (More.sleeps a + More.sleeps b)%nat.
Proof. induction a as [|[] a IH]; simpl; lia. Qed.

Lemma has_console_loop_trace (closing : bool) (n : nat) (w : World) :
  exists r extra,
    has_console_loop env closing n w = (Ok r, mkWorld (brick w) (trace w ++ extra)) /\
    (More.sleeps extra <= n)%nat /\
    (r = true -> is_Some (proc (brick w)) /\
                 os_path_exists env (console env (brick w)) = true).
Proof.
  revert w. induction n as [|n IH]; intros w; simpl.
  - exists false, []. rewrite app_nil_r. split; [by destruct w|]. split; [simpl; lia|done].
  - run_brick.
    destruct (bool_decide (is_Some (proc (brick w)))) eqn:H1; cbn [andb].
    2:{ destruct closing.
        - exists false, []. rewrite app_nil_r. split; [by destruct w|]. split; [simpl; lia|done].
        - destruct (IH (mkWorld (brick w) (trace w ++ [Sleep]))) as (r & ex & Hr & Hs & Hc).
          exists r, (Sleep :: ex). cbn [brick trace] in *. rewrite Hr.
          rewrite <- app_assoc. split; [done|]. split; [simpl; lia|done]. }
    destruct ((0 <? String.length (console env (brick w)))%nat); cbn [andb].
    2:{ destruct closing.
        - exists false, []. rewrite app_nil_r. split; [by destruct w|]. split; [simpl; lia|done].
        - destruct (IH (mkWorld (brick w) (trace w ++ [Sleep]))) as (r & ex & Hr & Hs & Hc).
          exists r, (Sleep :: ex). cbn [brick trace] in *. rewrite Hr.
          rewrite <- app_assoc. split; [done|]. split; [simpl; lia|done]. }
    destruct (os_path_exists env (console env (brick w))) eqn:H3.
    + exists true, []. rewrite app_nil_r. split; [by destruct w|].
      split; [simpl; lia|]. intros _. split; [|done]. by apply bool_decide_eq_true in H1.
    + destruct closing.
        * exists false, []. rewrite app_nil_r. split; [by destruct w|]. split; [simpl; lia|done].
        * destruct (IH (mkWorld (brick w) (trace w ++ [Sleep]))) as (r & ex & Hr & Hs & Hc).
          exists r, (Sleep :: ex). cbn [brick trace] in *. rewrite Hr.
          rewrite <- app_assoc. split; [done|]. split; [simpl; lia|].
          intros Hr'. destruct (Hc Hr') as [_ Hx]. congruence.
Qed.

Lemma connect_loop_trace (n : nat) (w : World) :
  exists r extra,
    connect_loop env n w = (Ok r, mkWorld (brick w) (trace w ++ extra)) /\
    (More.sleeps extra <= n)%nat /\
    (is_Some r -> r = Some (console env (brick w)) /\
                  os_socket_connect env (console env (brick w)) = true).
Proof.
  revert w. induction n as [|n IH]; intros w; simpl; run_brick.
  - eexists None, [_]. split; [reflexivity|]. split; [simpl; lia|]. intros [? ?]; discriminate.
  - destruct (os_socket_connect env (console env (brick w))) eqn:Hc.
    + eexists _, [Sleep; _]. cbn [brick trace]. rewrite <- app_assoc.
      split; [reflexivity|]. split; [simpl; lia|done].
    + destruct (IH (mkWorld (brick w) (trace w ++ [Sleep]))) as (r & ex & Hr & Hs & Hcc).
      exists r, (Sleep :: ex). cbn [brick trace] in *. rewrite Hr.
      rewrite <- app_assoc. split; [done|]. split; [simpl; lia|].
      intros Hr'. destruct (Hcc Hr') as [_ Hx]. congruence.
Qed.

(** [open_internal_console] never raises and changes no attribute of the
    brick; it sleeps at most eighteen times (nine while it waits for the
    console path, nine while it tries to connect); and it returns a
    console only for a brick with a process handle whose console path
    exists and accepts the connection. *)
Theorem open_internal_console_budget (w : World) :
  exists ic extra,
    open_internal_console env w = (Ok ic, mkWorld (brick w) (trace w ++ extra)) /\
    (More.sleeps extra <= 18)%nat /\
    (is_Some ic ->
     ic = Some (console env (brick w)) /\
     is_Some (proc (brick w)) /\
     os_path_exists env (console env (brick w)) = true /\
     os_socket_connect env (console env (brick w)) = true).
Proof.
  unfold open_internal_console, has_console. run_brick.
  destruct (has_console_loop_trace false 9
              (mkWorld (brick w) (trace w ++ [Log "debug" "open_internal_console"])))
    as (hc & ex1 & H1 & Hs1 & Hc1).
  rewrite H1. cbn [brick trace] in *. destruct hc; cbv beta iota delta [negb].
  - destruct (connect_loop_trace 9
                (mkWorld (brick w)
                   ((trace w ++ [Log "debug" "open_internal_console"]) ++ ex1)))
      as (ic & ex2 & H2 & Hs2 & Hc2).
    rewrite H2. cbn [brick trace] in *.
    exists ic, ([Log "debug" "open_internal_console"] ++ ex1 ++ ex2).
    split; [by rewrite <- !app_assoc|]. split.
    + rewrite !sleeps_app. simpl. lia.
    + intros Hic. destruct (Hc2 Hic) as [-> Hconn]. destruct (Hc1 eq_refl). done.
  - eexists None, ([Log "debug" "open_internal_console"] ++ ex1 ++ [_]).
    cbn [brick trace]. split; [by rewrite <- !app_assoc|]. split.
    + rewrite !sleeps_app. simpl. lia.
    + intros [? ?]; discriminate.
Qed.

End Console.

(** ** Quoting and the argument vector *)

Section Escape.
Import Bricks.

(** [escape] works character by character: the escape of a concatenation
    is the concatenation of the escapes, and a string without a double
    quote is returned as it is. *)
Theorem escape_homomorphic (a b : string) :
  escape (a +:+ b) = escape a +:+ escape b /\
  (contains (String dquote "") a = false -> escape a = a).
Proof.
  split.
  - apply re_sub_char_app.
  - apply re_sub_char_absent.
Qed.

End Escape.

Section Args.
Import Bricks.

Lemma entry_tokens_length (sw : string) (v : option string) :
  (length (Statements.entry_tokens sw v) <= 2)%nat.
Proof.
  unfold Statements.entry_tokens.
  destruct (startswith sw "#"); [simpl; lia|].
  destruct v as [[|a v]|]; [simpl; lia| |simpl; lia].
  destruct (bool_decide _); [simpl; lia|].
  destruct (startswith sw "*"); simpl; lia.
Qed.

Lemma entry_tokens_origin (sw : string) (v : option string) (t : string) :
  t ∈ Statements.entry_tokens sw v -> t = sw \/ v = Some t.
Proof.
  unfold Statements.entry_tokens.
  destruct (startswith sw "#"); [by intros ?%not_elem_of_nil|].
  destruct v as [[|a v]|]; [by intros ?%not_elem_of_nil| |by intros ?%not_elem_of_nil].
  destruct (bool_decide _).
  - intros H%list_elem_of_singleton. by left.
  - destruct (startswith sw "*").
    + intros H%list_elem_of_singleton. subst. by right.
    + intros [H|H%list_elem_of_singleton]%elem_of_cons; subst; [by left|by right].
Qed.

(** [build_cmd_line] returns at most two tokens for each entry of
    [command_builder]; every token is the switch or the value of an entry
    whose switch does not start with [#]; and when every switch starts
    with [#] the result is empty. *)
Theorem build_cmd_line_bounds (b : Brick) :
  (length (build_cmd_line b) <= 2 * length (command_builder b))%nat /\
  (forall t, t ∈ build_cmd_line b ->
     exists sw v, (sw, v) ∈ command_builder b /\
                  startswith sw "#" = false /\
                  (t = sw \/ resolve b v = Some t)) /\
  ((forall sw v, (sw, v) ∈ command_builder b -> startswith sw "#" = true) ->
   build_cmd_line b = []).
Proof.
  unfold build_cmd_line. rewrite build_cmd_line_loop_tokens. simpl.
  induction (command_builder b) as [|[sw v] items IH]; simpl.
  - split; [lia|]. split; [by intros t ?%not_elem_of_nil|done].
  - destruct IH as (IH1 & IH2 & IH3). split; [|split].
    + rewrite length_app. pose proof (entry_tokens_length sw (resolve b v)). lia.
    + intros t [Hin|Hin]%elem_of_app.
      * exists sw, v. split; [apply list_elem_of_here|]. split.
        -- unfold Statements.entry_tokens in Hin.
           destruct (startswith sw "#"); [by apply not_elem_of_nil in Hin|done].
        -- by apply entry_tokens_origin.
      * destruct (IH2 t Hin) as (sw' & v' & Hin' & Hrest).
        exists sw', v'. split; [by apply list_elem_of_further|done].
    + intros Hall. rewrite IH3.
      * unfold Statements.entry_tokens. rewrite (Hall sw v); [done|apply list_elem_of_here].
      * intros sw' v' Hin. apply (Hall sw' v'). by apply list_elem_of_further.
Qed.

End Args.

(** ** The plugs of a brick *)

Section Connected.
Import Bricks.

(** [properly_connected] holds exactly when every plug of the brick is
    configured, and [check_links] exactly when every plug is connected;
    a brick without plugs passes both. *)
Theorem connected_checks_all_plugs (env : Env) (b : Brick) :
  (properly_connected env b = true <->
   forall p, p ∈ plugs b -> plug_configured env p = true) /\
  (check_links env b = true <->
   forall p, p ∈ plugs b -> plug_connected env p = true).
Proof.
  unfold properly_connected, check_links.
  induction (plugs b) as [|p ps [IH1 IH2]]; simpl.
  - split; split; try done; by intros _ p ?%not_elem_of_nil.
  - split.
    + destruct (plug_configured env p) eqn:Hp; simpl.
      * rewrite IH1. split.
        -- intros H q [->|Hq]%elem_of_cons; auto.
        -- intros H q Hq. apply H. by apply list_elem_of_further.
      * split; [done|]. intros H. rewrite H in Hp; [done|apply list_elem_of_here].
    + destruct (plug_connected env p) eqn:Hp; simpl.
      * rewrite IH2. split.
        -- intros H q [->|Hq]%elem_of_cons; auto.
        -- intros H q Hq. apply H. by apply list_elem_of_further.
      * split; [done|]. intros H. rewrite H in Hp; [done|apply list_elem_of_here].
Qed.

End Connected.

(** ** Socket paths and home hosts *)

Section SockServer.
Import Bricks Configfile.

(** [rewrite_sock_server] keeps the last component of the path and puts
    it under [MYPATH]: the component has no slash, and rewriting a
    rewritten path changes nothing. *)
Theorem rewrite_sock_server_idempotent (env : Env) (v : string) :
  More.rewrite_sock_server env (More.rewrite_sock_server env v) =
  More.rewrite_sock_server env v /\
  More.basename (More.rewrite_sock_server env v) = More.basename v /\
  contains "/" (More.basename v) = false.
Proof.
  assert (H : More.basename (More.rewrite_sock_server env v) = More.basename v).
  { unfold More.rewrite_sock_server. apply basename_join, basename_no_slash. }
  split; [|split; [exact H|apply basename_no_slash]].
  unfold More.rewrite_sock_server at 1. by rewrite H.
Qed.

End SockServer.

Section Hosts.
Import Bricks Configfile.
Variable new_host : string -> RemoteHost.
Hypothesis new_host_addr : forall a, (host_addr (new_host a)).1 = a.

Lemma find_host_spec (host : string) (hosts : list RemoteHost) :
  match find (λ existing, String.eqb (host_addr existing).1 host) hosts with
  | Some h => h ∈ hosts /\ (host_addr h).1 = host
  | None => host ∉ More.addresses hosts
  end.
Proof.
  induction hosts as [|h hosts IH]; simpl.
  - apply not_elem_of_nil.
  - destruct (String.eqb_spec (host_addr h).1 host) as [Heq|Hne].
    + split; [apply list_elem_of_here|done].
    + destruct (find _ hosts) as [h'|].
      * destruct IH. split; [by apply list_elem_of_further|done].
      * intros [Heq|Hin]%elem_of_cons; [by symmetry in Heq|done].
Qed.

(** [set_host] keeps the addresses of the factory's remote hosts free of
    duplicates, when the constructor gives a new host the address asked
    for: a host is appended only when no registered one has the address.
    For a non-empty address the brick's home host has that address and is
    registered; for the empty one the brick has no home host and the
    registry is untouched; setting the same host again registers
    nothing. *)
Theorem set_host_keeps_addresses_unique (host : string) (b : Brick)
    (reg : More.HostRegistry) :
  NoDup (More.addresses (More.reg_hosts reg)) ->
  NoDup (More.addresses (More.reg_hosts (More.set_host new_host host b reg).2)) /\
  (host <> "" ->
   exists h, homehost (More.set_host new_host host b reg).1 = Some h /\
             (host_addr h).1 = host /\
             h ∈ More.reg_hosts (More.set_host new_host host b reg).2) /\
  (host = "" ->
   homehost (More.set_host new_host host b reg).1 = None /\
   (More.set_host new_host host b reg).2 = reg) /\
  More.reg_hosts
    (More.set_host new_host host (More.set_host new_host host b reg).1
       (More.set_host new_host host b reg).2).2 =
  More.reg_hosts (More.set_host new_host host b reg).2.
Proof.
  intros Hnd. unfold More.set_host.
  destruct host as [|c host]; simpl.
  { repeat split; try done. }
  pose proof (find_host_spec (String c host) (More.reg_hosts reg)) as Hfind.
  destruct (find _ (More.reg_hosts reg)) as [h|] eqn:Hf; simpl.
  - destruct Hfind as [Hin Haddr]. rewrite Hf. simpl.
    repeat split; try done. intros _. by exists h.
  - assert (Hf' : find (λ existing, String.eqb (host_addr existing).1 (String c host))
                    (More.reg_hosts reg ++ [new_host (String c host)]) =
                  Some (new_host (String c host))).
    { clear Hfind Hnd. induction (More.reg_hosts reg) as [|h hs IH]; simpl.
      - by rewrite new_host_addr, String.eqb_refl.
      - simpl in Hf. destruct (String.eqb (host_addr h).1 (String c host)); [done|].
        by apply IH. }
    rewrite Hf'. simpl. repeat split; try done.
    + unfold More.addresses. rewrite map_app. simpl. rewrite new_host_addr.
      apply NoDup_app. split; [done|]. split.
      * intros x Hx ->%list_elem_of_singleton. done.
      * apply NoDup_singleton.
    + intros _. eexists. split; [done|]. split; [apply new_host_addr|].
      apply elem_of_app. right. apply list_elem_of_here.
Qed.

End Hosts.

Lemma set_host_keeps_addresses_unique_witness :
  NoDup (More.addresses
           (More.reg_hosts
              (More.set_host More.default_host "10.0.0.9" Examples.sw1
                 (More.mkHostRegistry [More.remote1] false)).2)) /\
  exists h,
    Bricks.homehost
      (More.set_host More.default_host "10.0.0.9" Examples.sw1
         (More.mkHostRegistry [More.remote1] false)).1 = Some h /\
    (Bricks.host_addr h).1 = "10.0.0.9" /\
    h ∈ More.reg_hosts
          (More.set_host More.default_host "10.0.0.9" Examples.sw1
             (More.mkHostRegistry [More.remote1] false)).2.
Proof.
  destruct (set_host_keeps_addresses_unique More.default_host
              (fun a => eq_refl) "10.0.0.9" Examples.sw1
              (More.mkHostRegistry [More.remote1] false))
    as (Hnd & Hhome & _).
  - apply NoDup_singleton.
  - split; [exact Hnd|]. apply Hhome. discriminate.
Defined.

(** ** Saving a project and reading it back *)

Section SaveFacts.
Import Bricks Configfile.
Variable c : Collab.
Variable flt : Faults.

Lemma append_tilde_ne (s : string) : s +:+ "~" <> s.
Proof. by apply append_ne_self. Qed.

Lemma write_file_run p content d :
  write_file flt p content d =
  if open_fault flt p then (Raise IOError, d)
  else (Ok tt, mkDisk (<[p := content]> (files d)) (disk_log d)).
Proof. unfold write_file. by destruct (open_fault flt p). Qed.

Lemma save_unfold (fa : Factory) (filename : string) :
  save c flt fa filename =
  (log_disk "debug" ("CONFIG DUMP on " +:+ filename);;
   existed ← isfile filename;
   created ← (if (existed : bool) then
                copyfile flt filename (filename +:+ "~");; mret true
              else mret false);
   write_file flt (More.tmpfile_of filename) (save_to c fa).2;;
   lift (save_to c fa).1;;
   os_rename flt (More.tmpfile_of filename) filename;;
   if (created : bool) then os_remove flt (filename +:+ "~") else mret tt).
Proof.
  unfold save, ConfigFile_save, More.tmpfile_of.
  destruct (path_split filename) as [h t]. by destruct (save_to c fa).
Qed.

Ltac disk_step :=
  first [ rewrite bind_run | rewrite os_rename_run | rewrite copyfile_run
        | rewrite os_remove_run | rewrite write_file_run ];
  cbv beta iota.

Ltac disk_run :=
  repeat (first [ disk_step
                | progress (unfold log_disk, isfile, lift, mret, SE_ret, ret)
                | progress (cbn [files disk_log fst snd]) ]).

Lemma save_outcome (fa : Factory) (filename : string) (d d' : Disk)
    (r : result unit) :
  save c flt fa filename d = (r, d') ->
  files d' !! filename = files d !! filename \/
  ((save_to c fa).1 = Ok tt /\ files d' !! filename = Some (save_to c fa).2).
Proof.
  rewrite save_unfold.
  pose proof (tmpfile_ne_filename filename) as Htf.
  pose proof (tmpfile_ne_backup filename) as Htb.
  pose proof (append_tilde_ne filename) as Hbf.
  set (tmp := More.tmpfile_of filename) in *.
  set (bak := filename +:+ "~") in *.
  destruct (save_to c fa) as [rs text]. cbn [fst snd].
  disk_run.
  destruct (files d !! filename) as [old|] eqn:Hold.
  - rewrite bool_decide_eq_true_2 by (by eexists). disk_run. rewrite Hold.
    destruct (copy_fault flt filename bak); disk_run.
    { intros [= <- <-]. left. done. }
    destruct (open_fault flt tmp); disk_run.
    { intros [= <- <-]. left. cbn. by rewrite lookup_insert_ne. }
    destruct rs as [[]|e]; disk_run.
    2:{ intros [= <- <-]. left. cbn.
        rewrite lookup_insert_ne by done. by rewrite lookup_insert_ne. }
    rewrite lookup_insert_eq.
    destruct (rename_fault flt tmp filename); disk_run.
    { intros [= <- <-]. left. cbn.
      rewrite lookup_insert_ne by done. by rewrite lookup_insert_ne. }
    rewrite lookup_insert_ne by done. rewrite lookup_delete_ne by done.
    rewrite lookup_insert_ne by done. rewrite lookup_insert_eq.
    destruct (remove_fault flt bak); disk_run; intros [= <- <-]; right; cbn.
    + split; [done|]. by rewrite lookup_insert_eq.
    + split; [done|]. rewrite lookup_delete_ne by done. by rewrite lookup_insert_eq.
  - rewrite bool_decide_eq_false_2 by (by intros [? ?]). disk_run.
    destruct (open_fault flt tmp); disk_run.
    { intros [= <- <-]. left. done. }
    destruct rs as [[]|e]; disk_run.
    2:{ intros [= <- <-]. left. cbn. by rewrite lookup_insert_ne. }
    rewrite lookup_insert_eq.
    destruct (rename_fault flt tmp filename); disk_run.
    { intros [= <- <-]. left. cbn. by rewrite lookup_insert_ne. }
    intros [= <- <-]. right. cbn. split; [done|]. by rewrite lookup_insert_eq.
Qed.

(** [save] replaces the project file in one step or not at all: however
    the call ends, the file either holds what it held before or, when
    [save_to] returned, the complete text that [save_to] wrote. *)
Theorem save_is_atomic (fa : Factory) (filename : string) (d d' : Disk)
    (r : result unit) :
  save c flt fa filename d = (r, d') ->
  files d' !! filename = files d !! filename \/
  ((save_to c fa).1 = Ok tt /\ files d' !! filename = Some (save_to c fa).2).
Proof. apply save_outcome. Qed.

(** [safe_save] never raises: whatever [save] raises is logged, and the
    project file is left as it was or holds the complete new text. *)
Theorem safe_save_never_raises (fa : Factory) (filename : string) (d : Disk) :
  exists d',
    More.safe_save c flt fa filename d = (Ok tt, d') /\
    (files d' !! filename = files d !! filename \/
     ((save_to c fa).1 = Ok tt /\
      files d' !! filename = Some (save_to c fa).2)) /\
    (forall e, (save c flt fa filename d).1 = Raise e ->
       disk_log d' =
       disk_log (save c flt fa filename d).2 ++
       [("exception", "Error while saving configuration file")]).
Proof.
  unfold More.safe_save. rewrite try_except_run.
  destruct (save c flt fa filename d) as [[[]|e] d1] eqn:Hsave.
  - exists d1. split; [done|]. split; [by eapply save_outcome|].
    intros e He. discriminate.
  - eexists. split; [reflexivity|]. cbn [files disk_log fst snd].
    split; [by eapply save_outcome|]. done.
Qed.

(** When [save_to] raises while the project is written, [save] raises
    the same exception and cleans nothing up: the project file still
    holds the old text, the backup with suffix [~] made before the write
    stays behind with the same text, and so does the temporary file with
    what was written until the exception. *)
Theorem save_failure_keeps_backup (fa : Factory) (filename old : string)
    (d : Disk) (e : exn) :
  files d !! filename = Some old ->
  copy_fault flt filename (filename +:+ "~") = false ->
  open_fault flt (More.tmpfile_of filename) = false ->
  (save_to c fa).1 = Raise e ->
  exists d',
    save c flt fa filename d = (Raise e, d') /\
    files d' !! filename = Some old /\
    files d' !! (filename +:+ "~") = Some old /\
    files d' !! More.tmpfile_of filename = Some (save_to c fa).2.
Proof.
  intros Hold Hcopy Hopen Hraise. rewrite save_unfold.
  pose proof (tmpfile_ne_filename filename) as Htf.
  pose proof (tmpfile_ne_backup filename) as Htb.
  pose proof (append_tilde_ne filename) as Hbf.
  set (tmp := More.tmpfile_of filename) in *.
  set (bak := filename +:+ "~") in *.
  destruct (save_to c fa) as [rs text]. cbn [fst snd] in *. subst rs.
  disk_run. rewrite bool_decide_eq_true_2 by (by eexists).
  disk_run. rewrite Hold, Hcopy. disk_run. rewrite Hopen. disk_run.
  eexists. split; [reflexivity|]. cbn [files].
  split; [|split].
  - rewrite lookup_insert_ne by done. by rewrite lookup_insert_ne.
  - rewrite lookup_insert_ne by done. by rewrite lookup_insert_eq.
  - by rewrite lookup_insert_eq.
Qed.

Lemma save_succeeds (fa : Factory) (filename : string) (d : Disk) :
  (save_to c fa).1 = Ok tt ->
  More.save_unhindered flt filename ->
  exists d',
    save c flt fa filename d = (Ok tt, d') /\
    files d' !! filename = Some (save_to c fa).2 /\
    files d' !! More.tmpfile_of filename = None /\
    (is_Some (files d !! filename) -> files d' !! (filename +:+ "~") = None) /\
    (files d !! filename = None ->
     files d' !! (filename +:+ "~") = files d !! (filename +:+ "~")) /\
    (forall p, p <> filename -> p <> More.tmpfile_of filename ->
               p <> filename +:+ "~" -> files d' !! p = files d !! p).
Proof.
  intros Hok (Hcopy & Hopen & Hren & Hrem). rewrite save_unfold.
  pose proof (tmpfile_ne_filename filename) as Htf.
  pose proof (tmpfile_ne_backup filename) as Htb.
  pose proof (append_tilde_ne filename) as Hbf.
  set (tmp := More.tmpfile_of filename) in *.
  set (bak := filename +:+ "~") in *.
  destruct (save_to c fa) as [rs text]. cbn [fst snd] in *. subst rs.
  disk_run.
  destruct (files d !! filename) as [old|] eqn:Hold.
  - rewrite bool_decide_eq_true_2 by (by eexists). disk_run. rewrite Hold, Hcopy.
    disk_run. rewrite Hopen. disk_run. rewrite lookup_insert_eq, Hren. disk_run.
    rewrite lookup_insert_ne by done. rewrite lookup_delete_ne by done.
    rewrite lookup_insert_ne by done. rewrite lookup_insert_eq, Hrem.
    eexists. split; [reflexivity|]. cbn [files].
    split; [|split; [|split; [|split]]].
    + rewrite lookup_delete_ne by done. by rewrite lookup_insert_eq.
    + rewrite lookup_delete_ne by done. rewrite lookup_insert_ne by done.
      by rewrite lookup_delete_eq.
    + intros _. by rewrite lookup_delete_eq.
    + done.
    + intros p H1 H2 H3. rewrite lookup_delete_ne by done.
      rewrite lookup_insert_ne by done. rewrite lookup_delete_ne by done.
      rewrite lookup_insert_ne by done. by rewrite lookup_insert_ne.
  - rewrite bool_decide_eq_false_2 by (by intros [? ?]). disk_run.
    rewrite Hopen. disk_run. rewrite lookup_insert_eq, Hren. disk_run.
    eexists. split; [reflexivity|]. cbn [files].
    split; [|split; [|split; [|split]]].
    + by rewrite lookup_insert_eq.
    + rewrite lookup_insert_ne by done. by rewrite lookup_delete_eq.
    + by intros [? ?].
    + intros _. rewrite lookup_insert_ne by done.
      rewrite lookup_delete_ne by done. by rewrite lookup_insert_ne.
    + intros p H1 H2 H3. rewrite lookup_insert_ne by done.
      rewrite lookup_delete_ne by done. by rewrite lookup_insert_ne.
Qed.

Lemma restore_backup_absent (filename : string) (d : Disk) :
  files d !! (filename +:+ "~") = None ->
  restore_backup flt filename (filename +:+ "~") d = (Ok tt, d).
Proof.
  intros Hb. unfold restore_backup. cbv zeta. rewrite bind_run.
  unfold isfile. rewrite Hb.
  by rewrite bool_decide_eq_false_2 by (by intros [? ?]).
Qed.

Lemma restore_without_backup (fuel : nat) (fa : Factory) (filename : string)
    (d : Disk) :
  files d !! (filename +:+ "~") = None ->
  restore c flt fuel fa filename d =
  let d' := mkDisk (files d)
              (disk_log d ++ [("info", "Open " +:+ filename +:+ " project")]) in
  match files d !! filename with
  | Some content =>
      if open_fault flt filename
      then (Raise IOError, mkLoader (factory_reset c fa) [] [], d')
      else (restore_from c fuel
              (mkLoader (factory_reset c fa) (readlines content) []), d')
  | None => (Raise IOError, mkLoader (factory_reset c fa) [] [], d')
  end.
Proof.
  intros Hb. unfold restore, ConfigFile_restore.
  rewrite bind_run, (restore_backup_absent filename d Hb). cbv beta iota.
  rewrite bind_run. unfold log_disk at 1. cbv beta iota.
  rewrite read_file_run. cbn [files]. cbv zeta.
  destruct (files d !! filename) as [content|]; [|done].
  destruct (open_fault flt filename); [done|].
  by destruct (restore_from c fuel _).
Qed.

(** A [save] that nothing hinders, over an existing project file or
    where no backup lies around, followed by [restore]: the save leaves
    the project file with the text of [save_to] and neither temporary
    file nor backup; the restore parses exactly the lines of that text,
    starting from the factory after [reset], and changes no file. *)
Theorem save_then_restore (fuel : nat) (fa fa' : Factory) (filename : string)
    (d : Disk) :
  (save_to c fa).1 = Ok tt ->
  More.save_unhindered flt filename ->
  open_fault flt filename = false ->
  is_Some (files d !! filename) \/ files d !! (filename +:+ "~") = None ->
  exists d1 d2,
    save c flt fa filename d = (Ok tt, d1) /\
    files d1 !! filename = Some (save_to c fa).2 /\
    files d1 !! More.tmpfile_of filename = None /\
    files d1 !! (filename +:+ "~") = None /\
    restore c flt fuel fa' filename d1 =
      (restore_from c fuel
         (mkLoader (factory_reset c fa') (readlines (save_to c fa).2) []), d2) /\
    files d2 = files d1.
Proof.
  intros Hok Hsave Hopen Hbak.
  destruct (save_succeeds fa filename d Hok Hsave)
    as (d1 & Hs & Hf & Ht & Hb1 & Hb2 & _).
  assert (Hb : files d1 !! (filename +:+ "~") = None).
  { destruct (files d !! filename) as [old|] eqn:Hold.
    - apply Hb1. by eexists.
    - rewrite Hb2 by done. destruct Hbak as [[? ?]|Hbak]; done. }
  eexists d1, _. split; [done|]. split; [done|]. split; [done|]. split; [done|].
  rewrite (restore_without_backup fuel fa' filename d1 Hb). cbv zeta.
  rewrite Hf, Hopen. split; reflexivity.
Qed.

(** A first [save] next to a stale backup: when there is no project file
    but a file with suffix [~] exists, [save] makes no backup of its own
    and leaves the stale one; the [restore] that follows moves the stale
    file over the project just saved and parses the stale text. *)
Theorem save_beside_stale_backup (fuel : nat) (fa fa' : Factory)
    (filename stale : string) (d : Disk) :
  (save_to c fa).1 = Ok tt ->
  More.save_unhindered flt filename ->
  Statements.backup_can_move flt filename ->
  open_fault flt filename = false ->
  files d !! filename = None ->
  files d !! (filename +:+ "~") = Some stale ->
  exists d1 d2,
    save c flt fa filename d = (Ok tt, d1) /\
    files d1 !! filename = Some (save_to c fa).2 /\
    restore c flt fuel fa' filename d1 =
      (restore_from c fuel
         (mkLoader (factory_reset c fa') (readlines stale) []), d2) /\
    files d2 !! filename = Some stale.
Proof.
  intros Hok Hsave Hmove Hopen Hnone Hstale.
  destruct (save_succeeds fa filename d Hok Hsave)
    as (d1 & Hs & Hf & Ht & Hb1 & Hb2 & _).
  assert (Hb : files d1 !! (filename +:+ "~") = Some stale).
  { by rewrite Hb2. }
  destruct (restore_backup_moves flt filename d1 stale Hb Hmove)
    as (d2 & H2 & Hf2 & _).
  exists d1, (mkDisk (files d2)
                (disk_log d2 ++ [("info", "Open " +:+ filename +:+ " project")])).
  split; [done|]. split; [done|]. split; [|done].
  unfold restore, ConfigFile_restore.
  rewrite bind_run, H2. cbv beta iota.
  rewrite bind_run. unfold log_disk at 1. cbv beta iota.
  rewrite read_file_run. cbn [files]. rewrite Hf2, Hopen.
  by destruct (restore_from c fuel _).
Qed.

(** [restore] where no backup exists touches no file; when the project
    file is missing too it raises [IOError], after the factory was
    reset. *)
Theorem restore_without_backup_reads_only (fuel : nat) (fa : Factory)
    (filename : string) (d : Disk) :
  files d !! (filename +:+ "~") = None ->
  exists r st d',
    restore c flt fuel fa filename d = (r, st, d') /\
    files d' = files d /\
    (files d !! filename = None ->
     r = Raise IOError /\ factory st = factory_reset c fa).
Proof.
  intros Hb. rewrite (restore_without_backup fuel fa filename d Hb). cbv zeta.
  destruct (files d !! filename) as [content|].
  - destruct (open_fault flt filename).
    + eexists _, _, _. split; [reflexivity|]. split; [done|done].
    + destruct (restore_from c fuel _) as [r st].
      eexists _, _, _. split; [reflexivity|]. split; [done|done].
  - eexists _, _, _. split; [reflexivity|]. by split.
Qed.

End SaveFacts.

Section SaveExamples.
Import Bricks Configfile.

Lemma save_is_atomic_witness :
  files (save Examples.plain_collab Examples.no_faults Examples.factory_vm1
           "proj.vbl" More.disk_project).2 !! "proj.vbl" =
  files More.disk_project !! "proj.vbl" \/
  ((save_to Examples.plain_collab Examples.factory_vm1).1 = Ok tt /\
   files (save Examples.plain_collab Examples.no_faults Examples.factory_vm1
            "proj.vbl" More.disk_project).2 !! "proj.vbl" =
   Some (save_to Examples.plain_collab Examples.factory_vm1).2).
Proof.
  apply (save_is_atomic Examples.plain_collab Examples.no_faults
           Examples.factory_vm1 "proj.vbl" More.disk_project _
           (save Examples.plain_collab Examples.no_faults Examples.factory_vm1
              "proj.vbl" More.disk_project).1).
  apply surjective_pairing.
Defined.

Lemma save_then_restore_witness :
  exists d1 d2,
    save Examples.plain_collab Examples.no_faults Examples.factory_vm1
      "proj.vbl" More.disk_project = (Ok tt, d1) /\
    files d1 !! "proj.vbl" =
      Some (save_to Examples.plain_collab Examples.factory_vm1).2 /\
    files d1 !! More.tmpfile_of "proj.vbl" = None /\
    files d1 !! ("proj.vbl" +:+ "~") = None /\
    restore Examples.plain_collab Examples.no_faults 5 Examples.factory_hostonly
      "proj.vbl" d1 =
      (restore_from Examples.plain_collab 5
         (mkLoader
            (factory_reset Examples.plain_collab Examples.factory_hostonly)
            (readlines (save_to Examples.plain_collab Examples.factory_vm1).2)
            []), d2) /\
    files d2 = files d1.
Proof.
  apply (save_then_restore Examples.plain_collab Examples.no_faults 5
           Examples.factory_vm1 Examples.factory_hostonly "proj.vbl"
           More.disk_project).
  - vm_compute. reflexivity.
  - repeat apply conj; reflexivity.
  - reflexivity.
  - left. eexists. vm_compute. reflexivity.
Defined.

Lemma save_beside_stale_backup_witness :
  exists d1 d2,
    save Examples.plain_collab Examples.no_faults Examples.factory_vm1
      "proj.vbl" More.disk_stale = (Ok tt, d1) /\
    files d1 !! "proj.vbl" =
      Some (save_to Examples.plain_collab Examples.factory_vm1).2 /\
    restore Examples.plain_collab Examples.no_faults 5 Examples.factory_vm1
      "proj.vbl" d1 =
      (restore_from Examples.plain_collab 5
         (mkLoader (factory_reset Examples.plain_collab Examples.factory_vm1)
            (readlines ("[Switch:stale]" +:+ nl +:+ nl)) []), d2) /\
    files d2 !! "proj.vbl" = Some ("[Switch:stale]" +:+ nl +:+ nl).
Proof.
  apply (save_beside_stale_backup Examples.plain_collab Examples.no_faults 5
           Examples.factory_vm1 Examples.factory_vm1 "proj.vbl"
           ("[Switch:stale]" +:+ nl +:+ nl) More.disk_stale).
  - vm_compute. reflexivity.
  - repeat apply conj; reflexivity.
  - left. reflexivity.
  - reflexivity.
  - vm_compute. reflexivity.
  - vm_compute. reflexivity.
Defined.

Lemma restore_without_backup_reads_only_witness :
  exists r st d',
    restore Examples.plain_collab Examples.no_faults 5 Examples.factory_vm1
      "proj.vbl" More.disk_empty = (r, st, d') /\
    files d' = files More.disk_empty /\
    (files More.disk_empty !! "proj.vbl" = None ->
     r = Raise IOError /\
     factory st = factory_reset Examples.plain_collab Examples.factory_vm1).
Proof.
  apply (restore_without_backup_reads_only Examples.plain_collab
           Examples.no_faults 5 Examples.factory_vm1 "proj.vbl"
           More.disk_empty).
  vm_compute. reflexivity.
Defined.

Lemma save_failure_keeps_backup_witness :
  exists d',
    save Examples.plain_collab Examples.no_faults Examples.factory_hostonly
      "proj.vbl" More.disk_project = (Raise (KeyError "pl"), d') /\
    files d' !! "proj.vbl" = Some ("[Switch:old]" +:+ nl +:+ nl) /\
    files d' !! ("proj.vbl" +:+ "~") = Some ("[Switch:old]" +:+ nl +:+ nl) /\
    files d' !! More.tmpfile_of "proj.vbl" =
      Some (save_to Examples.plain_collab Examples.factory_hostonly).2.
Proof.
  apply (save_failure_keeps_backup Examples.plain_collab Examples.no_faults
           Examples.factory_hostonly "proj.vbl"
           ("[Switch:old]" +:+ nl +:+ nl) More.disk_project (KeyError "pl")).
  - vm_compute. reflexivity.
  - reflexivity.
  - reflexivity.
  - vm_compute. reflexivity.
Defined.

End SaveExamples.

(** ** Lines, fields and characters *)

Section LineFacts.
Import Bricks Configfile More.

Lemma has_char_app (c : ascii) (a b : string) :
  has_char c (a +:+ b) = has_char c a || has_char c b.
Proof.
  induction a as [|x a IH]; [done|].
  change (String x a +:+ b) with (String x (a +:+ b)). simpl.
  by rewrite IH, orb_assoc.
Qed.

Lemma re_sub_char_id (c : ascii) (by_ s : string) :
  has_char c s = false -> re_sub_char c by_ s = s.
Proof.
  induction s as [|x s IH]; [done|]. simpl.
  intros [Hx Hs]%orb_false_iff. rewrite Hx. by rewrite IH.
Qed.

Lemma has_char_re_sub (c d : ascii) (s : string) :
  has_char c s = false -> has_char c (re_sub_char d "" s) = false.
Proof.
  induction s as [|x s IH]; [done|]. simpl.
  intros [Hx Hs]%orb_false_iff. destruct (Ascii.eqb x d); simpl.
  - by apply IH.
  - by rewrite Hx, IH.
Qed.

Lemma split_id (sep : ascii) (s : string) :
  has_char sep s = false -> split sep s = [s].
Proof.
  induction s as [|x s IH]; [done|]. simpl.
  intros [Hx Hs]%orb_false_iff. rewrite Hx. by rewrite IH.
Qed.

Lemma split_sep (sep : ascii) (a b : string) :
  has_char sep a = false ->
  split sep (a +:+ String sep b) = a :: split sep b.
Proof.
  induction a as [|x a IH].
  - intros _. change ("" +:+ String sep b) with (String sep b). simpl.
    by rewrite Ascii.eqb_refl.
  - change (String x a +:+ String sep b) with (String x (a +:+ String sep b)).
    simpl. intros [Hx Hs]%orb_false_iff. rewrite Hx. by rewrite IH.
Qed.

Lemma split_cons (sep : ascii) (s : string) :
  exists w ws, split sep s = w :: ws.
Proof.
  induction s as [|x s (w & ws & IH)]; [by eexists _, _|].
  cbn [split]. rewrite IH. destruct (Ascii.eqb x sep); by eexists _, _.
Qed.

Lemma rstrip_newline (s : string) :
  has_char newline s = false -> rstrip [newline] (s +:+ nl) = s.
Proof.
  induction s as [|x s IH]; [done|].
  change (String x s +:+ nl) with (String x (s +:+ nl)). simpl.
  intros [Hx Hs]%orb_false_iff. rewrite IH by done.
  destruct s; [|done]. by rewrite Hx.
Qed.

Lemma rstrip_clean (s : string) :
  has_char newline s = false -> rstrip [newline] s = s.
Proof.
  induction s as [|x s IH]; [done|]. simpl.
  intros [Hx Hs]%orb_false_iff. rewrite IH by done.
  destruct s; [|done]. by rewrite Hx.
Qed.

Lemma rstrip_bracket (a : string) :
  has_char "]" a = false ->
  has_char newline a = false ->
  rstrip ["]"%char; newline] (a +:+ "]" +:+ nl) = a.
Proof.
  induction a as [|x a IH]; [done|].
  change (String x a +:+ "]" +:+ nl) with (String x (a +:+ "]" +:+ nl)).
  cbn [has_char rstrip].
  intros [Hx1 Ha1]%orb_false_iff [Hx2 Ha2]%orb_false_iff.
  rewrite IH by done. destruct a; [|done].
  cbn [existsb]. by rewrite Hx1, Hx2.
Qed.

Lemma rstrip_fixed_nonempty (cs : list ascii) (x : ascii) (a : string) :
  rstrip cs (String x a) = String x a -> rstrip cs a = a.
Proof.
  cbn [rstrip]. destruct (rstrip cs a) as [|y r] eqn:Hr.
  - destruct (existsb (Ascii.eqb x) cs); [done|]. by intros [= <-].
  - by intros [= <-].
Qed.

Lemma rstrip_app_fixed (cs : list ascii) (a b : string) :
  rstrip cs a = a -> rstrip cs b = b -> rstrip cs (a +:+ b) = a +:+ b.
Proof.
  induction a as [|x a IH]; [done|]. intros Ha Hb.
  change (String x a +:+ b) with (String x (a +:+ b)).
  cbn [rstrip]. rewrite IH by (done || by eapply rstrip_fixed_nonempty).
  destruct (a +:+ b) as [|y s] eqn:Hab; [|done].
  destruct a; [|done]. cbn [rstrip] in Ha. exact Ha.
Qed.

Lemma first_line_clean (s : string) :
  has_char newline s = false -> first_line s = s.
Proof.
  induction s as [|x s IH]; [done|]. simpl.
  intros [Hx Hs]%orb_false_iff. rewrite Hx. by rewrite IH.
Qed.

Lemma first_line_line (a : string) :
  has_char newline a = false -> first_line (a +:+ nl) = a.
Proof.
  induction a as [|x a IH]; [done|].
  change (String x a +:+ nl) with (String x (a +:+ nl)). simpl.
  intros [Hx Hs]%orb_false_iff. rewrite Hx. by rewrite IH.
Qed.

Lemma prefix_empty (s : string) : String.prefix "" s = true.
Proof. by destruct s. Qed.

Lemma prefix_app (p s : string) : String.prefix p (p +:+ s) = true.
Proof.
  induction p as [|x p IH]; [apply prefix_empty|].
  change (String x p +:+ s) with (String x (p +:+ s)).
  change (String.prefix (String x p) (String x (p +:+ s))) with
    (if ascii_dec x x then String.prefix p (p +:+ s) else false).
  by destruct (ascii_dec x x).
Qed.

Lemma contains_unfold (p s : string) :
  contains p s =
  String.prefix p s || match s with "" => false | String _ r => contains p r end.
Proof. by destruct s. Qed.

Lemma contains_app (p a s : string) : contains p (a +:+ p +:+ s) = true.
Proof.
  induction a as [|x a IH].
  - change ("" +:+ p +:+ s) with (p +:+ s).
    by rewrite contains_unfold, prefix_app.
  - change (String x a +:+ p +:+ s) with (String x (a +:+ p +:+ s)).
    rewrite contains_unfold, IH. apply orb_true_r.
Qed.

Lemma startswith_app (t s : string) (x : ascii) :
  startswith t (String x "") = false ->
  startswith s (String x "") = false ->
  startswith (t +:+ s) (String x "") = false.
Proof.
  destruct t as [|y t]; [done|]. intros Ht _. unfold startswith in *.
  change (String y t +:+ s) with (String y (t +:+ s)).
  change (String.prefix (String x "") (String y (t +:+ s))) with
    (if ascii_dec x y then String.prefix "" (t +:+ s) else false).
  change (String.prefix (String x "") (String y t)) with
    (if ascii_dec x y then String.prefix "" t else false) in Ht.
  destruct (ascii_dec x y); [by destruct t|done].
Qed.

Lemma lstrip_stop (x : ascii) (s : string) :
  startswith s (String x "") = false -> lstrip [x] s = s.
Proof.
  destruct s as [|y s]; [done|]. unfold startswith.
  change (String.prefix (String x "") (String y s)) with
    (if ascii_dec x y then String.prefix "" s else false).
  cbn [lstrip existsb].
  destruct (ascii_dec x y) as [<-|Hne]; [by destruct s|].
  intros _. destruct (Ascii.eqb_spec y x) as [->|_]; done.
Qed.





Lemma header_name_spec (a : string) :
  header_name a = true ->
  has_char " " a = false /\ has_char "|" a = false /\
  has_char ":" a = false /\ has_char "]" a = false /\
  has_char newline a = false.
Proof.
  unfold header_name.
  intros [[[[Hsp Hbar]%andb_true_iff Hcol]%andb_true_iff
           Hbr]%andb_true_iff Hnl]%andb_true_iff.
  by apply negb_true_iff in Hsp, Hbar, Hcol, Hbr, Hnl.
Qed.

Lemma record_field_spec (v : string) :
  record_field v = true ->
  has_char " " v = false /\ has_char "|" v = false /\
  has_char newline v = false.
Proof.
  unfold record_field. intros [[H1 H2]%andb_true_iff H3]%andb_true_iff.
  by apply negb_true_iff in H1, H2, H3.
Qed.


Lemma readlines_from_line (a s : string) :
  has_char newline a = false ->
  forall cur,
    readlines_from (a +:+ nl +:+ s) cur =
    (cur +:+ a +:+ nl) :: readlines_from s "".
Proof.
  intros Ha. induction a as [|x a IH]; intros cur.
  - reflexivity.
  - change (String x a +:+ nl +:+ s) with (String x (a +:+ nl +:+ s)).
    simpl in Ha. apply orb_false_iff in Ha as [Hx Ha].
    cbn [readlines_from]. rewrite Hx, IH by done. f_equal.
    by rewrite append_assoc.
Qed.

Lemma readlines_from_line2 (a b s : string) :
  has_char newline a = false ->
  has_char newline b = false ->
  readlines_from (a +:+ b +:+ nl +:+ s) "" =
  (a +:+ b +:+ nl) :: readlines_from s "".
Proof.
  intros Ha Hb. rewrite <- (append_assoc a b).
  rewrite readlines_from_line by (by rewrite has_char_app, Ha, Hb).
  by rewrite append_assoc.
Qed.

Lemma readlines_from_line3 (a b c s : string) :
  has_char newline a = false ->
  has_char newline b = false ->
  has_char newline c = false ->
  readlines_from (a +:+ b +:+ c +:+ nl +:+ s) "" =
  (a +:+ b +:+ c +:+ nl) :: readlines_from s "".
Proof.
  intros Ha Hb Hc. rewrite <- (append_assoc b c).
  rewrite readlines_from_line2 by (by rewrite ?has_char_app, ?Hb, ?Hc).
  by rewrite append_assoc.
Qed.

End LineFacts.


(** ** Reading a project file *)

Section Loading.
Import Bricks Configfile More.
Variable c : Collab.

Lemma for_each_unchanged {S A} (l : list A) (body : A -> SE S unit) (s : S) :
  (forall x, x ∈ l -> body x s = (Ok tt, s)) ->
  for_each l body s = (Ok tt, s).
Proof.
  induction l as [|x l IH]; intros Hbody; simpl; [done|].
  rewrite bind_run, Hbody by apply list_elem_of_here.
  apply IH. intros y Hy. apply Hbody. by apply list_elem_of_further.
Qed.

Lemma for_bricks_unchanged (body : nat -> Brick -> R unit) (st : Loader) :
  (forall i bb, bricks (factory st) !! i = Some bb -> body i bb st = (Ok tt, st)) ->
  for_bricks body st = (Ok tt, st).
Proof.
  intros Hbody. unfold for_bricks. rewrite bind_run. unfold get_state at 1.
  cbv beta iota. apply for_each_unchanged. intros i _.
  rewrite bind_run. unfold get_state. cbv beta iota.
  destruct (bricks (factory st) !! i) as [bb|] eqn:Hi; [by apply Hbody|done].
Qed.


(** A [sock|] record whose brick name belongs to no virtual machine of
    the factory changes nothing, and a [link|] record that names no
    brick changes nothing either: the record is dropped, and its branch
    logs no warning. *)
Theorem trailer_record_dropped (l : string) (st : Loader) (n : string) :
  split "|" l !! 1%nat = Some n ->
  (forall b, b ∈ bricks (factory st) -> name b = n -> get_type b <> "Qemu") ->
  sock_line c l st = (Ok tt, st) /\
  ((forall b, b ∈ bricks (factory st) -> name b <> n) ->
   link_line c l st = (Ok tt, st)).
Proof.
  intros Hn Htype. split.
  - unfold sock_line. apply for_bricks_unchanged. intros i bb Hi.
    rewrite bind_run. unfold lift, index. rewrite Hn. cbv beta iota.
    destruct (String.eqb_spec (name bb) n) as [Heq|Hne]; [|done].
    destruct (String.eqb_spec (get_type bb) "Qemu") as [Hq|_]; [|done].
    exfalso. eapply Htype; [|exact Heq|exact Hq]. by eapply list_elem_of_lookup_2.
  - intros Hname. unfold link_line. apply for_bricks_unchanged. intros i bb Hi.
    rewrite bind_run. unfold lift, index. rewrite Hn. cbv beta iota.
    destruct (String.eqb_spec (name bb) n) as [Heq|Hne]; [|done].
    exfalso. eapply Hname; [|exact Heq]. by eapply list_elem_of_lookup_2.
Qed.

Lemma restore_loop_plain (fuel : nat) (l : string) (st : Loader) :
  plain_line l = true ->
  restore_loop c (S fuel) l st = (readline ≫= restore_loop c fuel) st.
Proof.
  unfold plain_line. intros [[Hne Hbar]%andb_true_iff Hhead]%andb_true_iff.
  apply negb_true_iff in Hne, Hbar, Hhead.
  pose proof (split_id "|" _ (has_char_re_sub "|" " " l Hbar)) as Hs.
  cbn [restore_loop]. rewrite Hne.
  rewrite bind_run, Hs. cbn [length]. rewrite andb_false_r.
  cbv beta iota delta [mret SE_ret ret].
  rewrite bind_run, Hs. cbn [length]. rewrite andb_false_r.
  cbv beta iota. by rewrite Hhead.
Qed.

Lemma restore_loop_plain_lines (fa : Factory) (lg : list (string * string))
    (ls : list string) :
  forallb plain_line ls = true ->
  forall (fuel : nat) (l : string),
    plain_line l = true ->
    (length ls < fuel)%nat ->
    restore_loop c fuel l (mkLoader fa ls lg) = (Ok Returned, mkLoader fa [] lg).
Proof.
  induction ls as [|x ls IH]; intros Hall fuel l Hl Hfuel;
    (destruct fuel as [|fuel]; [simpl in Hfuel; lia|]);
    rewrite restore_loop_plain by done; rewrite bind_run; unfold readline;
    cbn [fileobj factory loader_log].
  - by destruct fuel.
  - simpl in Hall. apply andb_true_iff in Hall as [Hx Hall].
    apply IH; [done|done|simpl in Hfuel; lia].
Qed.

(** Lines that hold no [|] and do not start with [[] once their spaces
    are removed are read and skipped: a file of such lines, the empty
    file included, leaves the factory and the log as they were, when no
    brick has a connection queued. *)
Theorem unmarked_lines_load_nothing (fuel : nat) (fa : Factory)
    (ls : list string) (lg : list (string * string)) :
  forallb plain_line ls = true ->
  (length ls <= fuel)%nat ->
  (forall b, b ∈ bricks fa -> config_socks b = []) ->
  restore_from c fuel (mkLoader fa ls lg) = (Ok Returned, mkLoader fa [] lg).
Proof.
  intros Hall Hfuel Hsocks.
  assert (Hend : for_bricks
            (λ i b, for_each (config_socks b)
                      (λ s, with_factory (connect_to c i s)))
            (mkLoader fa [] lg) = (Ok tt, mkLoader fa [] lg)).
  { apply for_bricks_unchanged. intros i bb Hi. cbn [factory] in Hi.
    by rewrite (Hsocks bb) by (by eapply list_elem_of_lookup_2). }
  unfold restore_from, __restore_from.
  rewrite bind_run. unfold readline at 1. cbn [fileobj factory loader_log].
  destruct ls as [|l rest]; rewrite bind_run.
  - assert (Hloop : restore_loop c fuel "" (mkLoader fa [] lg) =
                    (Ok Returned, mkLoader fa [] lg)) by (by destruct fuel).
    rewrite Hloop, bind_run, Hend. done.
  - simpl in Hall, Hfuel. apply andb_true_iff in Hall as [Hl Hall].
    rewrite restore_loop_plain_lines by (done || lia).
    rewrite bind_run, Hend. done.
Qed.

Lemma restore_loop_header (fuel : nat) (t a : string) (st : Loader) :
  header_name t = true ->
  startswith t "[" = false ->
  header_name a = true ->
  restore_loop c (S fuel) ("[" +:+ t +:+ ":" +:+ a +:+ "]" +:+ nl) st =
  (log_r "info" ("new " +:+ t +:+ " : " +:+ a);;
   r ← try_except (header_body c t a)
         (λ e, log_r "err" "Bad config line";;
               l' ← readline;
               mret (Continue l'));
   match r with
   | Continue l' => restore_loop c fuel l'
   | LoadFrom component =>
       component_load_from c component;;
       l' ← readline;
       restore_loop c fuel l'
   end) st.
Proof.
  intros (Ht1 & Ht2 & Ht3 & Ht4 & Ht5)%header_name_spec Hstart
         (Hsp & Hbar & Hcol & Hbr & Hnl)%header_name_spec.
  set (l := "[" +:+ t +:+ ":" +:+ a +:+ "]" +:+ nl).
  assert (Hsub : re_sub_char " " "" l = l).
  { apply re_sub_char_id. unfold l. by rewrite !has_char_app, Hsp, Ht1. }
  assert (Hsplit : split "|" l = [l]).
  { apply split_id. unfold l. by rewrite !has_char_app, Hbar, Ht2. }
  assert (Hcolon : split ":" l = ["[" +:+ t; a +:+ "]" +:+ nl]).
  { unfold l. rewrite <- (append_assoc "[" t).
    change (":" +:+ a +:+ "]" +:+ nl) with (String ":" (a +:+ "]" +:+ nl)).
    rewrite split_sep by (by rewrite has_char_app, Ht3).
    rewrite split_id; [done|]. by rewrite !has_char_app, Hcol. }
  assert (Hntype : hd "" (split ":" (lstrip ["["%char] l)) = t).
  { unfold l. change ("[" +:+ t +:+ ":" +:+ a +:+ "]" +:+ nl) with
      (String "[" (t +:+ ":" +:+ a +:+ "]" +:+ nl)).
    cbn [lstrip existsb]. change (Ascii.eqb "[" "[") with true. cbn [orb].
    rewrite lstrip_stop by (by apply startswith_app).
    change (":" +:+ a +:+ "]" +:+ nl) with (String ":" (a +:+ "]" +:+ nl)).
    by rewrite split_sep. }
  cbn [restore_loop]. fold l.
  change (String.eqb l "") with false. cbv beta iota.
  rewrite Hsub.
  rewrite bind_run, Hsplit. cbn [length]. rewrite andb_false_r.
  cbv beta iota delta [mret SE_ret ret].
  rewrite bind_run, Hsplit. cbn [length]. rewrite andb_false_r.
  cbv beta iota.
  change (startswith l "[") with (String.prefix "" (t +:+ ":" +:+ a +:+ "]" +:+ nl)).
  rewrite prefix_empty. cbv beta iota.
  rewrite Hntype, Hcolon.
  rewrite !bind_run. unfold lift at 1, index. cbn [lookup list_lookup].
  rewrite rstrip_bracket by done. reflexivity.
Qed.








Lemma save_to_one_image (img : DiskImage) :
  save_to c (mkFactory [] [img] [] [] []) =
  (Ok tt,
   fold_right String.append ""
     [ "[DiskImage:" +:+ img_name img +:+ "]" +:+ nl;
       "path=" +:+ img_path img +:+ nl; nl ]).
Proof.
  unfold save_to, __save_to.
  cbn [remote_hosts disk_images events bricks for_each save_bricks fold_right].
  repeat (rewrite bind_run; cbv beta iota delta [write mret SE_ret ret]).
  change ("" +:+ ?x) with x. by rewrite !append_assoc.
Qed.

Lemma saved_image_lines (img : DiskImage) :
  has_char newline (img_name img) = false ->
  has_char newline (img_path img) = false ->
  readlines (save_to c (mkFactory [] [img] [] [] [])).2 =
  [ "[DiskImage:" +:+ img_name img +:+ "]" +:+ nl;
    "path=" +:+ img_path img +:+ nl; nl ].
Proof.
  intros Hn Hp. rewrite save_to_one_image. cbn [snd fold_right].
  unfold readlines. rewrite !append_assoc.
  rewrite readlines_from_line3 by done. f_equal.
  rewrite readlines_from_line2 by done. f_equal.
Qed.

Lemma disk_image_loop_saved (p : string) :
  has_char newline p = false ->
  rstrip whitespace p = p ->
  disk_image_loop [nl] (rstrip [newline] ("path=" +:+ p +:+ nl)) "" =
  (Ok (p, ""), []).
Proof.
  intros Hnl Hws.
  rewrite <- (append_assoc "path=" p nl).
  rewrite rstrip_newline by (by rewrite has_char_app, Hnl).
  cbn [disk_image_loop].
  change (String.eqb ("path=" +:+ p) "" || startswith ("path=" +:+ p) "[")
    with false. cbv beta iota.
  unfold strip. rewrite (rstrip_app_fixed whitespace "path=" p) by done.
  change (lstrip whitespace ("path=" +:+ p)) with ("path=" +:+ p).
  change (String.eqb ("path=" +:+ p) "") with false. cbv beta iota.
  change (split1 "=" ("path=" +:+ p)) with ["path"; p].
  reflexivity.
Qed.

(** The section [__save_to] writes for a disk image, read back by
    [__restore_from]: when the name is not in use and the file can be
    read, [new_disk_image] is called with the path as it was saved
    (spaces inside and [=] included), and with nothing else: the name of
    the header is only asked about with [is_in_use]. *)
Theorem saved_disk_image_restored (fuel : nat) (img : DiskImage)
    (fa fa' : Factory) :
  header_name (img_name img) = true ->
  has_char newline (img_path img) = false ->
  rstrip whitespace (img_path img) = img_path img ->
  is_in_use c (img_name img) fa = false ->
  os_access_read c (img_path img) = true ->
  new_disk_image c (img_path img) fa = Ok fa' ->
  (forall b, b ∈ bricks fa' -> config_socks b = []) ->
  (0 < fuel)%nat ->
  restore_from c fuel
    (mkLoader fa (readlines (save_to c (mkFactory [] [img] [] [] [])).2) []) =
  (Ok Returned,
   mkLoader fa' []
     [("info", "new DiskImage : " +:+ img_name img);
      ("debug", "Found Disk image " +:+ img_name img)]).
Proof.
  intros Hname Hnl Hws Huse Hread Hnew Hsocks Hfuel.
  assert (Hnn : has_char newline (img_name img) = false).
  { by apply header_name_spec in Hname as (_ & _ & _ & _ & Hn). }
  rewrite saved_image_lines by done.
  destruct fuel as [|fuel]; [lia|].
  unfold restore_from, __restore_from.
  rewrite bind_run. unfold readline at 1. cbn [fileobj factory loader_log].
  change ("[DiskImage:" +:+ img_name img +:+ "]" +:+ nl) with
    ("[" +:+ "DiskImage" +:+ ":" +:+ img_name img +:+ "]" +:+ nl).
  rewrite bind_run, restore_loop_header by done.
  change ("new " +:+ "DiskImage" +:+ " : " +:+ img_name img) with
    ("new DiskImage : " +:+ img_name img).
  rewrite bind_run. unfold log_r at 1. cbn [fileobj factory loader_log app].
  rewrite bind_run, try_except_run.
  unfold header_body.
  change (String.eqb "DiskImage" "Event") with false.
  change (String.eqb "DiskImage" "DiskImage") with true.
  cbv beta iota.
  rewrite bind_run. unfold log_r at 1. cbn [fileobj factory loader_log app].
  rewrite bind_run. unfold readline at 1. cbn [fileobj factory loader_log].
  rewrite bind_run. unfold get_state at 1. cbv beta iota.
  cbn [fileobj factory loader_log].
  rewrite disk_image_loop_saved by done.
  rewrite bind_run. unfold put_state at 1. cbv beta iota.
  rewrite bind_run. unfold lift at 1. cbv beta iota.
  rewrite Huse, Hread. cbn [negb]. cbv beta iota.
  rewrite bind_run. unfold with_factory at 1. cbn [fileobj factory loader_log].
  rewrite Hnew. cbv beta iota delta [mret SE_ret ret].
  assert (Hloop : forall st, restore_loop c fuel "" st = (Ok Returned, st))
    by (intros st; by destruct fuel).
  rewrite Hloop, bind_run.
  rewrite for_bricks_unchanged; [done|].
  intros j bb Hj. cbn [factory] in Hj.
  by rewrite (Hsocks bb) by (by eapply list_elem_of_lookup_2).
Qed.





(** The type of a record is searched for anywhere in its line: a
    [link|] record of a brick whose name ends in [sock] is handled by the
    [sock|] branch first and by the [link|] branch after it. *)
Theorem link_record_also_read_as_sock (fuel : nat) (pre nick rest : string)
    (st : Loader) :
  record_field pre = true ->
  record_field nick = true ->
  has_char " " rest = false ->
  has_char newline rest = false ->
  restore_loop c (S fuel)
    ("link|" +:+ pre +:+ "sock|" +:+ nick +:+ "|" +:+ rest +:+ nl) st =
  (log_r "debug" "sock detected";;
   sock_line c ("link|" +:+ pre +:+ "sock|" +:+ nick +:+ "|" +:+ rest);;
   log_r "debug" "link detected";;
   link_line c ("link|" +:+ pre +:+ "sock|" +:+ nick +:+ "|" +:+ rest);;
   l' ← readline;
   restore_loop c fuel l') st.
Proof.
  intros (Hp1 & Hp2 & Hp3)%record_field_spec
         (Hn1 & Hn2 & Hn3)%record_field_spec Hr1 Hr3.
  set (l0 := "link|" +:+ pre +:+ "sock|" +:+ nick +:+ "|" +:+ rest).
  assert (Hl : "link|" +:+ pre +:+ "sock|" +:+ nick +:+ "|" +:+ rest +:+ nl =
               l0 +:+ nl).
  { unfold l0. by rewrite !append_assoc. }
  assert (Hnl0 : has_char newline l0 = false).
  { unfold l0. by rewrite !has_char_app, Hp3, Hn3, Hr3. }
  assert (Hsub : re_sub_char " " "" (l0 +:+ nl) = l0 +:+ nl).
  { apply re_sub_char_id. unfold l0.
    by rewrite !has_char_app, Hp1, Hn1, Hr1. }
  assert (Hlen : forall s,
            (3 <=? length (split "|"
               ("link|" +:+ pre +:+ "sock|" +:+ nick +:+ "|" +:+ s)))%nat
            = true).
  { intros s.
    change ("link|" +:+ pre +:+ "sock|" +:+ nick +:+ "|" +:+ s) with
      ("link" +:+ String "|" (pre +:+ "sock|" +:+ nick +:+ "|" +:+ s)).
    rewrite split_sep by done.
    change (pre +:+ "sock|" +:+ nick +:+ "|" +:+ s) with
      (pre +:+ "sock" +:+ String "|" (nick +:+ "|" +:+ s)).
    rewrite <- (append_assoc pre "sock").
    rewrite split_sep by (by rewrite has_char_app, Hp2).
    destruct (split_cons "|" (nick +:+ "|" +:+ s)) as (w & ws & ->). done. }
  assert (Hlen0 : (3 <=? length (split "|" l0))%nat = true) by apply Hlen.
  assert (Hlen1 : (3 <=? length (split "|" (l0 +:+ nl)))%nat = true).
  { rewrite <- Hl. apply Hlen. }
  assert (Hsock : re_search_anywhere "sock|" (l0 +:+ nl) = true).
  { unfold re_search_anywhere. rewrite first_line_line by done.
    unfold l0. rewrite <- (append_assoc "link|" pre).
    apply (contains_app "sock|"). }
  assert (Hlink0 : re_search_anywhere "link|" l0 = true).
  { unfold re_search_anywhere. rewrite first_line_clean by done.
    unfold l0. apply (contains_app "link|" ""). }
  rewrite Hl. cbn [restore_loop].
  assert (Hne : String.eqb (l0 +:+ nl) "" = false) by done.
  rewrite Hne, Hsub.
  change (match length (split "|" (l0 +:+ nl)) with
          | S (S (S _)) => true | _ => false end)
    with (3 <=? length (split "|" (l0 +:+ nl)))%nat.
  rewrite Hsock, Hlen1. cbn [andb].
  rewrite rstrip_newline by done.
  repeat (first [rewrite bind_run | progress (unfold log_r)
                | progress (cbv beta iota)]).
  destruct (sock_line c l0 _) as [[[]|e] st1]; [|done].
  cbv beta iota delta [mret SE_ret ret].
  rewrite Hlink0.
  change (match length (split "|" l0) with
          | S (S (S _)) => true | _ => false end)
    with (3 <=? length (split "|" l0))%nat.
  rewrite Hlen0. cbn [andb].
  rewrite rstrip_clean by done.
  repeat (first [rewrite bind_run | progress (cbv beta iota)]).
  destruct (link_line c l0 _) as [[[]|e] st2]; [|done].
  cbv beta iota.
  by change (startswith l0 "[") with false.
Qed.

End Loading.

Section LoadingExamples.
Import Bricks Configfile.

Lemma trailer_record_dropped_witness :
  sock_line Examples.plain_collab "sock|sw9|nic|e1000|00:11"
    (mkLoader Examples.factory_vm1 [] []) =
    (Ok tt, mkLoader Examples.factory_vm1 [] []) /\
  ((forall b, b ∈ bricks Examples.factory_vm1 -> name b <> "sw9") ->
   link_line Examples.plain_collab "sock|sw9|nic|e1000|00:11"
     (mkLoader Examples.factory_vm1 [] []) =
     (Ok tt, mkLoader Examples.factory_vm1 [] [])).
Proof.
  apply (trailer_record_dropped Examples.plain_collab
           "sock|sw9|nic|e1000|00:11" (mkLoader Examples.factory_vm1 [] [])
           "sw9").
  - reflexivity.
  - intros b Hb. cbn in Hb. apply list_elem_of_singleton in Hb as ->.
    discriminate.
Defined.

Lemma unmarked_lines_load_nothing_witness :
  restore_from Examples.plain_collab 5
    (mkLoader Examples.factory_vm1
       ["# saved by hand" +:+ nl; nl; "name = value" +:+ nl] []) =
  (Ok Returned, mkLoader Examples.factory_vm1 [] []).
Proof.
  apply (unmarked_lines_load_nothing Examples.plain_collab 5
           Examples.factory_vm1
           ["# saved by hand" +:+ nl; nl; "name = value" +:+ nl] []).
  - reflexivity.
  - simpl. lia.
  - intros b Hb. cbn in Hb. apply list_elem_of_singleton in Hb as ->.
    reflexivity.
Defined.


Lemma saved_disk_image_restored_witness :
  restore_from Examples.plain_collab 5
    (mkLoader Examples.factory_vm1
       (readlines
          (save_to Examples.plain_collab
             (mkFactory [] [More.debian] [] [] [])).2) []) =
  (Ok Returned,
   mkLoader Examples.factory_vm1 []
     [("info", "new DiskImage : " +:+ img_name More.debian);
      ("debug", "Found Disk image " +:+ img_name More.debian)]).
Proof.
  apply (saved_disk_image_restored Examples.plain_collab 5 More.debian
           Examples.factory_vm1 Examples.factory_vm1).
  - reflexivity.
  - reflexivity.
  - reflexivity.
  - reflexivity.
  - reflexivity.
  - reflexivity.
  - intros b Hb. cbn in Hb. apply list_elem_of_singleton in Hb as ->.
    reflexivity.
  - lia.
Defined.




Lemma link_record_also_read_as_sock_witness :
  restore_loop Examples.plain_collab 1
    ("link|" +:+ "my" +:+ "sock|" +:+ "nic0" +:+ "|" +:+ "e1000|00:11" +:+ nl)
    (mkLoader Examples.factory_vm1 [] []) =
  (log_r "debug" "sock detected";;
   sock_line Examples.plain_collab
     ("link|" +:+ "my" +:+ "sock|" +:+ "nic0" +:+ "|" +:+ "e1000|00:11");;
   log_r "debug" "link detected";;
   link_line Examples.plain_collab
     ("link|" +:+ "my" +:+ "sock|" +:+ "nic0" +:+ "|" +:+ "e1000|00:11");;
   l' ← readline;
   restore_loop Examples.plain_collab 0 l')
    (mkLoader Examples.factory_vm1 [] []).
Proof.
  apply (link_record_also_read_as_sock Examples.plain_collab 0 "my" "nic0"
           "e1000|00:11" (mkLoader Examples.factory_vm1 [] [])).
  - reflexivity.
  - reflexivity.
  - reflexivity.
  - reflexivity.
Defined.

End LoadingExamples.
